(** * Health portal: rule-based symptom analysis and outbreak detection

    A shallow embedding of

    - [backend/services/mlService.js]: [analyzeSymptoms], [extractFeatures],
      [generateRecommendations], [shouldFlagForReview];
    - the [DiseaseOutbreak] model: [detectNewOutbreaks].

    Conventions of the embedding.

    - A JavaScript [Number] is an exact rational ([Q]).  Every constant of
      the scorer is a decimal fraction with at most two digits, and the
      rationals keep them exact; [NaN] and the infinities have no
      counterpart.  The code adds binary floating-point numbers: the sum it
      holds before the rounding to three decimals can lie one unit in the
      last place beside the exact sum, which the rounding removes from the
      returned score but not from the comparisons made on the sum before
      the rounding.  The statements on those comparisons leave out the
      scores that sit on a threshold (0.4, 0.6, 0.7, 0.8).
    - [Math.random()] and [new Date()] are inputs of the functions that
      call them; so is the time zone of the server, for the function that
      reads the local calendar.
    - A [throw] is [None]; [try { ... } catch] is a [match] on the option.
    - A Mongo collection is the list of its documents. *)

From Stdlib Require Import String Ascii List Bool Arith ZArith QArith Qround Qminmax.
From Stdlib Require Import Lia Lqa DecimalString Permutation Sorted.
From Stdlib Require SpecFloat.
Import ListNotations.

Set Implicit Arguments.

(** ** JavaScript primitives used by the sources *)

Module JS.

Open Scope string_scope.

(** [String.prototype.toLowerCase], on the ASCII letters. *)
Definition lower_ascii (c : ascii) : ascii :=
  let n := nat_of_ascii c in
  if (65 <=? n)%nat && (n <=? 90)%nat then ascii_of_nat (n + 32) else c.

Fixpoint toLowerCase (s : string) : string :=
  match s with
  | EmptyString => EmptyString
  | String c rest => String (lower_ascii c) (toLowerCase rest)
  end.

(** [String.prototype.includes]: [needle] occurs somewhere in [s]. *)
Fixpoint includes (s needle : string) : bool :=
  String.prefix needle s ||
  match s with
  | EmptyString => false
  | String _ rest => includes rest needle
  end.

(** [Array.prototype.includes] on an array of strings. *)
Definition arr_includes (arr : list string) (x : string) : bool :=
  existsb (String.eqb x) arr.

(** [Array.prototype.indexOf] on an array of strings; [None] is [-1]. *)
Fixpoint indexOf (arr : list string) (x : string) : option nat :=
  match arr with
  | [] => None
  | y :: rest =>
      if String.eqb y x then Some 0%nat
      else option_map S (indexOf rest x)
  end.

(** [Math.round]: nearest integer, ties towards plus infinity. *)
Definition Math_round (x : Q) : Z := Qfloor (x + (1 # 2)).

Definition Math_min (x y : Q) : Q := Qmin x y.

(** [Math.round(x * 1000) / 1000]. *)
Definition round3 (x : Q) : Q := Math_round (x * 1000) # 1000.

(** Comparisons of numbers, as booleans. *)
Definition gt (x y : Q) : bool := negb (Qle_bool x y).
Definition ge (x y : Q) : bool := Qle_bool y x.
Definition lt (x y : Q) : bool := negb (Qle_bool y x).

(** A property that may be [undefined]: truthiness of a number-valued
    one, [v || d], and comparison ([undefined > c] and [undefined < c]
    are false). *)
Definition truthy (v : option Q) : bool :=
  match v with
  | Some x => negb (Qeq_bool x 0)
  | None => false
  end.

Definition or_default (v : option Q) (d : Q) : Q :=
  match v with
  | Some x => if Qeq_bool x 0 then d else x
  | None => d
  end.

Definition gt_opt (v : option Q) (c : Q) : bool :=
  match v with Some x => gt x c | None => false end.

Definition lt_opt (v : option Q) (c : Q) : bool :=
  match v with Some x => lt x c | None => false end.

(** *** Property lookup on an object literal

    [obj[key]] on an object written as a literal finds the object's own
    properties first and then those of [Object.prototype]. *)

Definition Object_prototype_keys : list string :=
  [ "constructor"; "__defineGetter__"; "__defineSetter__"; "hasOwnProperty";
    "__lookupGetter__"; "__lookupSetter__"; "isPrototypeOf";
    "propertyIsEnumerable"; "toString"; "valueOf"; "__proto__";
    "toLocaleString" ].

Inductive Lookup (A : Type) : Type :=
| Own (v : A)          (* an own property of the literal *)
| Inherited            (* a function or object of [Object.prototype] *)
| Undefined.

Arguments Inherited {A}.
Arguments Undefined {A}.

Fixpoint own_property {A : Type} (obj : list (string * A)) (key : string)
  : option A :=
  match obj with
  | [] => None
  | (k, v) :: rest => if String.eqb k key then Some v else own_property rest key
  end.

Definition get {A : Type} (obj : list (string * A)) (key : string) : Lookup A :=
  match own_property obj key with
  | Some v => Own v
  | None =>
      if arr_includes Object_prototype_keys key then Inherited else Undefined
  end.

End JS.

(** ** [backend/services/mlService.js] *)

Module MLService.

Import JS.
Open Scope string_scope.
Open Scope list_scope.
Open Scope Q_scope.

(** *** The symptom record (models/SymptomRecord) *)

Record Symptom : Type := mkSymptom {
  name : string;
  severity : Q;
  duration_value : Q;
  duration_unit : string
}.

Record BloodPressure : Type := mkBloodPressure {
  systolic : option Q;
  diastolic : option Q
}.

(** [temperature] stands for [temperature?.value]. *)
Record VitalSigns : Type := mkVitalSigns {
  temperature : option Q;
  bloodPressure : option BloodPressure;
  heartRate : option Q;
  respiratoryRate : option Q;
  oxygenSaturation : option Q
}.

Definition no_vitals : VitalSigns := mkVitalSigns None None None None None.

Record AdditionalInfo : Type := mkAdditionalInfo {
  recentTravel : bool;
  recentExposure : bool
}.

(** [patientAge] stands for [patientId.age], present only when the
    patient reference has been populated. *)
Record SymptomRecord : Type := mkSymptomRecord {
  patientAge : option Q;
  symptoms : list Symptom;
  vitalSigns : option VitalSigns;
  additionalInfo : option AdditionalInfo
}.

Record ModelRecord : Type := mkModelRecord {
  model_name : string;
  version : string
}.

(** *** The service object *)

Record FeatureEncoder : Type := mkFeatureEncoder {
  enc_symptoms : list string;
  enc_syndromes : list string
}.

(** [featureEncoder] is [null] until [initializeEncoders] has run. *)
Record Service : Type := mkService {
  featureEncoder : option FeatureEncoder
}.

Definition constructor : Service := mkService None.

(** The encoder [initializeEncoders] falls back to. *)
Definition default_encoder : FeatureEncoder :=
  mkFeatureEncoder
    [ "fever"; "cough"; "headache"; "fatigue"; "nausea"; "vomiting";
      "diarrhea"; "abdominal_pain"; "chest_pain"; "shortness_of_breath";
      "dizziness" ]
    [ "respiratory_infection"; "gastrointestinal"; "flu"; "common_cold";
      "neurological"; "cardiac"; "unknown" ].

(** *** The analysis result *)

Record AnalysisResult : Type := mkAnalysisResult {
  riskScore : Q;
  predictedSyndrome : string;
  confidence : Q;
  recommendations : list string;
  flaggedForReview : bool;
  analysisTimestamp : Z;
  modelVersion : string;
  error : option string
}.

(** *** [extractFeatures] *)

Fixpoint set_nth (v : list Q) (i : nat) (x : Q) : list Q :=
  match v, i with
  | [], _ => []
  | _ :: rest, O => x :: rest
  | y :: rest, S j => y :: set_nth rest j x
  end.

Definition vitals_of (r : SymptomRecord) : VitalSigns :=
  match vitalSigns r with Some v => v | None => no_vitals end.

Definition bp_field (v : VitalSigns) (f : BloodPressure -> option Q) : option Q :=
  match bloodPressure v with Some bp => f bp | None => None end.

Definition info_flag (r : SymptomRecord) (f : AdditionalInfo -> bool) : bool :=
  match additionalInfo r with Some i => f i | None => false end.

(** Reading [this.featureEncoder.symptoms] throws while the encoder is
    [null]. *)
Definition extractFeatures (this : Service) (symptomRecord : SymptomRecord)
  : option (list Q) :=
  match featureEncoder this with
  | None => None
  | Some enc =>
      let symptomVector :=
        fold_left
          (fun vec symptom =>
             match indexOf (enc_symptoms enc) (toLowerCase (name symptom)) with
             | Some index => set_nth vec index 1
             | None => vec
             end)
          (symptoms symptomRecord)
          (repeat 0 (length (enc_symptoms enc))) in
      let count := inject_Z (Z.of_nat (length (symptoms symptomRecord))) in
      (* with no symptom the quotient is [NaN] in the source and 0 here *)
      let avgSeverity :=
        fold_left (fun sum s => sum + severity s) (symptoms symptomRecord) 0
        / count in
      let vitals := vitals_of symptomRecord in
      let temp := or_default (temperature vitals) 98.6 in
      let systolic := or_default (bp_field vitals systolic) 120 in
      let diastolic := or_default (bp_field vitals diastolic) 80 in
      let heartRate := or_default (heartRate vitals) 72 in
      let respRate := or_default (respiratoryRate vitals) 16 in
      let oxygenSat := or_default (oxygenSaturation vitals) 98 in
      Some
        (symptomVector ++
         [ avgSeverity / 10;
           count / 20;
           (temp - 95) / 10;
           (systolic - 80) / 100;
           (diastolic - 50) / 80;
           (heartRate - 40) / 120;
           (respRate - 8) / 32;
           (oxygenSat - 70) / 30;
           if info_flag symptomRecord recentTravel then 1 else 0;
           if info_flag symptomRecord recentExposure then 1 else 0;
           if truthy (patientAge symptomRecord)
           then or_default (patientAge symptomRecord) 0 / 100
           else 0.5 ])
  end.

(** *** [generateRecommendations] *)

Definition risk_block (riskScore : Q) : list string :=
  if ge riskScore 0.8 then
    [ "Seek immediate medical attention"; "Consider emergency room visit" ]
  else if ge riskScore 0.6 then
    [ "Schedule urgent appointment with healthcare provider";
      "Monitor symptoms closely" ]
  else if ge riskScore 0.4 then
    [ "Schedule routine appointment with healthcare provider";
      "Continue monitoring symptoms" ]
  else
    [ "Continue self-care and monitoring";
      "Seek medical attention if symptoms worsen" ].

Definition syndrome_block (syndrome : string) : list string :=
  let s := toLowerCase syndrome in
  if String.eqb s "respiratory infection" then
    [ "Rest and stay hydrated"; "Use humidifier if available";
      "Avoid close contact with others" ]
  else if String.eqb s "gastrointestinal" then
    [ "Maintain hydration";
      "Follow BRAT diet (bananas, rice, applesauce, toast)";
      "Avoid dairy and fatty foods" ]
  else if String.eqb s "fever" then
    [ "Monitor temperature regularly"; "Stay hydrated";
      "Use fever-reducing medications as directed" ]
  else
    [ "Follow general illness care guidelines" ].

Definition symptom_lines (symptomRecord : SymptomRecord) : list string :=
  let hasFever :=
    existsb (fun s => includes (toLowerCase (name s)) "fever"
                      || includes (toLowerCase (name s)) "temperature")
            (symptoms symptomRecord) in
  let hasCough :=
    existsb (fun s => includes (toLowerCase (name s)) "cough")
            (symptoms symptomRecord) in
  (if hasFever then [ "Monitor temperature every 4 hours" ] else [])
  ++ (if hasCough
      then [ "Use cough suppressants as needed"; "Avoid irritants like smoke" ]
      else []).

Definition generateRecommendations
  (riskScore : Q) (syndrome : string) (symptomRecord : SymptomRecord)
  : list string :=
  risk_block riskScore ++ syndrome_block syndrome ++ symptom_lines symptomRecord.

(** *** [shouldFlagForReview] *)

Definition shouldFlagForReview
  (riskScore confidence : Q) (symptomRecord : SymptomRecord) : bool :=
  if ge riskScore 0.7 then true
  else if lt confidence 0.3 then true
  else
    let severeSymptoms :=
      length (filter (fun s => ge (severity s) 8) (symptoms symptomRecord)) in
    if (2 <=? severeSymptoms)%nat then true
    else if info_flag symptomRecord recentTravel
            || info_flag symptomRecord recentExposure then true
    else
      let vitals := vitals_of symptomRecord in
      if gt_opt (temperature vitals) 103
         || gt_opt (heartRate vitals) 100
         || lt_opt (oxygenSaturation vitals) 95 then true
      else false.

(** *** [analyzeSymptoms] *)

Definition symptomWeights : list (string * Q) :=
  [ ("fever", 0.3);
    ("chest_pain", 0.4);
    ("shortness_of_breath", 0.3);
    ("dizziness", 0.2);
    ("severe_headache", 0.2);
    ("cough", 0.15);
    ("headache", 0.1);
    ("fatigue", 0.1);
    ("nausea", 0.15);
    ("vomiting", 0.2);
    ("diarrhea", 0.15);
    ("abdominal_pain", 0.2) ].

(** The [forEach] over the symptom names.  An own weight is added when it
    is truthy.  An inherited property is truthy too: [riskScore += ...]
    then turns [riskScore] into a string and the [riskScore.toFixed(3)] of
    the log line throws a TypeError. *)
Fixpoint add_symptom_weights (symptomNames : list string) (riskScore : Q)
  : option Q :=
  match symptomNames with
  | [] => Some riskScore
  | symptom :: rest =>
      match get symptomWeights symptom with
      | Own w =>
          if truthy (Some w) then add_symptom_weights rest (riskScore + w)
          else add_symptom_weights rest riskScore
      | Inherited => None
      | Undefined => add_symptom_weights rest riskScore
      end
  end.

Definition add_vital_signs (vitals : VitalSigns) (riskScore : Q) : Q :=
  let riskScore :=
    if truthy (temperature vitals) && gt_opt (temperature vitals) 102
    then riskScore + 0.2 else riskScore in
  let riskScore :=
    if truthy (heartRate vitals) && gt_opt (heartRate vitals) 100
    then riskScore + 0.1 else riskScore in
  let riskScore :=
    if truthy (oxygenSaturation vitals) && lt_opt (oxygenSaturation vitals) 95
    then riskScore + 0.3 else riskScore in
  riskScore.

(** [Object.entries(syndromeRules)]: the entries in the order written. *)
Definition syndromeRules : list (string * list string) :=
  [ ("respiratory_infection",
      [ "fever"; "cough"; "shortness_of_breath"; "chest_pain" ]);
    ("gastrointestinal",
      [ "nausea"; "vomiting"; "diarrhea"; "abdominal_pain" ]);
    ("flu", [ "fever"; "chills"; "muscle_pain"; "fatigue"; "body_aches" ]);
    ("neurological",
      [ "headache"; "dizziness"; "neck_stiffness"; "severe_headache" ]);
    ("cardiac", [ "chest_pain"; "heart_palpitations"; "shortness_of_breath" ]) ].

(** The [for ... of] loop with its [break]; [predictedSyndrome] starts as
    ["unknown"]. *)
Fixpoint predict_loop (entries : list (string * list string))
  (symptomNames : list string) : string :=
  match entries with
  | [] => "unknown"
  | (syndrome, triggers) :: rest =>
      let matches := filter (fun trigger => arr_includes symptomNames trigger)
                            triggers in
      if (0 <? length matches)%nat then
        if (2 <=? length matches)%nat
           || (String.eqb syndrome "cardiac" && (1 <=? length matches)%nat)
        then syndrome
        else predict_loop rest symptomNames
      else predict_loop rest symptomNames
  end.

Definition predictSyndrome (symptomNames : list string) : string :=
  predict_loop syndromeRules symptomNames.

Definition symptomNames_of (symptomRecord : SymptomRecord) : list string :=
  map (fun s => toLowerCase (name s)) (symptoms symptomRecord).

(** The risk score before the final rounding; [None] when the body
    throws. *)
Definition raw_risk (this : Service) (symptomRecord : SymptomRecord)
  : option Q :=
  match extractFeatures this symptomRecord with
  | None => None
  | Some features =>
      match add_symptom_weights (symptomNames_of symptomRecord) 0.1 with
      | None => None
      | Some riskScore =>
          let riskScore :=
            add_vital_signs (vitals_of symptomRecord) riskScore in
          Some (Math_min riskScore 1)
      end
  end.

Definition model_version (modelRecord : option ModelRecord) : string :=
  match modelRecord with
  | Some m => if String.eqb (version m) "" then "1.0.0" else version m
  | None => "1.0.0"
  end.

(** The result of the [catch] branch. *)
Definition fallback (now : Z) : AnalysisResult :=
  {| riskScore := 0.5;
     predictedSyndrome := "Unknown";
     confidence := 0;
     recommendations := [ "Manual review recommended due to analysis error" ];
     flaggedForReview := true;
     analysisTimestamp := now;
     modelVersion := "1.0.0";
     error := Some "Analysis failed, manual review required" |}.

(** [random] is the value [Math.random()] returns, [now] the clock. *)
Definition analyzeSymptoms (this : Service) (symptomRecord : SymptomRecord)
  (modelRecord : option ModelRecord) (random : Q) (now : Z) : AnalysisResult :=
  match raw_risk this symptomRecord with
  | None => fallback now
  | Some riskScore =>
      let predictedSyndrome := predictSyndrome (symptomNames_of symptomRecord) in
      let confidence := 0.6 + random * 0.3 in
      let recommendations :=
        generateRecommendations riskScore predictedSyndrome symptomRecord in
      let flaggedForReview :=
        shouldFlagForReview riskScore confidence symptomRecord in
      {| riskScore := round3 riskScore;
         predictedSyndrome := predictedSyndrome;
         confidence := round3 confidence;
         recommendations := recommendations;
         flaggedForReview := flaggedForReview;
         analysisTimestamp := now;
         modelVersion := model_version modelRecord;
         error := None |}
  end.

(** *** Validity of a submitted record

    What the schema of [SymptomRecord] and [validateSymptomRecord] accept:
    at least one symptom; names stored trimmed and lower-cased, 2 to 50
    characters long; severities between 1 and 10; durations that are not
    negative, in a known unit; vital signs, when given, within their
    ranges. *)

Definition in_range (lo hi : Q) (v : option Q) : bool :=
  match v with
  | Some x => Qle_bool lo x && Qle_bool x hi
  | None => true
  end.

Definition is_int (x : Q) : bool := Qeq_bool (inject_Z (Qfloor x)) x.

Definition valid_symptom (s : Symptom) : bool :=
  String.eqb (toLowerCase (name s)) (name s)
  && (2 <=? String.length (name s))%nat && (String.length (name s) <=? 50)%nat
  && is_int (severity s) && Qle_bool 1 (severity s) && Qle_bool (severity s) 10
  && Qle_bool 0 (duration_value s)
  && arr_includes [ "minutes"; "hours"; "days"; "weeks" ] (duration_unit s).

Definition valid_vitals (v : VitalSigns) : bool :=
  in_range 90 110 (temperature v)
  && in_range 50 250 (bp_field v systolic)
  && in_range 30 150 (bp_field v diastolic)
  && in_range 30 220 (heartRate v)
  && in_range 5 60 (respiratoryRate v)
  && in_range 70 100 (oxygenSaturation v).

Definition valid (r : SymptomRecord) : bool :=
  (1 <=? length (symptoms r))%nat
  && forallb valid_symptom (symptoms r)
  && valid_vitals (vitals_of r).

End MLService.

(** ** The [DiseaseOutbreak] model: [detectNewOutbreaks]

    Disease names are stored trimmed by the schema of [DiseaseCase], so the
    [trim] setters of the outbreak schema leave them as they are. *)

Module DiseaseOutbreak.

Open Scope string_scope.
Open Scope list_scope.

Inductive Severity : Type := low | medium | high | critical.

Definition Severity_eqb (a b : Severity) : bool :=
  match a, b with
  | low, low | medium, medium | high, high | critical, critical => true
  | _, _ => false
  end.

Module DiseaseCase.

Inductive Status : Type :=
  detected | confirmed | treated | resolved | false_positive.

Record t : Type := mk {
  _id : nat;
  diseaseName : string;
  confidence : Q;
  caseDate : Z;
  location : string;
  severity : Severity;
  isEmergency : bool;
  status : Status
}.

End DiseaseCase.

Module Outbreak.

Inductive Status : Type :=
  detected | confirmed | contained | resolved | false_alarm.

Record t : Type := mk {
  diseaseName : string;
  location : string;
  startDate : Z;
  status : Status;
  severity : Severity;
  totalCases : nat;
  emergencyCases : nat;
  criticalCases : nat;
  resolvedCases : nat;
  averageConfidence : Q;
  threshold : Z;
  timeWindow : Z;
  description : string;
  affectedPatients : list nat;
  isActive : bool
}.

End Outbreak.

(** The two collections. *)
Record Store : Type := mkStore {
  cases : list DiseaseCase.t;
  outbreaks : list Outbreak.t
}.

(** *** The aggregation pipeline over the disease cases *)

(** First [$match]: [caseDate >= startDate], status detected or
    confirmed. *)
Definition match_stage (startDate : Z) (c : DiseaseCase.t) : bool :=
  (startDate <=? DiseaseCase.caseDate c)%Z
  && match DiseaseCase.status c with
     | DiseaseCase.detected | DiseaseCase.confirmed => true
     | _ => false
     end.

(** A document of the [$group] stage; [$avg] is the sum over the count. *)
Record Group : Type := mkGroup {
  g_diseaseName : string;
  g_location : string;
  caseCount : nat;
  emergencyCases : nat;
  criticalCases : nat;
  confidenceSum : Q;
  firstCaseDate : Z;
  lastCaseDate : Z;
  caseIds : list nat
}.

Definition averageConfidence (g : Group) : Q :=
  (confidenceSum g / inject_Z (Z.of_nat (caseCount g)))%Q.

Definition cond (b : bool) : nat := if b then 1%nat else 0%nat.

Definition group_of_case (c : DiseaseCase.t) : Group :=
  {| g_diseaseName := DiseaseCase.diseaseName c;
     g_location := DiseaseCase.location c;
     caseCount := 1;
     emergencyCases := cond (DiseaseCase.isEmergency c);
     criticalCases := cond (Severity_eqb (DiseaseCase.severity c) critical);
     confidenceSum := DiseaseCase.confidence c;
     firstCaseDate := DiseaseCase.caseDate c;
     lastCaseDate := DiseaseCase.caseDate c;
     caseIds := [ DiseaseCase._id c ] |}.

Definition accumulate (g : Group) (c : DiseaseCase.t) : Group :=
  {| g_diseaseName := g_diseaseName g;
     g_location := g_location g;
     caseCount := caseCount g + 1;
     emergencyCases := emergencyCases g + cond (DiseaseCase.isEmergency c);
     criticalCases :=
       criticalCases g + cond (Severity_eqb (DiseaseCase.severity c) critical);
     confidenceSum := (confidenceSum g + DiseaseCase.confidence c)%Q;
     firstCaseDate := Z.min (firstCaseDate g) (DiseaseCase.caseDate c);
     lastCaseDate := Z.max (lastCaseDate g) (DiseaseCase.caseDate c);
     caseIds := caseIds g ++ [ DiseaseCase._id c ] |}.

Definition same_key (d l : string) (d' l' : string) : bool :=
  String.eqb d d' && String.eqb l l'.

Definition in_group (g : Group) (c : DiseaseCase.t) : bool :=
  same_key (g_diseaseName g) (g_location g)
           (DiseaseCase.diseaseName c) (DiseaseCase.location c).

(** [$group]: a case joins the group of its (diseaseName, location) or
    opens a new one.  Mongo leaves the order of the groups open; here they
    come out in the order they were opened, and nothing below depends on
    it. *)
Fixpoint group_insert (groups : list Group) (c : DiseaseCase.t) : list Group :=
  match groups with
  | [] => [ group_of_case c ]
  | g :: rest =>
      if in_group g c then accumulate g c :: rest
      else g :: group_insert rest c
  end.

Definition group_stage (cs : list DiseaseCase.t) : list Group :=
  fold_left group_insert cs [].

Definition aggregate (cs : list DiseaseCase.t) (startDate threshold : Z)
  : list Group :=
  filter (fun g => (threshold <=? Z.of_nat (caseCount g))%Z)
         (group_stage (filter (match_stage startDate) cs)).

(** *** [detectNewOutbreaks] *)

Definition findOne_active (collection : list Outbreak.t) (d l : string)
  : option Outbreak.t :=
  find (fun o => same_key d l (Outbreak.diseaseName o) (Outbreak.location o)
                 && Outbreak.isActive o)
       collection.

Definition severity_of (outbreak : Group) : Severity :=
  if (20 <=? caseCount outbreak)%nat || (5 <=? emergencyCases outbreak)%nat
  then critical
  else if (10 <=? caseCount outbreak)%nat || (3 <=? emergencyCases outbreak)%nat
  then high
  else if (5 <=? caseCount outbreak)%nat then medium
  else low.

Definition show_nat (n : nat) : string := NilZero.string_of_uint (Nat.to_uint n).
Definition show_Z (z : Z) : string := NilZero.string_of_int (Z.to_int z).

(** [new this({ ... })]: status and isActive take the schema defaults. *)
Definition new_outbreak (outbreak : Group) (threshold timeWindow : Z)
  : Outbreak.t :=
  {| Outbreak.diseaseName := g_diseaseName outbreak;
     Outbreak.location := g_location outbreak;
     Outbreak.startDate := firstCaseDate outbreak;
     Outbreak.status := Outbreak.detected;
     Outbreak.severity := severity_of outbreak;
     Outbreak.totalCases := caseCount outbreak;
     Outbreak.emergencyCases := emergencyCases outbreak;
     Outbreak.criticalCases := criticalCases outbreak;
     Outbreak.resolvedCases := 0;
     Outbreak.averageConfidence := averageConfidence outbreak;
     Outbreak.threshold := threshold;
     Outbreak.timeWindow := timeWindow;
     Outbreak.description :=
       "Outbreak detected: " ++ show_nat (caseCount outbreak) ++ " cases of "
       ++ g_diseaseName outbreak ++ " in " ++ g_location outbreak
       ++ " within " ++ show_Z timeWindow ++ " days";
     Outbreak.affectedPatients := caseIds outbreak;
     Outbreak.isActive := true |}.

(** The loop over the potential outbreaks: the state is the outbreak
    collection, which [save] extends, and [newOutbreaks]. *)
Fixpoint detect_loop (potentialOutbreaks : list Group)
  (threshold timeWindow : Z)
  (collection newOutbreaks : list Outbreak.t)
  : list Outbreak.t * list Outbreak.t :=
  match potentialOutbreaks with
  | [] => (collection, newOutbreaks)
  | outbreak :: rest =>
      match findOne_active collection
              (g_diseaseName outbreak) (g_location outbreak) with
      | Some existingOutbreak =>
          detect_loop rest threshold timeWindow collection newOutbreaks
      | None =>
          let newOutbreak := new_outbreak outbreak threshold timeWindow in
          detect_loop rest threshold timeWindow
            (collection ++ [ newOutbreak ]) (newOutbreaks ++ [ newOutbreak ])
      end
  end.

Definition day_ms : Z := 86400000.

Definition default_threshold : Z := 3.
Definition default_timeWindow : Z := 7.

(** *** [Date]: the clock of the server

    A time value is a number of milliseconds since the epoch, in UTC.  The
    local time of the server is the environment of the program:
    [LocalTZA zone t true] is the offset of the zone, in milliseconds, at the
    instant [t], and [LocalTZA zone t false] the offset that holds at the
    local time [t] (the one before the change for a local time that a change
    of offset skips or repeats). *)
Record TimeZone : Type := mkTimeZone {
  LocalTZA : Z -> bool -> Z
}.

Definition LocalTime (zone : TimeZone) (t : Z) : Z := (t + LocalTZA zone t true)%Z.

Definition UTC (zone : TimeZone) (t : Z) : Z := (t - LocalTZA zone t false)%Z.

Definition Day (t : Z) : Z := (t / day_ms)%Z.

Definition TimeWithinDay (t : Z) : Z := (t mod day_ms)%Z.

Definition MakeDate (day time : Z) : Z := (day * day_ms + time)%Z.

(** [date.setDate(date.getDate() - n)] on a date of time value [tv]: the
    new time value.  [setDate] keeps the time within the day of the local
    time [t] and sets its day to
    [MakeDay(YearFromTime(t), MonthFromTime(t), DateFromTime(t) - n)]; a day
    of the month is counted from the first of the month, below 1 into the
    months before, so that day is [Day(t) - n]. *)
Definition setDate_minus (zone : TimeZone) (tv n : Z) : Z :=
  let t := LocalTime zone tv in
  let newDate := MakeDate (Day t - n) (TimeWithinDay t) in
  UTC zone newDate.

(** [now] is the clock read by [new Date()]; [setDate] moves it back by
    [timeWindow] days of the local calendar.  Returns the store after the
    run and [newOutbreaks]. *)
Definition detectNewOutbreaks (zone : TimeZone) (db : Store)
  (threshold timeWindow : Z) (now : Z) : Store * list Outbreak.t :=
  let startDate := setDate_minus zone now timeWindow in
  let potentialOutbreaks := aggregate (cases db) startDate threshold in
  let (collection, newOutbreaks) :=
    detect_loop potentialOutbreaks threshold timeWindow (outbreaks db) [] in
  (mkStore (cases db) collection, newOutbreaks).

(** A sequence of detection runs; the case collection may have changed
    between two runs. *)
Record Run : Type := mkRun {
  run_cases : list DiseaseCase.t;
  run_threshold : Z;
  run_timeWindow : Z;
  run_now : Z
}.

Definition detection_runs (zone : TimeZone) (runs : list Run)
  (collection : list Outbreak.t) : list Outbreak.t :=
  fold_left
    (fun collection r =>
       outbreaks
         (fst (detectNewOutbreaks zone (mkStore (run_cases r) collection)
                 (run_threshold r) (run_timeWindow r) (run_now r))))
    runs collection.

End DiseaseOutbreak.

Import JS MLService.
Open Scope string_scope.
Open Scope list_scope.
Open Scope Q_scope.

(** * The rules as the specification words them *)

Module Spec.

(** The syndrome categories, in priority order. *)
Definition categories : list string :=
  [ "respiratory_infection"; "gastrointestinal"; "flu"; "neurological";
    "cardiac" ].

Definition triggers_of (category : string) : list string :=
  match own_property syndromeRules category with
  | Some triggers => triggers
  | None => []
  end.

(** How many triggers of the category are among the names. *)
Definition triggers_present (names : list string) (category : string) : nat :=
  count_occ bool_dec (map (arr_includes names) (triggers_of category)) true.

(** Two triggers are needed, one for cardiac. *)
Definition triggers_needed (category : string) : nat :=
  if String.eqb category "cardiac" then 1%nat else 2%nat.

Definition category_matches (names : list string) (category : string) : bool :=
  (triggers_needed category <=? triggers_present names category)%nat.

(** First match wins; "unknown" when no category matches. *)
Definition classify (names : list string) : string :=
  match find (category_matches names) categories with
  | Some category => category
  | None => "unknown"
  end.

(** The seven predicates of the review-flagging rule. *)
Definition severe_count (r : SymptomRecord) : nat :=
  length (filter (fun s => Qle_bool 8 (severity s)) (symptoms r)).

Definition reading (f : VitalSigns -> option Q) (r : SymptomRecord) (P : Q -> Prop)
  : Prop :=
  exists x, f (vitals_of r) = Some x /\ P x.

Definition flag_predicate (riskScore confidence : Q) (r : SymptomRecord) : Prop :=
  0.7 <= riskScore
  \/ confidence < 0.3
  \/ (2 <= severe_count r)%nat
  \/ (info_flag r recentTravel = true \/ info_flag r recentExposure = true)
  \/ reading temperature r (fun t => 103 < t)
  \/ reading heartRate r (fun h => 100 < h)
  \/ reading oxygenSaturation r (fun o => o < 95).

(** The four risk tiers and their blocks. *)
Inductive Tier : Type := immediate | urgent | routine | self_care.

Definition tier_block (t : Tier) : list string :=
  match t with
  | immediate =>
      [ "Seek immediate medical attention"; "Consider emergency room visit" ]
  | urgent =>
      [ "Schedule urgent appointment with healthcare provider";
        "Monitor symptoms closely" ]
  | routine =>
      [ "Schedule routine appointment with healthcare provider";
        "Continue monitoring symptoms" ]
  | self_care =>
      [ "Continue self-care and monitoring";
        "Seek medical attention if symptoms worsen" ]
  end.

Definition in_tier (riskScore : Q) (t : Tier) : Prop :=
  match t with
  | immediate => 0.8 <= riskScore
  | urgent => 0.6 <= riskScore /\ riskScore < 0.8
  | routine => 0.4 <= riskScore /\ riskScore < 0.6
  | self_care => riskScore < 0.4
  end.

Definition tier_lines : list string :=
  tier_block immediate ++ tier_block urgent ++ tier_block routine
  ++ tier_block self_care.

(** The outputs of the classifier. *)
Definition classifier_outputs : list string := categories ++ [ "unknown" ].

Definition general_block : list string :=
  [ "Follow general illness care guidelines" ].

Definition respiratory_block : list string :=
  [ "Rest and stay hydrated"; "Use humidifier if available";
    "Avoid close contact with others" ].

Definition fever_block : list string :=
  [ "Monitor temperature regularly"; "Stay hydrated";
    "Use fever-reducing medications as directed" ].

End Spec.

Module RiskSpec.

(** The weight table as the specification lists it. *)
Definition listed_weights : list (string * Q) :=
  [ ("fever", 0.3); ("chest_pain", 0.4); ("shortness_of_breath", 0.3);
    ("dizziness", 0.2); ("cough", 0.15); ("headache", 0.1);
    ("fatigue", 0.1); ("nausea", 0.15); ("vomiting", 0.2);
    ("diarrhea", 0.15); ("abdominal_pain", 0.2) ].

(** The same table with the entry for severe_headache. *)
Definition listed_weights_and_severe_headache : list (string * Q) :=
  ("severe_headache", 0.2) :: listed_weights.

(** The entry of a name, 0 for a name that has none. *)
Definition weight_in (table : list (string * Q)) (n : string) : Q :=
  match own_property table n with
  | Some w => w
  | None => 0
  end.

Definition total (l : list Q) : Q := fold_right Qplus 0 l.

Definition penalty (applies : bool) (p : Q) : Q := if applies then p else 0.

Definition vital_penalties (r : SymptomRecord) : Q :=
  penalty (gt_opt (temperature (vitals_of r)) 102) 0.2
  + penalty (gt_opt (heartRate (vitals_of r)) 100) 0.1
  + penalty (lt_opt (oxygenSaturation (vitals_of r)) 95) 0.3.

(** min(1.0, 0.10 + weights + penalties), rounded to three decimals. *)
Definition risk_formula (table : list (string * Q)) (r : SymptomRecord) : Q :=
  round3
    (Qmin 1
       (0.1 + total (map (weight_in table) (symptomNames_of r))
        + vital_penalties r)).

(** The record with its symptom list deduplicated by lower-cased name,
    the first occurrence of a name being the one that stays. *)
Fixpoint dedupe (seen : list string) (ss : list Symptom) : list Symptom :=
  match ss with
  | [] => []
  | s :: rest =>
      let n := toLowerCase (name s) in
      if arr_includes seen n then dedupe seen rest
      else s :: dedupe (n :: seen) rest
  end.

Definition deduplicated (r : SymptomRecord) : SymptomRecord :=
  mkSymptomRecord (patientAge r) (dedupe [] (symptoms r)) (vitalSigns r)
    (additionalInfo r).

(** Every occurrence counted: over the distinct names, the number of
    occurrences of the name times its weight. *)
Definition weights_by_occurrence (table : list (string * Q))
  (names : list string) : Q :=
  total
    (map (fun n => inject_Z (Z.of_nat (count_occ string_dec names n))
                   * weight_in table n)
         (nodup string_dec names)).

(** No name that occurs twice has a weight. *)
Definition repeats_unweighted (r : SymptomRecord) : Prop :=
  forall n, (1 < count_occ string_dec (symptomNames_of r) n)%nat ->
            own_property symptomWeights n = None.

(** The names that reach [Object.prototype] through the weight table. *)
Definition no_inherited_name (r : SymptomRecord) : Prop :=
  forall n, In n (symptomNames_of r) -> ~ In n Object_prototype_keys.

End RiskSpec.

Import RiskSpec.

Module OutbreakSpec.

Import DiseaseOutbreak.

Definition pair_of (o : Outbreak.t) : string * string :=
  (Outbreak.diseaseName o, Outbreak.location o).

(** An active outbreak for the pair (diseaseName, location). *)
Definition active_for (d l : string) (o : Outbreak.t) : bool :=
  same_key d l (Outbreak.diseaseName o) (Outbreak.location o)
  && Outbreak.isActive o.

Definition has_active (collection : list Outbreak.t) (d l : string) : Prop :=
  exists o, In o collection /\ active_for d l o = true.

(** At most one active outbreak per pair. *)
Definition at_most_one_active (collection : list Outbreak.t) : Prop :=
  forall d l, (length (filter (active_for d l) collection) <= 1)%nat.

(** The records of a pair, active or not. *)
Definition records_of (collection : list Outbreak.t) (d l : string)
  : list Outbreak.t :=
  filter (fun o => same_key d l (Outbreak.diseaseName o) (Outbreak.location o))
         collection.

(** The instant [n] days before [now] on the calendar of the server: the
    same local time, [n] days earlier. *)
Definition days_before (zone : TimeZone) (now n : Z) : Z :=
  UTC zone (LocalTime zone now - n * day_ms)%Z.

(** The cases a run considers: detected or confirmed, dated within the
    [timeWindow] days before [now]. *)
Definition considered (zone : TimeZone) (now timeWindow : Z)
  (c : DiseaseCase.t) : bool :=
  match DiseaseCase.status c with
  | DiseaseCase.detected | DiseaseCase.confirmed => true
  | _ => false
  end
  && (days_before zone now timeWindow <=? DiseaseCase.caseDate c)%Z.

Definition of_pair (d l : string) (c : DiseaseCase.t) : bool :=
  same_key d l (DiseaseCase.diseaseName c) (DiseaseCase.location c).

(** The considered cases of a pair, their number, and the number of
    emergencies among them. *)
Definition group_cases (zone : TimeZone) (cs : list DiseaseCase.t)
  (now timeWindow : Z) (d l : string) : list DiseaseCase.t :=
  filter (fun c => considered zone now timeWindow c && of_pair d l c) cs.

Definition case_count (zone : TimeZone) (cs : list DiseaseCase.t)
  (now timeWindow : Z) (d l : string) : nat :=
  length (group_cases zone cs now timeWindow d l).

Definition emergency_count (zone : TimeZone) (cs : list DiseaseCase.t)
  (now timeWindow : Z) (d l : string) : nat :=
  length (filter DiseaseCase.isEmergency
            (group_cases zone cs now timeWindow d l)).

(** critical from 20 cases or 5 emergencies, else high from 10 cases or 3
    emergencies, else medium from 5 cases, else low. *)
Definition severity_rule (caseCount emergencyCases : nat) (s : Severity) : Prop :=
  let is_critical := (20 <= caseCount \/ 5 <= emergencyCases)%nat in
  let is_high := (10 <= caseCount \/ 3 <= emergencyCases)%nat in
  match s with
  | critical => is_critical
  | high => ~ is_critical /\ is_high
  | medium => ~ is_critical /\ ~ is_high /\ (5 <= caseCount)%nat
  | low => ~ is_critical /\ ~ is_high /\ (caseCount < 5)%nat
  end.

(** The outbreaks the loop creates, given the collection it starts
    from. *)
Fixpoint created (potentialOutbreaks : list Group) (threshold timeWindow : Z)
  (collection : list Outbreak.t) : list Outbreak.t :=
  match potentialOutbreaks with
  | [] => []
  | g :: rest =>
      match findOne_active collection (g_diseaseName g) (g_location g) with
      | Some _ => created rest threshold timeWindow collection
      | None =>
          let o := new_outbreak g threshold timeWindow in
          o :: created rest threshold timeWindow (collection ++ [ o ])
      end
  end.

Definition g_pair (g : Group) : string * string :=
  (g_diseaseName g, g_location g).

Definition c_pair (c : DiseaseCase.t) : string * string :=
  (DiseaseCase.diseaseName c, DiseaseCase.location c).

(** The group of a pair, if there is one. *)
Definition group_for (groups : list Group) (d l : string) : option Group :=
  find (fun g => same_key d l (g_diseaseName g) (g_location g)) groups.

End OutbreakSpec.

Import DiseaseOutbreak OutbreakSpec.

(** * Auxiliary definitions *)

Definition no_tier_line (l : list string) : bool :=
  forallb (fun x => negb (arr_includes Spec.tier_lines x)) l.

Definition no_line_of (block l : list string) : bool :=
  forallb (fun x => negb (arr_includes block x)) l.

Definition weighted (n : string) : bool :=
  match own_property symptomWeights n with Some _ => true | None => false end.

Definition inherited (n : string) : bool :=
  match get symptomWeights n with Inherited => true | _ => false end.

Fixpoint dedupe_names (seen names : list string) : list string :=
  match names with
  | [] => []
  | n :: rest =>
      if arr_includes seen n then dedupe_names seen rest
      else n :: dedupe_names (n :: seen) rest
  end.

Definition repeats_unweighted_check (r : SymptomRecord) : bool :=
  forallb
    (fun n => negb (weighted n)
              || (count_occ string_dec (symptomNames_of r) n <=? 1)%nat)
    (symptomNames_of r).

Definition base_count (g : option Group) : nat :=
  match g with Some g => caseCount g | None => 0%nat end.

Definition base_emergencies (g : option Group) : nat :=
  match g with Some g => emergencyCases g | None => 0%nat end.

Definition flu_at_clinic_A (zone : TimeZone) (now : Z) (c : DiseaseCase.t)
  : Prop :=
  DiseaseCase.diseaseName c = "flu"
  /\ DiseaseCase.location c = "Clinic A"
  /\ DiseaseCase.isEmergency c = false
  /\ considered zone now 7 c = true.

(** * Sample records and stores *)

Definition hour_ms : Z := 3600000.

(** The offsets of America/New_York in 2023: five hours behind UTC, four
    from 12 March, 07:00 UTC (03:00 local time), to 5 November, 06:00 UTC
    (02:00 local time). *)
Definition new_york : TimeZone :=
  mkTimeZone
    (fun t isUTC =>
       if isUTC then
         if (t <? 1678604400000)%Z then (-5 * hour_ms)%Z
         else if (t <? 1699164000000)%Z then (-4 * hour_ms)%Z
         else (-5 * hour_ms)%Z
       else
         if (t <? 1678590000000)%Z then (-5 * hour_ms)%Z
         else if (t <? 1699149600000)%Z then (-4 * hour_ms)%Z
         else (-5 * hour_ms)%Z).

Definition utc : TimeZone := mkTimeZone (fun _ _ => 0%Z).

Definition quiet_record : SymptomRecord :=
  mkSymptomRecord None [ mkSymptom "headache" 3 2 "days" ]
    (Some (mkVitalSigns (Some 98.6) None (Some 72) None (Some 98)))
    (Some (mkAdditionalInfo false false)).

Definition hypoxic_record : SymptomRecord :=
  mkSymptomRecord None [ mkSymptom "headache" 3 2 "days" ]
    (Some (mkVitalSigns None None None None (Some 90))) None.

Definition cough_record : SymptomRecord :=
  mkSymptomRecord None
    [ mkSymptom "fever" 6 2 "days"; mkSymptom "cough" 4 3 "days" ] None None.

Definition feverish_record : SymptomRecord :=
  mkSymptomRecord None
    [ mkSymptom "fever" 7 2 "days"; mkSymptom "severe_headache" 6 1 "days";
      mkSymptom "sore_throat" 3 1 "days" ]
    (Some (mkVitalSigns (Some 102.5) None (Some 88) None (Some 93)))
    (Some (mkAdditionalInfo false false)).

Definition severe_headache_record : SymptomRecord :=
  mkSymptomRecord None [ mkSymptom "severe_headache" 6 1 "days" ] None None.

Definition repeated_unknown_record : SymptomRecord :=
  mkSymptomRecord None
    [ mkSymptom "fever" 7 2 "days"; mkSymptom "sore_throat" 3 1 "days";
      mkSymptom "sore_throat" 4 2 "days" ] None None.

Definition repeated_fever_record : SymptomRecord :=
  mkSymptomRecord None
    [ mkSymptom "fever" 7 2 "days"; mkSymptom "fever" 7 2 "days" ] None None.

Definition digest_run : Run :=
  mkRun
    [ DiseaseCase.mk 1 "flu" 0.8 1699800000000 "Clinic A" low false
        DiseaseCase.detected;
      DiseaseCase.mk 2 "flu" 0.7 1699850000000 "Clinic A" medium false
        DiseaseCase.confirmed;
      DiseaseCase.mk 3 "flu" 0.9 1699900000000 "Clinic A" low true
        DiseaseCase.detected ]
    3 7 1700000000000.

Definition flu_case (id : nat) (date : Z) (status : DiseaseCase.Status)
  : DiseaseCase.t :=
  DiseaseCase.mk id "flu" 0.8 date "Clinic A" low false status.

Definition flu_store : Store :=
  mkStore
    [ flu_case 1 1699500000000 DiseaseCase.detected;
      flu_case 2 1699600000000 DiseaseCase.confirmed;
      flu_case 3 1699700000000 DiseaseCase.detected;
      flu_case 4 1699800000000 DiseaseCase.detected;
      flu_case 5 1699900000000 DiseaseCase.confirmed ]
    [].

(** Five flu cases of November 2023, the first of them dated between seven
    days and seven times 24 hours before 11 November, 22:13:20 UTC. *)
Definition november_flu_store : Store :=
  mkStore
    [ flu_case 1 1699134000000 DiseaseCase.detected;
      flu_case 2 1699300000000 DiseaseCase.confirmed;
      flu_case 3 1699400000000 DiseaseCase.detected;
      flu_case 4 1699500000000 DiseaseCase.detected;
      flu_case 5 1699600000000 DiseaseCase.confirmed ]
    [].

(** * Further functions of the sources *)

(** ** [mlService.js]: [initialize], [initializeEncoders],
    [prepareTrainingData] *)

Module Lifecycle.

(** What an awaited call comes back with. *)
Inductive Outcome (A : Type) : Type :=
| Resolved (a : A)
| Rejected.

Arguments Rejected {A}.

(** The two aggregations give the symptom names and the syndromes found in
    the collection, each list sorted and without repetition; when one of
    them fails the [catch] installs the default lists. *)
Definition initializeEncoders (this : Service)
  (symptoms syndromes : Outcome (list string)) : Service :=
  match symptoms with
  | Resolved symptoms =>
      match syndromes with
      | Resolved syndromes =>
          mkService (Some (mkFeatureEncoder symptoms syndromes))
      | Rejected => mkService (Some default_encoder)
      end
  | Rejected => mkService (Some default_encoder)
  end.

(** [loadModel] ends in a [throw] in every run ([tf] is not defined), that
    the inner [catch] swallows; a rejected [MLModel.findActive()] goes to
    the outer [catch], past [initializeEncoders]. *)
Definition initialize (this : Service)
  (findActive : Outcome (option ModelRecord))
  (symptoms syndromes : Outcome (list string)) : Service :=
  match findActive with
  | Resolved activeModel => initializeEncoders this symptoms syndromes
  | Rejected => this
  end.

(** A training record: a symptom record with its [actualSyndrome]. *)
Record TrainingRecord : Type := mkTrainingRecord {
  record : SymptomRecord;
  actualSyndrome : option string
}.

Definition labelVector (enc : FeatureEncoder) (r : TrainingRecord) : list Q :=
  let labelVector := repeat 0 (length (enc_syndromes enc)) in
  match actualSyndrome r with
  | Some syndrome =>
      match indexOf (enc_syndromes enc) syndrome with
      | Some syndromeIndex => set_nth labelVector syndromeIndex 1
      | None => labelVector
      end
  | None => labelVector
  end.

(** The [forEach] over the records; [None] when [extractFeatures]
    throws. *)
Fixpoint prepareTrainingData (this : Service) (records : list TrainingRecord)
  : option (list (list Q) * list (list Q)) :=
  match records with
  | [] => Some ([], [])
  | r :: rest =>
      match extractFeatures this (record r), featureEncoder this with
      | Some featureVector, Some enc =>
          match prepareTrainingData this rest with
          | Some (features, labels) =>
              Some (featureVector :: features, labelVector enc r :: labels)
          | None => None
          end
      | _, _ => None
      end
  end.

End Lifecycle.

(** ** The [SymptomRecord] model: virtuals, and the analysis it stores *)

Module SymptomRecordModel.

Definition symptomCount (this : SymptomRecord) : nat := length (symptoms this).

Definition averageSeverity (this : SymptomRecord) : Q :=
  if (length (symptoms this) =? 0)%nat then 0
  else
    let totalSeverity :=
      fold_left (fun sum symptom => sum + severity symptom) (symptoms this) 0 in
    totalSeverity / inject_Z (Z.of_nat (length (symptoms this))).

(** The [mlAnalysis] sub-document: the fields of the schema. *)
Record MlAnalysis : Type := mkMlAnalysis {
  ml_riskScore : Q;
  ml_predictedSyndrome : string;
  ml_confidence : Q;
  ml_recommendations : list string;
  ml_flaggedForReview : bool;
  ml_analysisTimestamp : Z
}.

(** Assigning a result to [mlAnalysis] keeps the fields of the schema. *)
Definition stored (result : AnalysisResult) : MlAnalysis :=
  mkMlAnalysis (riskScore result) (predictedSyndrome result) (confidence result)
    (recommendations result) (flaggedForReview result)
    (analysisTimestamp result).

Definition riskLevel (mlAnalysis : MlAnalysis) : string :=
  let score := ml_riskScore mlAnalysis in
  if ge score 0.8 then "high"
  else if ge score 0.5 then "medium"
  else if ge score 0.2 then "low"
  else "minimal".

(** POST /symptoms ([routes]): the analysis the route stores, once the
    record is saved and the service initialised.  [random] is the draw of
    the branch taken; the result and the pre-save hook stamp the analysis
    with the same reading [now] of the clock. *)
Definition submitted_analysis (mlService : Service)
  (symptomRecord : SymptomRecord) (activeModel : option ModelRecord)
  (random : Q) (now : Z) : MlAnalysis :=
  match activeModel with
  | Some m => stored (analyzeSymptoms mlService symptomRecord (Some m) random now)
  | None =>
      mkMlAnalysis (random * 0.8) "Unknown" 0.5
        [ "Manual review recommended - no ML model available" ] true now
  end.

End SymptomRecordModel.

(** ** The [DiseaseOutbreak] model: virtuals, [getOutbreakStats],
    [getActiveOutbreaks], [updateStatistics] *)

Module OutbreakModel.

Import DiseaseOutbreak.

(** [Math.ceil]. *)
Definition Math_ceil (x : Q) : Z := Qceiling x.

(** [endDate] is the field of the document, absent until it is set; [now]
    is the clock read when it is absent. *)
Definition durationInDays (this : Outbreak.t) (endDate : option Z) (now : Z) : Z :=
  let diffTime :=
    match endDate with
    | None => Z.abs (now - Outbreak.startDate this)
    | Some endDate => Z.abs (endDate - Outbreak.startDate this)
    end in
  Math_ceil (inject_Z diffTime / inject_Z (1000 * 60 * 60 * 24)).

Definition Q_of_nat (n : nat) : Q := inject_Z (Z.of_nat n).

Definition resolutionRate (this : Outbreak.t) : Q :=
  if (Outbreak.totalCases this =? 0)%nat then 0
  else Q_of_nat (Outbreak.resolvedCases this)
       / Q_of_nat (Outbreak.totalCases this) * 100.

Definition emergencyRate (this : Outbreak.t) : Q :=
  if (Outbreak.totalCases this =? 0)%nat then 0
  else Q_of_nat (Outbreak.emergencyCases this)
       / Q_of_nat (Outbreak.totalCases this) * 100.

(** *** [getOutbreakStats] *)

Record OutbreakStats : Type := mkOutbreakStats {
  totalOutbreaks : nat;
  activeOutbreaks : nat;
  resolvedOutbreaks : nat;
  criticalOutbreaks : nat;
  totalCases : nat;
  totalEmergencyCases : nat
}.

Definition no_stats : OutbreakStats := mkOutbreakStats 0 0 0 0 0 0.

Definition is_resolved (o : Outbreak.t) : bool :=
  match Outbreak.status o with Outbreak.resolved => true | _ => false end.

Definition add_outbreak (acc : OutbreakStats) (o : Outbreak.t) : OutbreakStats :=
  {| totalOutbreaks := totalOutbreaks acc + 1;
     activeOutbreaks := activeOutbreaks acc + cond (Outbreak.isActive o);
     resolvedOutbreaks := resolvedOutbreaks acc + cond (is_resolved o);
     criticalOutbreaks :=
       criticalOutbreaks acc + cond (Severity_eqb (Outbreak.severity o) critical);
     totalCases := totalCases acc + Outbreak.totalCases o;
     totalEmergencyCases := totalEmergencyCases acc + Outbreak.emergencyCases o |}.

(** [$group] with [_id: null]: one document, none for an empty
    collection. *)
Definition group_all (collection : list Outbreak.t) : list OutbreakStats :=
  match collection with
  | [] => []
  | _ => [ fold_left add_outbreak collection no_stats ]
  end.

Definition getOutbreakStats (collection : list Outbreak.t) : OutbreakStats :=
  match group_all collection with
  | stats0 :: _ => stats0
  | [] => no_stats
  end.

(** *** [getActiveOutbreaks]

    [find({ isActive: true })] sorted by [startDate], latest first; the
    order among equal dates is the one of an insertion from the right. *)

Fixpoint insert_desc (o : Outbreak.t) (sorted : list Outbreak.t)
  : list Outbreak.t :=
  match sorted with
  | [] => [ o ]
  | x :: rest =>
      if (Outbreak.startDate x <=? Outbreak.startDate o)%Z then o :: sorted
      else x :: insert_desc o rest
  end.

Definition sort_desc (l : list Outbreak.t) : list Outbreak.t :=
  fold_right insert_desc [] l.

Definition getActiveOutbreaks (collection : list Outbreak.t) : list Outbreak.t :=
  sort_desc (filter Outbreak.isActive collection).

(** *** [updateStatistics] *)

Definition is_affected (this : Outbreak.t) (c : DiseaseCase.t) : bool :=
  existsb (Nat.eqb (DiseaseCase._id c)) (Outbreak.affectedPatients this)
  && String.eqb (DiseaseCase.diseaseName c) (Outbreak.diseaseName this)
  && String.eqb (DiseaseCase.location c) (Outbreak.location this).

Record CaseStats : Type := mkCaseStats {
  s_totalCases : nat;
  s_emergencyCases : nat;
  s_criticalCases : nat;
  s_resolvedCases : nat;
  s_confidenceSum : Q
}.

Definition case_resolved (c : DiseaseCase.t) : bool :=
  match DiseaseCase.status c with DiseaseCase.resolved => true | _ => false end.

Definition add_case (acc : CaseStats) (c : DiseaseCase.t) : CaseStats :=
  {| s_totalCases := s_totalCases acc + 1;
     s_emergencyCases := s_emergencyCases acc + cond (DiseaseCase.isEmergency c);
     s_criticalCases :=
       s_criticalCases acc + cond (Severity_eqb (DiseaseCase.severity c) critical);
     s_resolvedCases := s_resolvedCases acc + cond (case_resolved c);
     s_confidenceSum := (s_confidenceSum acc + DiseaseCase.confidence c)%Q |}.

Definition case_stats (matched : list DiseaseCase.t) : list CaseStats :=
  match matched with
  | [] => []
  | _ => [ fold_left add_case matched (mkCaseStats 0 0 0 0 0) ]
  end.

(** The document after the refresh ([lastUpdated] is outside the
    model). *)
Definition updateStatistics (this : Outbreak.t) (cases : list DiseaseCase.t)
  : Outbreak.t :=
  match case_stats (filter (is_affected this) cases) with
  | stat :: _ =>
      {| Outbreak.diseaseName := Outbreak.diseaseName this;
         Outbreak.location := Outbreak.location this;
         Outbreak.startDate := Outbreak.startDate this;
         Outbreak.status := Outbreak.status this;
         Outbreak.severity := Outbreak.severity this;
         Outbreak.totalCases := s_totalCases stat;
         Outbreak.emergencyCases := s_emergencyCases stat;
         Outbreak.criticalCases := s_criticalCases stat;
         Outbreak.resolvedCases := s_resolvedCases stat;
         Outbreak.averageConfidence :=
           (s_confidenceSum stat / Q_of_nat (s_totalCases stat))%Q;
         Outbreak.threshold := Outbreak.threshold this;
         Outbreak.timeWindow := Outbreak.timeWindow this;
         Outbreak.description := Outbreak.description this;
         Outbreak.affectedPatients := Outbreak.affectedPatients this;
         Outbreak.isActive := Outbreak.isActive this |}
  | [] => this
  end.

End OutbreakModel.

(** ** [routes/healthcareRoutes.js]: the outbreak routes of the
    administrator

    An outbreak document is kept with its [_id]; a case document carries,
    beside the fields of [DiseaseCase.t], its link to an outbreak.  The
    action log and the recommendations of an outbreak are outside the
    document model, and so is [populate].  Names come trimmed, and the
    strings of a body that go to an enumerated field are taken within the
    enumeration, except where the route relies on the validation of
    [save]. *)

Module AdminRoutes.

Import DiseaseOutbreak OutbreakModel.

Definition hospital : string := "Care and Cure Hospital".

Record CaseDoc : Type := mkCaseDoc {
  doc : DiseaseCase.t;
  isOutbreakRelated : bool;
  outbreakId : option nat
}.

Record Db : Type := mkDb {
  case_docs : list CaseDoc;
  outbreak_docs : list (nat * Outbreak.t)
}.

Definition collection (db : Db) : list Outbreak.t := map snd (outbreak_docs db).

Definition store_of (db : Db) : Store :=
  mkStore (map doc (case_docs db)) (collection db).

(** *** POST /outbreaks/detect *)

Definition body_int (v : option Z) (default : Z) : Z :=
  match v with Some z => z | None => default end.

(** [ids] gives the [_id] of the n-th document [save] inserts. *)
Definition with_ids (ids : nat -> nat) (os : list Outbreak.t)
  : list (nat * Outbreak.t) :=
  combine (map ids (seq 0 (length os))) os.

Definition post_detect (zone : TimeZone) (db : Db)
  (threshold timeWindow : option Z) (ids : nat -> nat) (now : Z)
  : Db * (list Outbreak.t * nat) :=
  let newOutbreaks :=
    snd (detectNewOutbreaks zone (store_of db) (body_int threshold 3)
           (body_int timeWindow 7) now) in
  (mkDb (case_docs db) (outbreak_docs db ++ with_ids ids newOutbreaks),
   (newOutbreaks, length newOutbreaks)).

(** *** POST /outbreaks/manual *)

Record ManualBody : Type := mkManualBody {
  b_diseaseName : string;          (* "" when absent *)
  b_severity : option string;
  b_description : string;          (* "" when absent *)
  b_threshold : option Z;
  b_timeWindow : option Z
}.

Inductive Response : Type :=
| BadRequest (msg : string)
| ServerError
| Declared (outbreak : Outbreak.t) (updatedCases affectedCases : nat).

(** The enumeration of the schema, which [save] validates. *)
Definition parse_severity (s : string) : option Severity :=
  if String.eqb s "low" then Some low
  else if String.eqb s "medium" then Some medium
  else if String.eqb s "high" then Some high
  else if String.eqb s "critical" then Some critical
  else None.

(** The filter of the [updateMany]. *)
Definition unlinked_case (diseaseName : string) (c : CaseDoc) : bool :=
  String.eqb (DiseaseCase.diseaseName (doc c)) diseaseName
  && String.eqb (DiseaseCase.location (doc c)) hospital
  && negb (isOutbreakRelated c).

Definition link_to (id : nat) (c : CaseDoc) : CaseDoc :=
  mkCaseDoc (doc c) true (Some id).

Definition option_nat_eqb (a : option nat) (b : nat) : bool :=
  match a with Some a => Nat.eqb a b | None => false end.

(** The filter of the [find] that follows. *)
Definition linked_case (diseaseName : string) (id : nat) (c : CaseDoc) : bool :=
  String.eqb (DiseaseCase.diseaseName (doc c)) diseaseName
  && option_nat_eqb (outbreakId c) id.

(** [_id] is the identifier the first [save] gives the outbreak, [now] the
    clock.  An [averageConfidence] left undefined is written 0. *)
Definition post_manual (db : Db) (body : ManualBody) (_id : nat) (now : Z)
  : Db * Response :=
  let diseaseName := b_diseaseName body in
  if String.eqb diseaseName "" then
    (db, BadRequest "Disease name is required")
  else
    match findOne_active (collection db) diseaseName hospital with
    | Some existingOutbreak =>
        (db, BadRequest ("Active outbreak already exists for " ++ diseaseName))
    | None =>
        match parse_severity
                (match b_severity body with Some s => s | None => "medium" end)
        with
        | None => (db, ServerError)
        | Some severity =>
            let updated :=
              map (fun c => if unlinked_case diseaseName c then link_to _id c
                            else c)
                  (case_docs db) in
            let updatedCases :=
              length (filter (unlinked_case diseaseName) (case_docs db)) in
            let affectedCases :=
              map doc (filter (linked_case diseaseName _id) updated) in
            let n := length affectedCases in
            let manualOutbreak :=
              {| Outbreak.diseaseName := diseaseName;
                 Outbreak.location := hospital;
                 Outbreak.startDate := now;
                 Outbreak.status := Outbreak.confirmed;
                 Outbreak.severity := severity;
                 Outbreak.totalCases := n;
                 Outbreak.emergencyCases :=
                   length (filter DiseaseCase.isEmergency affectedCases);
                 Outbreak.criticalCases :=
                   length (filter (fun c => Severity_eqb (DiseaseCase.severity c)
                                              critical) affectedCases);
                 Outbreak.resolvedCases := 0;
                 Outbreak.averageConfidence :=
                   if (0 <? n)%nat
                   then (fold_left (fun sum c => sum + DiseaseCase.confidence c)
                           affectedCases 0 / Q_of_nat n)%Q
                   else 0%Q;
                 Outbreak.threshold := body_int (b_threshold body) 1;
                 Outbreak.timeWindow := body_int (b_timeWindow body) 1;
                 Outbreak.description :=
                   if String.eqb (b_description body) ""
                   then "Manually declared outbreak for " ++ diseaseName
                   else b_description body;
                 Outbreak.affectedPatients := map DiseaseCase._id affectedCases;
                 Outbreak.isActive := true |} in
            (mkDb updated (outbreak_docs db ++ [ (_id, manualOutbreak) ]),
             Declared manualOutbreak updatedCases n)
        end
    end.

(** *** PUT /outbreaks/:id *)

Record UpdateBody : Type := mkUpdateBody {
  u_status : option Outbreak.Status;
  u_severity : option Severity;
  u_description : string;          (* "" when absent *)
  u_isActive : option bool
}.

Definition apply_update (updateData : UpdateBody) (o : Outbreak.t) : Outbreak.t :=
  {| Outbreak.diseaseName := Outbreak.diseaseName o;
     Outbreak.location := Outbreak.location o;
     Outbreak.startDate := Outbreak.startDate o;
     Outbreak.status :=
       match u_status updateData with Some s => s | None => Outbreak.status o end;
     Outbreak.severity :=
       match u_severity updateData with
       | Some s => s
       | None => Outbreak.severity o
       end;
     Outbreak.totalCases := Outbreak.totalCases o;
     Outbreak.emergencyCases := Outbreak.emergencyCases o;
     Outbreak.criticalCases := Outbreak.criticalCases o;
     Outbreak.resolvedCases := Outbreak.resolvedCases o;
     Outbreak.averageConfidence := Outbreak.averageConfidence o;
     Outbreak.threshold := Outbreak.threshold o;
     Outbreak.timeWindow := Outbreak.timeWindow o;
     Outbreak.description :=
       if String.eqb (u_description updateData) "" then Outbreak.description o
       else u_description updateData;
     Outbreak.affectedPatients := Outbreak.affectedPatients o;
     Outbreak.isActive :=
       match u_isActive updateData with
       | Some b => b
       | None => Outbreak.isActive o
       end |}.

(** [findByIdAndUpdate]: the first document with the [_id] is replaced;
    [None] when there is none. *)
Fixpoint findByIdAndUpdate (docs : list (nat * Outbreak.t)) (id : nat)
  (f : Outbreak.t -> Outbreak.t) : option (list (nat * Outbreak.t) * Outbreak.t) :=
  match docs with
  | [] => None
  | (i, o) :: rest =>
      if Nat.eqb i id then Some ((i, f o) :: rest, f o)
      else
        match findByIdAndUpdate rest id f with
        | Some (rest', o') => Some ((i, o) :: rest', o')
        | None => None
        end
  end.

(** [findById]. *)
Fixpoint findById (docs : list (nat * Outbreak.t)) (id : nat)
  : option Outbreak.t :=
  match docs with
  | [] => None
  | (i, o) :: rest => if Nat.eqb i id then Some o else findById rest id
  end.

Inductive PutResponse : Type :=
| NotFound
| Updated (outbreak : Outbreak.t).

Definition put_outbreak (db : Db) (id : nat) (body : UpdateBody)
  : Db * PutResponse :=
  match findByIdAndUpdate (outbreak_docs db) id (apply_update body) with
  | Some (docs, outbreak) => (mkDb (case_docs db) docs, Updated outbreak)
  | None => (db, NotFound)
  end.

(** *** POST /outbreaks/:id/update-stats *)

Definition post_update_stats (db : Db) (id : nat) : Db * PutResponse :=
  match findByIdAndUpdate (outbreak_docs db) id
          (fun o => updateStatistics o (map doc (case_docs db))) with
  | Some (docs, outbreak) => (mkDb (case_docs db) docs, Updated outbreak)
  | None => (db, NotFound)
  end.

(** A request of the administrator, and a sequence of them. *)
Inductive Request : Type :=
| Detect (threshold timeWindow : option Z) (ids : nat -> nat) (now : Z)
| Manual (body : ManualBody) (_id : nat) (now : Z)
| Put (id : nat) (body : UpdateBody)
| UpdateStats (id : nat).

Definition serve (zone : TimeZone) (db : Db) (r : Request) : Db :=
  match r with
  | Detect threshold timeWindow ids now =>
      fst (post_detect zone db threshold timeWindow ids now)
  | Manual body _id now => fst (post_manual db body _id now)
  | Put id body => fst (put_outbreak db id body)
  | UpdateStats id => fst (post_update_stats db id)
  end.

(** The requests that set [isActive] to true. *)
Definition activates (r : Request) : bool :=
  match r with
  | Put _ body =>
      match u_isActive body with Some true => true | _ => false end
  | _ => false
  end.

End AdminRoutes.

(** ** [mlService.js] in binary floating point

    The scorer once more, with the numbers of the program: a JavaScript
    [Number] is a binary64 floating-point number, and a sum, a product or
    a quotient is rounded to the nearest of them, to the even one at a
    tie.  [SpecFloat] of the standard library is that arithmetic. *)

Module Binary64.

Definition prec : Z := 53.
Definition emax : Z := 1024.

Definition double : Type := SpecFloat.spec_float.

(** An integer of the source, such as [1000]. *)
Definition of_Z (n : Z) : double :=
  SpecFloat.binary_normalize prec emax n 0 false.

Definition add (x y : double) : double := SpecFloat.SFadd prec emax x y.
Definition mul (x y : double) : double := SpecFloat.SFmul prec emax x y.
Definition div (x y : double) : double := SpecFloat.SFdiv prec emax x y.

(** [x >= y] and [x < y]. *)
Definition geb (x y : double) : bool := SpecFloat.SFleb y x.
Definition ltb (x y : double) : bool := SpecFloat.SFltb x y.

(** A decimal literal of the source, such as [0.15]: the double nearest to
    the fraction.  The numerators and denominators of the literals of the
    scorer are small integers, which are doubles, and the quotient is
    rounded to nearest. *)
Definition literal (q : Q) : double :=
  div (of_Z (Qnum q)) (of_Z (Z.pos (Qden q))).

(** [Math.min] of two numbers. *)
Definition Math_min (x y : double) : double :=
  match SpecFloat.SFcompare x y with
  | Some Gt => y
  | Some _ => x
  | None => SpecFloat.S754_nan
  end.

(** [Math.round]: the integer nearest to [x], the larger one at a tie (the
    sign of a zero is not kept). *)
Definition Math_round (x : double) : double :=
  match x with
  | SpecFloat.S754_finite s m e =>
      if (0 <=? e)%Z then x
      else
        let num := if s then Z.neg m else Z.pos m in
        let den := (2 ^ (- e))%Z in
        of_Z ((2 * num + den) / (2 * den))
  | _ => x
  end.

(** [Math.round(x * 1000) / 1000]. *)
Definition round3 (x : double) : double :=
  div (Math_round (mul x (of_Z 1000))) (of_Z 1000).

(** The same double, field by field. *)
Definition same (x y : double) : bool :=
  match x, y with
  | SpecFloat.S754_zero a, SpecFloat.S754_zero b => Bool.eqb a b
  | SpecFloat.S754_infinity a, SpecFloat.S754_infinity b => Bool.eqb a b
  | SpecFloat.S754_nan, SpecFloat.S754_nan => true
  | SpecFloat.S754_finite a m e, SpecFloat.S754_finite b n f =>
      Bool.eqb a b && Pos.eqb m n && Z.eqb e f
  | _, _ => false
  end.

End Binary64.

Module MLService64.

Import Binary64.

(** The [forEach] over the symptom names, [riskScore += symptomWeights[symptom]]
    in binary64. *)
Fixpoint add_symptom_weights64 (symptomNames : list string) (riskScore : double)
  : option double :=
  match symptomNames with
  | [] => Some riskScore
  | symptom :: rest =>
      match get symptomWeights symptom with
      | Own w =>
          if truthy (Some w)
          then add_symptom_weights64 rest (add riskScore (literal w))
          else add_symptom_weights64 rest riskScore
      | Inherited => None
      | Undefined => add_symptom_weights64 rest riskScore
      end
  end.

(** The readings of the vital signs are compared as they are given. *)
Definition add_vital_signs64 (vitals : VitalSigns) (riskScore : double) : double :=
  let riskScore :=
    if truthy (temperature vitals) && gt_opt (temperature vitals) 102
    then add riskScore (literal 0.2) else riskScore in
  let riskScore :=
    if truthy (heartRate vitals) && gt_opt (heartRate vitals) 100
    then add riskScore (literal 0.1) else riskScore in
  let riskScore :=
    if truthy (oxygenSaturation vitals) && lt_opt (oxygenSaturation vitals) 95
    then add riskScore (literal 0.3) else riskScore in
  riskScore.

(** The risk score before the final rounding; [None] when the body
    throws. *)
Definition raw_risk64 (this : Service) (symptomRecord : SymptomRecord)
  : option double :=
  match extractFeatures this symptomRecord with
  | None => None
  | Some features =>
      match add_symptom_weights64 (symptomNames_of symptomRecord) (literal 0.1)
      with
      | None => None
      | Some riskScore =>
          let riskScore :=
            add_vital_signs64 (vitals_of symptomRecord) riskScore in
          Some (Math_min riskScore (literal 1.0))
      end
  end.

Definition risk_block64 (riskScore : double) : list string :=
  if geb riskScore (literal 0.8) then
    [ "Seek immediate medical attention"; "Consider emergency room visit" ]
  else if geb riskScore (literal 0.6) then
    [ "Schedule urgent appointment with healthcare provider";
      "Monitor symptoms closely" ]
  else if geb riskScore (literal 0.4) then
    [ "Schedule routine appointment with healthcare provider";
      "Continue monitoring symptoms" ]
  else
    [ "Continue self-care and monitoring";
      "Seek medical attention if symptoms worsen" ].

Definition generateRecommendations64
  (riskScore : double) (syndrome : string) (symptomRecord : SymptomRecord)
  : list string :=
  risk_block64 riskScore ++ syndrome_block syndrome
  ++ symptom_lines symptomRecord.

Definition shouldFlagForReview64
  (riskScore confidence : double) (symptomRecord : SymptomRecord) : bool :=
  if geb riskScore (literal 0.7) then true
  else if ltb confidence (literal 0.3) then true
  else
    let severeSymptoms :=
      length (filter (fun s => ge (severity s) 8) (symptoms symptomRecord)) in
    if (2 <=? severeSymptoms)%nat then true
    else if info_flag symptomRecord recentTravel
            || info_flag symptomRecord recentExposure then true
    else
      let vitals := vitals_of symptomRecord in
      if gt_opt (temperature vitals) 103
         || gt_opt (heartRate vitals) 100
         || lt_opt (oxygenSaturation vitals) 95 then true
      else false.

Record AnalysisResult64 : Type := mkAnalysisResult64 {
  riskScore64 : double;
  predictedSyndrome64 : string;
  confidence64 : double;
  recommendations64 : list string;
  flaggedForReview64 : bool;
  analysisTimestamp64 : Z;
  modelVersion64 : string;
  error64 : option string
}.

Definition fallback64 (now : Z) : AnalysisResult64 :=
  {| riskScore64 := literal 0.5;
     predictedSyndrome64 := "Unknown";
     confidence64 := literal 0.0;
     recommendations64 :=
       [ "Manual review recommended due to analysis error" ];
     flaggedForReview64 := true;
     analysisTimestamp64 := now;
     modelVersion64 := "1.0.0";
     error64 := Some "Analysis failed, manual review required" |}.

(** [random] is the double [Math.random()] returns, [now] the clock. *)
Definition analyzeSymptoms64 (this : Service) (symptomRecord : SymptomRecord)
  (modelRecord : option ModelRecord) (random : double) (now : Z)
  : AnalysisResult64 :=
  match raw_risk64 this symptomRecord with
  | None => fallback64 now
  | Some riskScore =>
      let predictedSyndrome := predictSyndrome (symptomNames_of symptomRecord) in
      let confidence := add (literal 0.6) (mul random (literal 0.3)) in
      let recommendations :=
        generateRecommendations64 riskScore predictedSyndrome symptomRecord in
      let flaggedForReview :=
        shouldFlagForReview64 riskScore confidence symptomRecord in
      {| riskScore64 := round3 riskScore;
         predictedSyndrome64 := predictedSyndrome;
         confidence64 := round3 confidence;
         recommendations64 := recommendations;
         flaggedForReview64 := flaggedForReview;
         analysisTimestamp64 := now;
         modelVersion64 := model_version modelRecord;
         error64 := None |}
  end.

End MLService64.

(** * Auxiliary definitions of the further properties *)

Definition twentieths (x : Q) : Prop := exists k : Z, x == k # 20.

(** A score inside a tier, off its boundaries. *)
Definition inside_tier (riskScore : Q) (t : Spec.Tier) : Prop :=
  match t with
  | Spec.immediate => 0.8 < riskScore
  | Spec.urgent => 0.6 < riskScore /\ riskScore < 0.8
  | Spec.routine => 0.4 < riskScore /\ riskScore < 0.6
  | Spec.self_care => riskScore < 0.4
  end.

(** A score on none of the boundaries of the tiers. *)
Definition off_tier_boundaries (riskScore : Q) : Prop :=
  ~ riskScore == 0.4 /\ ~ riskScore == 0.6 /\ ~ riskScore == 0.8.

Definition with_symptoms (r : SymptomRecord) (ss : list Symptom) : SymptomRecord :=
  mkSymptomRecord (patientAge r) ss (vitalSigns r) (additionalInfo r).

Definition cardiac_trigger_among (names : list string) : Prop :=
  In "chest_pain" names \/ In "heart_palpitations" names
  \/ In "shortness_of_breath" names.

Definition names_fever (s : Symptom) : bool :=
  includes (toLowerCase (name s)) "fever"
  || includes (toLowerCase (name s)) "temperature".

Definition names_cough (s : Symptom) : bool :=
  includes (toLowerCase (name s)) "cough".

Definition symptomVector_of (enc : FeatureEncoder) (r : SymptomRecord) : list Q :=
  fold_left
    (fun vec symptom =>
       match indexOf (enc_symptoms enc) (toLowerCase (name symptom)) with
       | Some index => set_nth vec index 1
       | None => vec
       end)
    (symptoms r) (repeat 0 (length (enc_symptoms enc))).

Fixpoint distinctb (l : list string) : bool :=
  match l with
  | [] => true
  | x :: rest => negb (arr_includes rest x) && distinctb rest
  end.

Import SymptomRecordModel.

Import Lifecycle.

Definition is_actual (r : TrainingRecord) (syndrome : string) : bool :=
  match actualSyndrome r with
  | Some s => String.eqb syndrome s
  | None => false
  end.

Definition flu_training : list TrainingRecord :=
  [ mkTrainingRecord cough_record (Some "flu");
    mkTrainingRecord feverish_record (Some "measles");
    mkTrainingRecord quiet_record None ].

Import OutbreakModel.

Definition stats_of (collection : list Outbreak.t) : OutbreakStats :=
  {| totalOutbreaks := length collection;
     activeOutbreaks := length (filter Outbreak.isActive collection);
     resolvedOutbreaks := length (filter is_resolved collection);
     criticalOutbreaks :=
       length (filter (fun o => Severity_eqb (Outbreak.severity o) critical)
                      collection);
     totalCases := list_sum (map Outbreak.totalCases collection);
     totalEmergencyCases := list_sum (map Outbreak.emergencyCases collection) |}.

Definition plus_stats (a b : OutbreakStats) : OutbreakStats :=
  {| totalOutbreaks := totalOutbreaks a + totalOutbreaks b;
     activeOutbreaks := activeOutbreaks a + activeOutbreaks b;
     resolvedOutbreaks := resolvedOutbreaks a + resolvedOutbreaks b;
     criticalOutbreaks := criticalOutbreaks a + criticalOutbreaks b;
     totalCases := totalCases a + totalCases b;
     totalEmergencyCases := totalEmergencyCases a + totalEmergencyCases b |}.

Definition later_first (a b : Outbreak.t) : Prop :=
  (Outbreak.startDate b <= Outbreak.startDate a)%Z.

Definition is_critical (c : DiseaseCase.t) : bool :=
  Severity_eqb (DiseaseCase.severity c) critical.

Definition matched_cases (this : Outbreak.t) (cases : list DiseaseCase.t)
  : list DiseaseCase.t :=
  filter (is_affected this) cases.


Import AdminRoutes.

(** What the uniqueness looks at: the pair and the activity. *)
Definition profile (o : Outbreak.t) : (string * string) * bool :=
  (pair_of o, Outbreak.isActive o).

Definition no_more_active (o o' : Outbreak.t) : Prop :=
  pair_of o' = pair_of o
  /\ (Outbreak.isActive o' = true -> Outbreak.isActive o = true).

Definition no_ids (n : nat) : nat := (100 + n)%nat.

Definition empty_db : Db :=
  mkDb (map (fun c => mkCaseDoc c false None) (cases flu_store)) [].

Definition flu_body : ManualBody := mkManualBody "flu" None "" None None.

Definition admin_session : list Request :=
  [ Manual flu_body 7 1700000000000;
    Detect (Some 3%Z) None no_ids 1700000100000;
    Manual flu_body 8 1700000200000;
    UpdateStats 7;
    Put 7 (mkUpdateBody (Some Outbreak.resolved) None "" None) ].

Definition two_flu_db : Db :=
  mkDb []
       [ (1%nat, apply_update (mkUpdateBody None None "" (Some false))
                   (new_outbreak (mkGroup "flu" hospital 3 0 0 0 0 0 []) 3 7));
         (2%nat, new_outbreak (mkGroup "flu" hospital 4 0 0 0 0 0 []) 3 7) ].

Definition one_flu_db : Db :=
  mkDb (map (fun c => mkCaseDoc c false None) (cases flu_store))
       [ (1%nat, new_outbreak (mkGroup "flu" hospital 3 0 0 0 0 0 []) 3 7) ].

Definition resolve_body : UpdateBody :=
  mkUpdateBody (Some Outbreak.resolved) None "" None.



Definition ward_case (id : nat) (name : string) (sev : Severity)
  (emergency : bool) : DiseaseCase.t :=
  DiseaseCase.mk id name 0.8 1699900000000 hospital sev emergency
    DiseaseCase.detected.

Definition ward_db : Db :=
  mkDb [ mkCaseDoc (ward_case 1 "measles" critical true) false None;
         mkCaseDoc (ward_case 2 "measles" low false) true (Some 40%nat);
         mkCaseDoc (ward_case 3 "flu" low false) false None;
         mkCaseDoc (ward_case 4 "measles" medium false) false None ]
       [].

Definition measles_body : ManualBody :=
  mkManualBody "measles" (Some "high") "" None None.

(** *** The sums the binary64 scorer can hold

    The doubles that [riskScore] can hold after a number of weights have
    been added, each with the exact sum it stands for, counted in
    twentieths; the doubles of one exact sum are kept together. *)

Module Sums64.

Import Binary64 MLService64.

Definition States : Type := list (Z * list double).

Definition holds (m : States) (x : double) (k : Z) : Prop :=
  exists xs, In (k, xs) m /\ In x xs.

Fixpoint insert (x : double) (k : Z) (m : States) : States :=
  match m with
  | [] => [ (k, [ x ]) ]
  | (k', xs) :: rest =>
      if (k =? k')%Z
      then (k', if existsb (same x) xs then xs else x :: xs) :: rest
      else (k', xs) :: insert x k rest
  end.

Definition insert_all (l : list (double * Z)) (m : States) : States :=
  fold_left (fun acc p => insert (fst p) (snd p) acc) l m.

(** The values of the weight table, and a value in twentieths. *)
Definition weight_values : list Q := [ 0.3; 0.4; 0.2; 0.15; 0.1 ].

Definition in_twentieths (w : Q) : Z := Qfloor (w * 20).

Definition steps : list (double * Z) :=
  Eval vm_compute in map (fun w => (literal w, in_twentieths w)) weight_values.

Definition candidates (m : States) : list (double * Z) :=
  flat_map
    (fun e =>
       flat_map
         (fun x => map (fun s => (add x (fst s), (fst e + snd s)%Z)) steps)
         (snd e))
    m.

Definition next (m : States) : States := insert_all (candidates m) [].

(** The base risk 0.1. *)
Definition init : States := Eval vm_compute in [ (2%Z, [ literal 0.1 ]) ].

Fixpoint reach_from (m : States) (n : nat) : States :=
  match n with
  | O => m
  | S n' => reach_from (next m) n'
  end.

(** After [n] weights. *)
Definition reach (n : nat) : States := reach_from init n.

Fixpoint levels (n : nat) (m : States) : list States :=
  match n with
  | O => [ m ]
  | S n' => m :: levels n' (next m)
  end.

(** The three penalties of the vital signs, each added or not. *)
Definition d02 : double := Eval vm_compute in literal 0.2.
Definition d01 : double := Eval vm_compute in literal 0.1.
Definition d03 : double := Eval vm_compute in literal 0.3.
Definition d1 : double := Eval vm_compute in literal 1.0.
Definition d1000 : double := Eval vm_compute in of_Z 1000.

Definition opt (b : bool) (x w : double) : double := if b then add x w else x.

Definition with_penalties (b1 b2 b3 : bool) (x : double) (k : Z) : double * Z :=
  (opt b3 (opt b2 (opt b1 x d02) d01) d03,
   (k + (if b1 then 4 else 0) + (if b2 then 2 else 0)
    + (if b3 then 6 else 0))%Z).

Definition capped (v : double * Z) : double * Z :=
  (Binary64.Math_min (fst v) d1, Z.min (snd v) 20).

Definition penalised (x : double) (k : Z) : list (double * Z) :=
  flat_map
    (fun b1 : bool =>
       flat_map
         (fun b2 : bool =>
            map (fun b3 : bool => capped (with_penalties b1 b2 b3 x k))
                [ false; true ])
         [ false; true ])
    [ false; true ].

(** The capped sums of the records with at most [N] weights. *)
Definition finals (N : nat) : States :=
  insert_all
    (flat_map
       (fun m : States =>
          flat_map (fun e => flat_map (fun x => penalised x (fst e)) (snd e)) m)
       (levels N init))
    [].

Definition thresholds : list (double * Q) :=
  Eval vm_compute in map (fun t => (literal t, t)) [ 0.8; 0.6; 0.4; 0.7 ].

(** The double rounds to the exact sum, and compares with a threshold as
    the exact sum does unless the exact sum is the threshold. *)
Definition final_ok (x : double) (k : Z) : bool :=
  same (Binary64.Math_round (mul x d1000))
       (of_Z (Qfloor ((k # 20) * 1000 + (1 # 2))))
  && forallb
       (fun t => Qeq_bool (k # 20) (snd t)
                 || Bool.eqb (geb x (fst t)) (Qle_bool (snd t) (k # 20)))
       thresholds.

Definition all_ok (N : nat) : bool :=
  forallb (fun e => forallb (fun x => final_ok x (fst e)) (snd e)) (finals N).

End Sums64.

(** The symptoms of a record that carry a weight, with repetitions. *)
Definition weighted_occurrences (r : SymptomRecord) : nat :=
  length (filter weighted (symptomNames_of r)).

(** A record whose exact sum is 0.8. *)
Definition threshold_record : SymptomRecord :=
  mkSymptomRecord None
    [ mkSymptom "fever" 5 2 "days"; mkSymptom "shortness_of_breath" 4 1 "days";
      mkSymptom "headache" 3 1 "days" ] None None.

(** * Proofs *)

(** Case analysis on every test of the goal. *)
Ltac case_ifs :=
  repeat match goal with
  | |- context [if ?b then _ else _] => destruct b
  end.

(** ** Comparisons *)

Section Comparisons.

Variables x y : Q.

Lemma ge_true : ge x y = true <-> y <= x.
Proof. unfold ge. apply Qle_bool_iff. Qed.

Lemma ge_false : ge x y = false <-> x < y.
Proof.
  unfold ge. split; intro H.
  - apply Qnot_le_lt. intro Hle. apply Qle_bool_iff in Hle. congruence.
  - destruct (Qle_bool y x) eqn:E; [|reflexivity].
    apply Qle_bool_iff in E. exfalso. apply (Qlt_not_le _ _ H E).
Qed.

Lemma lt_true : lt x y = true <-> x < y.
Proof.
  unfold lt. rewrite negb_true_iff. split; intro H.
  - apply Qnot_le_lt. intro Hle. apply Qle_bool_iff in Hle. congruence.
  - destruct (Qle_bool y x) eqn:E; [|reflexivity].
    apply Qle_bool_iff in E. exfalso. apply (Qlt_not_le _ _ H E).
Qed.

Lemma gt_true : gt x y = true <-> y < x.
Proof.
  unfold gt. rewrite negb_true_iff. split; intro H.
  - apply Qnot_le_lt. intro Hle. apply Qle_bool_iff in Hle. congruence.
  - destruct (Qle_bool x y) eqn:E; [|reflexivity].
    apply Qle_bool_iff in E. exfalso. apply (Qlt_not_le _ _ H E).
Qed.

End Comparisons.

Lemma gt_opt_true (f : VitalSigns -> option Q) (r : SymptomRecord) (c : Q) :
  gt_opt (f (vitals_of r)) c = true <-> Spec.reading f r (fun x => c < x).
Proof.
  unfold gt_opt, Spec.reading. destruct (f (vitals_of r)) as [v|].
  - rewrite gt_true. split; [intro H; eauto | intros [x [E H]]; congruence].
  - split; [discriminate | intros [x [E _]]; discriminate].
Qed.

Lemma lt_opt_true (f : VitalSigns -> option Q) (r : SymptomRecord) (c : Q) :
  lt_opt (f (vitals_of r)) c = true <-> Spec.reading f r (fun x => x < c).
Proof.
  unfold lt_opt, Spec.reading. destruct (f (vitals_of r)) as [v|].
  - rewrite lt_true. split; [intro H; eauto | intros [x [E H]]; congruence].
  - split; [discriminate | intros [x [E _]]; discriminate].
Qed.

(** ** The syndrome classifier *)

(** One round of the loop: the number of matches decides. *)
Lemma count_filter (f : string -> bool) (l : list string) :
  length (filter f l) = count_occ bool_dec (map f l) true.
Proof.
  induction l as [|a l IH]; simpl; [reflexivity|].
  destruct (f a); simpl; [rewrite IH; reflexivity | exact IH].
Qed.

Lemma loop_test (syndrome : string) (n : nat) (X : string) :
  (if (0 <? n)%nat
   then if (2 <=? n)%nat || (String.eqb syndrome "cardiac" && (1 <=? n)%nat)
        then syndrome else X
   else X)
  = if (Spec.triggers_needed syndrome <=? n)%nat then syndrome else X.
Proof.
  unfold Spec.triggers_needed.
  destruct (String.eqb syndrome "cardiac"); destruct n as [|[|n]]; reflexivity.
Qed.

Lemma predict_loop_find (entries : list (string * list string)) (names : list string) :
  predict_loop entries names =
  match find (fun e => (Spec.triggers_needed (fst e)
                        <=? count_occ bool_dec (map (arr_includes names) (snd e)) true)%nat)
             entries with
  | Some e => fst e
  | None => "unknown"
  end.
Proof.
  induction entries as [|[syndrome triggers] rest IH]; [reflexivity|].
  cbn [predict_loop find fst snd].
  rewrite loop_test, count_filter, IH. 
  destruct (_ <=? _)%nat; reflexivity.
Qed.

Lemma predict_loop_classify (names : list string) :
  predictSyndrome names = Spec.classify names.
Proof.
  unfold predictSyndrome. rewrite predict_loop_find.
  unfold Spec.classify, Spec.categories, syndromeRules, Spec.category_matches,
    Spec.triggers_present.
  cbn [find fst snd].
  change (Spec.triggers_of "respiratory_infection")
    with [ "fever"; "cough"; "shortness_of_breath"; "chest_pain" ].
  change (Spec.triggers_of "gastrointestinal")
    with [ "nausea"; "vomiting"; "diarrhea"; "abdominal_pain" ].
  change (Spec.triggers_of "flu")
    with [ "fever"; "chills"; "muscle_pain"; "fatigue"; "body_aches" ].
  change (Spec.triggers_of "neurological")
    with [ "headache"; "dizziness"; "neck_stiffness"; "severe_headache" ].
  change (Spec.triggers_of "cardiac")
    with [ "chest_pain"; "heart_palpitations"; "shortness_of_breath" ].
  repeat match goal with
  | |- context [(?a <=? ?b)%nat] => destruct (a <=? b)%nat; try reflexivity
  end.
Qed.

(** C3: the classifier goes through respiratory_infection,
    gastrointestinal, flu, neurological, cardiac in this order and returns
    the first category with at least two of its triggers among the names
    (one is enough for cardiac), "unknown" when there is none; chest_pain
    alone gives cardiac, nausea with vomiting gives gastrointestinal. *)
Theorem C3_first_matching_category :
  map fst syndromeRules = Spec.categories
  /\ (forall names, predictSyndrome names = Spec.classify names)
  /\ predictSyndrome [ "chest_pain" ] = "cardiac"
  /\ predictSyndrome [ "nausea"; "vomiting" ] = "gastrointestinal".
Proof.
  split; [reflexivity|]. split; [exact predict_loop_classify|].
  split; reflexivity.
Qed.

(** ** The review-flagging policy *)

Lemma severe_count_filter (r : SymptomRecord) :
  length (filter (fun s => ge (severity s) 8) (symptoms r)) = Spec.severe_count r.
Proof. reflexivity. Qed.

Lemma shouldFlagForReview_true (riskScore confidence : Q) (r : SymptomRecord) :
  shouldFlagForReview riskScore confidence r = true
  <-> Spec.flag_predicate riskScore confidence r.
Proof.
  unfold shouldFlagForReview, Spec.flag_predicate.
  rewrite severe_count_filter.
  rewrite <- (ge_true riskScore 0.7), <- (lt_true confidence 0.3).
  rewrite <- !gt_opt_true, <- lt_opt_true.
  rewrite <- Nat.leb_le.
  destruct (ge riskScore 0.7); [tauto|].
  destruct (lt confidence 0.3); [tauto|].
  destruct (2 <=? Spec.severe_count r)%nat; [tauto|].
  destruct (info_flag r recentTravel); [tauto|].
  destruct (info_flag r recentExposure); [tauto|].
  destruct (gt_opt (temperature (vitals_of r)) 103); [tauto|].
  destruct (gt_opt (heartRate (vitals_of r)) 100); [tauto|].
  destruct (lt_opt (oxygenSaturation (vitals_of r)) 95); [tauto|].
  simpl. intuition discriminate.
Qed.

(** C6: [shouldFlagForReview] answers true exactly when one of the seven
    predicates holds (risk score at least 0.7; confidence below 0.3; two
    or more symptoms of severity 8 or more; recent travel or exposure;
    temperature above 103; heart rate above 100; oxygen saturation below
    95).  An oxygen saturation of 90 flags the record whatever the rest,
    and the record is not flagged when no predicate holds. *)
Theorem C6_flag_iff_any_predicate :
  (forall riskScore confidence r,
     shouldFlagForReview riskScore confidence r = true
     <-> Spec.flag_predicate riskScore confidence r)
  /\ (forall riskScore confidence r,
        Spec.reading oxygenSaturation r (fun o => o == 90) ->
        shouldFlagForReview riskScore confidence r = true)
  /\ (forall riskScore confidence r,
        ~ Spec.flag_predicate riskScore confidence r ->
        shouldFlagForReview riskScore confidence r = false).
Proof.
  split; [exact shouldFlagForReview_true|]. split.
  - intros riskScore confidence r [o [E H]].
    apply shouldFlagForReview_true. unfold Spec.flag_predicate.
    do 6 right. exists o. split; [exact E|]. rewrite H. reflexivity.
  - intros riskScore confidence r H.
    destruct (shouldFlagForReview riskScore confidence r) eqn:E; [|reflexivity].
    apply shouldFlagForReview_true in E. contradiction.
Qed.

Lemma C6_witness :
  shouldFlagForReview 0.1 0.9 hypoxic_record = true
  /\ shouldFlagForReview 0.2 0.75 quiet_record = false.
Proof.
  split.
  - apply (proj1 (proj2 C6_flag_iff_any_predicate)).
    exists 90. split; reflexivity.
  - apply (proj2 (proj2 C6_flag_iff_any_predicate)).
    unfold Spec.flag_predicate, Spec.reading. simpl.
    intros [H|[H|[H|[[H|H]|[[x [E H]]|[[x [E H]]|[x [E H]]]]]]]];
      try discriminate; try (injection E as <-);
      try (apply Qlt_not_le in H; apply H; discriminate);
      try (apply Qle_not_lt in H; apply H; reflexivity).
    unfold Spec.severe_count in H. simpl in H. lia.
Defined.

(** ** The recommendation generator *)

Lemma risk_block_tier (riskScore : Q) :
  exists t, Spec.in_tier riskScore t /\ risk_block riskScore = Spec.tier_block t.
Proof.
  unfold risk_block.
  destruct (ge riskScore 0.8) eqn:E8.
  { exists Spec.immediate. split; [apply ge_true, E8 | reflexivity]. }
  destruct (ge riskScore 0.6) eqn:E6.
  { exists Spec.urgent. split; [|reflexivity].
    split; [apply ge_true, E6 | apply ge_false, E8]. }
  destruct (ge riskScore 0.4) eqn:E4.
  { exists Spec.routine. split; [|reflexivity].
    split; [apply ge_true, E4 | apply ge_false, E6]. }
  exists Spec.self_care. split; [apply ge_false, E4 | reflexivity].
Qed.

(** The tiers do not overlap. *)
Lemma in_tier_unique (riskScore : Q) (t t' : Spec.Tier) :
  Spec.in_tier riskScore t -> Spec.in_tier riskScore t' -> t = t'.
Proof.
  destruct t, t'; simpl; intros; try reflexivity; exfalso; lra.
Qed.

Lemma after_risk_block (syndrome : string) (r : SymptomRecord) :
  no_tier_line (syndrome_block syndrome ++ symptom_lines r) = true.
Proof.
  unfold syndrome_block, symptom_lines.
  case_ifs; reflexivity.
Qed.

(** C7: [generateRecommendations] returns a list that is not empty and
    starts with the block of exactly one risk tier: immediate care from
    0.8, urgent appointment from 0.6, routine appointment from 0.4,
    self-care below; none of the tier lines comes back later in the list.
    At 0.85 the list starts with the immediate-care block. *)
Theorem C7_one_risk_tier_block_first :
  (forall riskScore syndrome r,
     generateRecommendations riskScore syndrome r <> []
     /\ exists t rest,
          Spec.in_tier riskScore t
          /\ (forall t', Spec.in_tier riskScore t' -> t' = t)
          /\ generateRecommendations riskScore syndrome r
             = Spec.tier_block t ++ rest
          /\ no_tier_line rest = true)
  /\ (forall syndrome r,
        firstn 2 (generateRecommendations 0.85 syndrome r)
        = [ "Seek immediate medical attention"; "Consider emergency room visit" ]).
Proof.
  split.
  - intros riskScore syndrome r.
    destruct (risk_block_tier riskScore) as [t [Ht Hb]].
    unfold generateRecommendations. rewrite Hb. split.
    + destruct t; discriminate.
    + exists t, (syndrome_block syndrome ++ symptom_lines r).
      split; [exact Ht|]. split.
      * intros t' Ht'. exact (in_tier_unique _ _ _ Ht' Ht).
      * split; [reflexivity | apply after_risk_block].
  - intros syndrome r. reflexivity.
Qed.

(** The classifier answers one of its six strings. *)
Lemma predictSyndrome_outputs (names : list string) :
  In (predictSyndrome names) Spec.classifier_outputs.
Proof.
  rewrite predict_loop_classify. unfold Spec.classify.
  destruct (find _ _) as [c|] eqn:E.
  - apply find_some in E. destruct E as [E _].
    unfold Spec.classifier_outputs. apply in_or_app. left. exact E.
  - simpl. tauto.
Qed.

Lemma general_block_outside (syndrome : string) :
  In syndrome Spec.classifier_outputs ->
  syndrome <> "gastrointestinal" ->
  syndrome_block syndrome = Spec.general_block.
Proof.
  unfold Spec.classifier_outputs, Spec.categories. simpl.
  intros [<-|[<-|[<-|[<-|[<-|[<-|[]]]]]]] H; try reflexivity.
  contradiction H. reflexivity.
Qed.

Lemma recommendations_unreachable_blocks
  (riskScore : Q) (names : list string) (r : SymptomRecord) :
  no_line_of (Spec.respiratory_block ++ Spec.fever_block)
    (generateRecommendations riskScore (predictSyndrome names) r) = true.
Proof.
  unfold generateRecommendations.
  assert (Hs : syndrome_block (predictSyndrome names) = Spec.general_block
               \/ predictSyndrome names = "gastrointestinal").
  { destruct (string_dec (predictSyndrome names) "gastrointestinal") as [E|E].
    - right. exact E.
    - left. apply general_block_outside;
        [apply predictSyndrome_outputs | exact E]. }
  destruct Hs as [-> | ->];
    unfold risk_block, symptom_lines;
    case_ifs; reflexivity.
Qed.

(** C10: whatever the names, the classifier answers one of its six
    strings; for each of them but gastrointestinal, respiratory_infection
    included, the syndrome block is the single general line; and no line
    of the respiratory-infection block or of the fever block is ever among
    the recommendations [analyzeSymptoms] returns. *)
Theorem C10_syndrome_block_is_general_line :
  (forall names, In (predictSyndrome names) Spec.classifier_outputs)
  /\ (forall names,
        predictSyndrome names <> "gastrointestinal" ->
        syndrome_block (predictSyndrome names) = Spec.general_block)
  /\ (forall names,
        predictSyndrome names = "respiratory_infection" ->
        syndrome_block (predictSyndrome names) = Spec.general_block)
  /\ (forall syndrome,
        In syndrome Spec.classifier_outputs ->
        toLowerCase syndrome <> "respiratory infection"
        /\ toLowerCase syndrome <> "fever")
  /\ (forall this r modelRecord random now,
        no_line_of (Spec.respiratory_block ++ Spec.fever_block)
          (recommendations (analyzeSymptoms this r modelRecord random now))
        = true).
Proof.
  split; [exact predictSyndrome_outputs|]. split.
  { intros names H. apply general_block_outside;
      [apply predictSyndrome_outputs | exact H]. }
  split.
  { intros names H. apply general_block_outside;
      [apply predictSyndrome_outputs | rewrite H; discriminate]. }
  split.
  { unfold Spec.classifier_outputs, Spec.categories. simpl.
    intros syndrome [<-|[<-|[<-|[<-|[<-|[<-|[]]]]]]]; split; discriminate. }
  intros this r modelRecord random now. unfold analyzeSymptoms.
  destruct (raw_risk this r) as [riskScore|]; [|reflexivity].
  apply recommendations_unreachable_blocks.
Qed.

Lemma C10_witness :
  predictSyndrome (symptomNames_of cough_record) = "respiratory_infection"
  /\ syndrome_block (predictSyndrome (symptomNames_of cough_record))
     = [ "Follow general illness care guidelines" ].
Proof.
  split; [reflexivity|].
  apply (proj1 (proj2 (proj2 C10_syndrome_block_is_general_line))).
  reflexivity.
Defined.

(** ** The risk score *)

Lemma own_weight_values (n : string) (w : Q) :
  own_property symptomWeights n = Some w ->
  In w [ 0.3; 0.4; 0.2; 0.15; 0.1 ].
Proof.
  unfold symptomWeights, own_property.
  repeat match goal with
  | |- context [String.eqb ?k n] => destruct (String.eqb k n)
  end; intro H; inversion H; subst; simpl; tauto.
Qed.

Lemma own_weight_positive (n : string) (w : Q) :
  own_property symptomWeights n = Some w -> 0 < w /\ truthy (Some w) = true.
Proof.
  intro H. apply own_weight_values in H. simpl in H.
  destruct H as [<-|[<-|[<-|[<-|[<-|[]]]]]]; split; reflexivity.
Qed.

Lemma weight_nonneg (n : string) : 0 <= weight_in symptomWeights n.
Proof.
  unfold weight_in. destruct (own_property symptomWeights n) as [w|] eqn:E.
  - apply own_weight_positive in E. apply Qlt_le_weak, E.
  - discriminate.
Qed.

Lemma total_nonneg (names : list string) :
  0 <= total (map (weight_in symptomWeights) names).
Proof.
  induction names as [|n names IH]; simpl; [discriminate|].
  pose proof (weight_nonneg n). lra.
Qed.

(** The [forEach] adds up the weights, unless a name is inherited. *)
Lemma add_symptom_weights_total (names : list string) (r : Q) :
  match add_symptom_weights names r with
  | Some r' => existsb inherited names = false
               /\ r' == r + total (map (weight_in symptomWeights) names)
  | None => existsb inherited names = true
  end.
Proof.
  revert r. induction names as [|n names IH]; intro r;
    cbn [add_symptom_weights existsb map total fold_right].
  - split; [reflexivity | lra].
  - fold (total (map (weight_in symptomWeights) names)).
    unfold get.
    assert (Hi : inherited n
                 = match own_property symptomWeights n with
                   | Some _ => false
                   | None => arr_includes Object_prototype_keys n
                   end).
    { unfold inherited, get. destruct (own_property symptomWeights n);
        [reflexivity|]. destruct (arr_includes _ n); reflexivity. }
    rewrite Hi. unfold weight_in at 1.
    destruct (own_property symptomWeights n) as [w|] eqn:E.
    + destruct (own_weight_positive _ E) as [_ ->].
      specialize (IH (r + w)).
      destruct (add_symptom_weights names (r + w)) as [r'|]; simpl.
      * destruct IH as [-> IH]. split; [reflexivity | lra].
      * exact IH.
    + destruct (arr_includes Object_prototype_keys n); simpl; [reflexivity|].
      specialize (IH r).
      destruct (add_symptom_weights names r) as [r'|].
      * destruct IH as [-> IH]. split; [reflexivity | lra].
      * exact IH.
Qed.

Lemma truthy_in_range (lo hi : Q) (v : option Q) :
  0 < lo -> in_range lo hi v = true -> v = None \/ truthy v = true.
Proof.
  intros Hlo H. destruct v as [x|]; [right | left; reflexivity].
  simpl in *. apply andb_true_iff in H. destruct H as [H _].
  apply Qle_bool_iff in H. apply negb_true_iff.
  destruct (Qeq_bool x 0) eqn:E; [|reflexivity].
  apply Qeq_bool_iff in E. lra.
Qed.

Lemma add_vital_signs_ge (vitals : VitalSigns) (r : Q) :
  r <= add_vital_signs vitals r.
Proof.
  unfold add_vital_signs.
  case_ifs; lra.
Qed.

Lemma add_vital_signs_valid (rec : SymptomRecord) (r : Q) :
  valid rec = true ->
  add_vital_signs (vitals_of rec) r == r + vital_penalties rec.
Proof.
  unfold valid, valid_vitals. rewrite !andb_true_iff.
  intros [_ [[[[[Ht _] _] Hh] _] Ho]].
  apply truthy_in_range in Ht, Hh, Ho; try reflexivity.
  unfold add_vital_signs, vital_penalties, penalty.
  destruct Ht as [-> | ->], Hh as [-> | ->], Ho as [-> | ->];
    cbn [gt_opt lt_opt truthy andb];
    case_ifs; lra.
Qed.

(** [round3] and the unit interval. *)
Lemma round3_eq (x y : Q) : x == y -> round3 x = round3 y.
Proof.
  intro H. unfold round3, Math_round. f_equal.
  apply Qfloor_comp. rewrite H. reflexivity.
Qed.

Lemma round3_le (x y : Q) : x <= y -> round3 x <= round3 y.
Proof.
  intro H. unfold round3, Qle. cbn [Qnum Qden].
  apply Z.mul_le_mono_nonneg_r; [lia|].
  unfold Math_round. apply Qfloor_resp_le. lra.
Qed.

Lemma round3_unit (x : Q) : 0 <= x <= 1 -> 0 <= round3 x <= 1.
Proof.
  intros [H0 H1]. split.
  - apply Qle_trans with (round3 0); [discriminate | apply round3_le, H0].
  - apply Qle_trans with (round3 1); [apply round3_le, H1 | discriminate].
Qed.

Lemma Qmin_eq_l (a b c : Q) : a == b -> Qmin a c == Qmin b c.
Proof.
  intro H.
  destruct (Q.min_spec a c) as [[H1 E1]|[H1 E1]],
           (Q.min_spec b c) as [[H2 E2]|[H2 E2]];
    rewrite E1, E2; lra.
Qed.

Lemma Qmin_swap (a b : Q) : Qmin a b == Qmin b a.
Proof.
  destruct (Q.min_spec a b) as [[H1 E1]|[H1 E1]],
           (Q.min_spec b a) as [[H2 E2]|[H2 E2]];
    rewrite E1, E2; lra.
Qed.

Lemma add_vital_signs_shift (vitals : VitalSigns) (r r' : Q) :
  r == r' -> add_vital_signs vitals r == add_vital_signs vitals r'.
Proof.
  intro H. unfold add_vital_signs.
  case_ifs; lra.
Qed.

(** What the body of [analyzeSymptoms] computes before rounding, and when
    it throws. *)
Lemma raw_risk_cases (this : Service) (r : SymptomRecord) :
  match raw_risk this r with
  | Some x =>
      featureEncoder this <> None
      /\ existsb inherited (symptomNames_of r) = false
      /\ x == Qmin (add_vital_signs (vitals_of r)
                      (0.1 + total (map (weight_in symptomWeights)
                                        (symptomNames_of r)))) 1
  | None =>
      featureEncoder this = None
      \/ existsb inherited (symptomNames_of r) = true
  end.
Proof.
  unfold raw_risk, extractFeatures.
  destruct (featureEncoder this) as [enc|]; [|left; reflexivity].
  pose proof (add_symptom_weights_total (symptomNames_of r) 0.1) as H.
  destruct (add_symptom_weights (symptomNames_of r) 0.1) as [r'|].
  - destruct H as [Hi Hr]. split; [discriminate|]. split; [exact Hi|].
    unfold Math_min. apply Qmin_eq_l, add_vital_signs_shift, Hr.
  - right. exact H.
Qed.

Lemma raw_risk_unit (this : Service) (r : SymptomRecord) (x : Q) :
  raw_risk this r = Some x -> 0 <= x <= 1.
Proof.
  intro E. pose proof (raw_risk_cases this r) as H. rewrite E in H.
  destruct H as [_ [_ H]].
  pose proof (total_nonneg (symptomNames_of r)) as Ht.
  pose proof (add_vital_signs_ge (vitals_of r)
                (0.1 + total (map (weight_in symptomWeights)
                                  (symptomNames_of r)))) as Hv.
  destruct (Q.min_spec
              (add_vital_signs (vitals_of r)
                 (0.1 + total (map (weight_in symptomWeights)
                                   (symptomNames_of r)))) 1)
    as [[H1 E1]|[H1 E1]]; rewrite E1 in H; lra.
Qed.

(** C8: whatever the record and the service, and for a random draw in
    [0, 1), the risk score and the confidence of the result lie between 0
    and 1. *)
Theorem C8_risk_and_confidence_in_unit_interval
  (this : Service) (r : SymptomRecord) (modelRecord : option ModelRecord)
  (random : Q) (now : Z) :
  0 <= random < 1 ->
  let result := analyzeSymptoms this r modelRecord random now in
  (0 <= riskScore result <= 1) /\ (0 <= confidence result <= 1).
Proof.
  intros Hr result. subst result. unfold analyzeSymptoms.
  destruct (raw_risk this r) as [x|] eqn:E.
  - cbn [riskScore confidence]. split.
    + apply round3_unit. exact (raw_risk_unit _ _ E).
    + apply round3_unit. lra.
  - cbn. repeat split; discriminate.
Qed.

Lemma C8_witness :
  let result := analyzeSymptoms (mkService (Some default_encoder)) cough_record
                  None 0.5 1700000000000 in
  (0 <= riskScore result <= 1) /\ (0 <= confidence result <= 1).
Proof.
  apply C8_risk_and_confidence_in_unit_interval. split; [discriminate | reflexivity].
Defined.





(** ** The risk formula *)

Lemma weight_tables_agree (n : string) :
  weight_in symptomWeights n = weight_in listed_weights_and_severe_headache n.
Proof.
  unfold weight_in, symptomWeights, listed_weights_and_severe_headache,
    listed_weights, own_property.
  repeat match goal with
  | |- context [String.eqb ?k n] =>
      destruct (String.eqb_spec k n); [subst n; reflexivity|]
  end.
  reflexivity.
Qed.

Lemma inherited_key (n : string) :
  inherited n = true -> In n Object_prototype_keys.
Proof.
  unfold inherited, get.
  destruct (own_property symptomWeights n); [discriminate|].
  destruct (arr_includes Object_prototype_keys n) eqn:E; [|discriminate].
  intros _. unfold arr_includes in E. apply existsb_exists in E.
  destruct E as [k [Hk E]]. apply String.eqb_eq in E. subst k. exact Hk.
Qed.

Lemma no_inherited_name_existsb (r : SymptomRecord) :
  no_inherited_name r -> existsb inherited (symptomNames_of r) = false.
Proof.
  intro H. destruct (existsb inherited (symptomNames_of r)) eqn:E;
    [|reflexivity].
  apply existsb_exists in E. destruct E as [n [Hn E]].
  exfalso. exact (H n Hn (inherited_key _ E)).
Qed.

(** When the body does not throw, the risk score is the formula over the
    code's table, with or without repeated names. *)
Lemma riskScore_formula (this : Service) (r : SymptomRecord)
  (modelRecord : option ModelRecord) (random : Q) (now : Z) :
  featureEncoder this <> None ->
  valid r = true ->
  no_inherited_name r ->
  riskScore (analyzeSymptoms this r modelRecord random now)
  = risk_formula listed_weights_and_severe_headache r.
Proof.
  intros Henc Hvalid Hnames. unfold analyzeSymptoms.
  pose proof (raw_risk_cases this r) as H.
  destruct (raw_risk this r) as [x|].
  - cbn [riskScore]. destruct H as [_ [_ H]].
    unfold risk_formula. apply round3_eq. rewrite H.
    rewrite (map_ext _ _ weight_tables_agree).
    rewrite (Qmin_swap 1). apply Qmin_eq_l.
    apply add_vital_signs_valid, Hvalid.
  - destruct H as [H|H]; [contradiction|].
    rewrite (no_inherited_name_existsb Hnames) in H. discriminate.
Qed.

(** C2, with the table of the code: for a valid record with pairwise
    distinct lower-cased names, analysed by an initialised service, none of
    the names being a key of [Object.prototype], the risk score is
    min(1, 0.10 + the weights of the names + 0.20 for a temperature above
    102 + 0.10 for a heart rate above 100 + 0.30 for an oxygen saturation
    below 95), rounded to three decimals, where the table is the listed one
    together with severe_headache at 0.20. *)
Theorem C2_risk_score_formula (this : Service) (r : SymptomRecord)
  (modelRecord : option ModelRecord) (random : Q) (now : Z) :
  featureEncoder this <> None ->
  valid r = true ->
  NoDup (symptomNames_of r) ->
  no_inherited_name r ->
  riskScore (analyzeSymptoms this r modelRecord random now)
  = risk_formula listed_weights_and_severe_headache r.
Proof.
  intros Henc Hvalid _ Hnames. apply riskScore_formula; assumption.
Qed.

Lemma C2_witness :
  riskScore (analyzeSymptoms (mkService (Some default_encoder)) feverish_record
               None 0.25 1700000000000)
  = risk_formula listed_weights_and_severe_headache feverish_record
  /\ risk_formula listed_weights_and_severe_headache feverish_record == 1.
Proof.
  split; [|reflexivity].
  apply C2_risk_score_formula.
  - discriminate.
  - reflexivity.
  - repeat constructor; simpl; intuition discriminate.
  - intros n Hn Hk. simpl in Hn, Hk.
    repeat match goal with
    | H : _ \/ _ |- _ => destruct H as [H|H]
    end; try contradiction; subst n; discriminate.
Defined.

(** C2 as stated fails on severe_headache: the code weighs it 0.2, the
    listed table does not have it. *)
Lemma C2_counterexample :
  let result := analyzeSymptoms (mkService (Some default_encoder))
                  severe_headache_record None 0.25 1700000000000 in
  valid severe_headache_record = true
  /\ NoDup (symptomNames_of severe_headache_record)
  /\ riskScore result == 0.3
  /\ risk_formula listed_weights severe_headache_record == 0.1
  /\ ~ riskScore result == risk_formula listed_weights severe_headache_record.
Proof.
  split; [reflexivity|]. split.
  { repeat constructor. simpl. tauto. }
  split; [reflexivity|]. split; [reflexivity|]. discriminate.
Qed.

(** ** The sums are multiples of 0.05 *)

Lemma twentieths_plus (x y : Q) :
  twentieths x -> twentieths y -> twentieths (x + y).
Proof.
  intros [k Hk] [j Hj]. exists (k + j)%Z. rewrite Hk, Hj.
  unfold Qeq, Qplus. cbn [Qnum Qden]. rewrite ?Pos2Z.inj_mul. lia.
Qed.

Lemma twentieths_eq (x y : Q) : x == y -> twentieths x -> twentieths y.
Proof. intros E [k Hk]. exists k. rewrite <- E. exact Hk. Qed.

Lemma twentieths_weight (n : string) : twentieths (weight_in symptomWeights n).
Proof.
  unfold weight_in. destruct (own_property symptomWeights n) as [w|] eqn:E.
  - apply own_weight_values in E. simpl in E.
    destruct E as [<-|[<-|[<-|[<-|[<-|[]]]]]];
      [exists 6%Z | exists 8%Z | exists 4%Z | exists 3%Z | exists 2%Z];
      reflexivity.
  - exists 0%Z. reflexivity.
Qed.

Lemma twentieths_total (names : list string) :
  twentieths (total (map (weight_in symptomWeights) names)).
Proof.
  induction names as [|n names IH]; simpl.
  - exists 0%Z. reflexivity.
  - apply twentieths_plus; [apply twentieths_weight | exact IH].
Qed.

Lemma twentieths_vital_signs (vitals : VitalSigns) (x : Q) :
  twentieths x -> twentieths (add_vital_signs vitals x).
Proof.
  intro H. unfold add_vital_signs.
  assert (H2 : twentieths 0.2) by (exists 4%Z; reflexivity).
  assert (H1 : twentieths 0.1) by (exists 2%Z; reflexivity).
  assert (H3 : twentieths 0.3) by (exists 6%Z; reflexivity).
  case_ifs; repeat apply twentieths_plus; assumption.
Qed.

Lemma twentieths_min_1 (x : Q) : twentieths x -> twentieths (Qmin x 1).
Proof.
  intro H. destruct (Q.min_spec x 1) as [[_ E]|[_ E]].
  - apply (twentieths_eq (x := x)); [symmetry; exact E | exact H].
  - exists 20%Z. rewrite E. reflexivity.
Qed.

Lemma raw_risk_twentieths (this : Service) (r : SymptomRecord) (x : Q) :
  raw_risk this r = Some x -> twentieths x.
Proof.
  intro E. pose proof (raw_risk_cases this r) as H. rewrite E in H.
  destruct H as [_ [_ H]].
  apply (twentieths_eq (symmetry H)).
  apply twentieths_min_1, twentieths_vital_signs, twentieths_plus.
  - exists 2%Z. reflexivity.
  - apply twentieths_total.
Qed.

(** Rounding to three decimals leaves a multiple of 0.05 as it is. *)
Lemma round3_twentieths (x : Q) : twentieths x -> round3 x == x.
Proof.
  intros [k Hk]. rewrite Hk at 2.
  unfold round3, Math_round.
  assert (E : x * 1000 + (1 # 2) == (100 * k + 1) # 2).
  { rewrite Hk. unfold Qeq, Qplus, Qmult. cbn [Qnum Qden].
    rewrite ?Pos2Z.inj_mul. lia. }
  rewrite (Qfloor_comp _ _ E). unfold Qfloor.
  replace ((100 * k + 1) / 2)%Z with (50 * k)%Z
    by (apply (Z.div_unique (100 * k + 1) 2 (50 * k) 1); lia).
  unfold Qeq. cbn [Qnum Qden]. lia.
Qed.

(** ** Repeated symptom names *)

Lemma symptomNames_dedupe (seen : list string) (ss : list Symptom) :
  map (fun s => toLowerCase (name s)) (dedupe seen ss)
  = dedupe_names seen (map (fun s => toLowerCase (name s)) ss).
Proof.
  revert seen. induction ss as [|s ss IH]; intro seen; simpl; [reflexivity|].
  destruct (arr_includes seen (toLowerCase (name s))); simpl; rewrite IH;
    reflexivity.
Qed.

Lemma arr_includes_In (arr : list string) (x : string) :
  arr_includes arr x = true <-> In x arr.
Proof.
  unfold arr_includes. rewrite existsb_exists. split.
  - intros [y [Hy E]]. apply String.eqb_eq in E. subst y. exact Hy.
  - intro H. exists x. split; [exact H | apply String.eqb_refl].
Qed.

Lemma dedupe_names_inherited (seen names : list string) :
  (forall n, In n seen -> inherited n = false) ->
  existsb inherited (dedupe_names seen names) = existsb inherited names.
Proof.
  revert seen. induction names as [|n names IH]; intros seen Hseen; simpl;
    [reflexivity|].
  destruct (arr_includes seen n) eqn:E.
  - apply arr_includes_In in E. rewrite (Hseen n E). simpl.
    apply IH, Hseen.
  - simpl. destruct (inherited n) eqn:Hn; simpl; [reflexivity|].
    apply IH. intros m [<-|Hm]; [exact Hn | apply Hseen, Hm].
Qed.

Lemma dedupe_names_total_le (seen names : list string) :
  total (map (weight_in symptomWeights) (dedupe_names seen names))
  <= total (map (weight_in symptomWeights) names).
Proof.
  revert seen. induction names as [|n names IH]; intro seen; simpl;
    [discriminate|].
  pose proof (weight_nonneg n) as Hn.
  destruct (arr_includes seen n); simpl.
  - specialize (IH seen). lra.
  - specialize (IH (n :: seen)). lra.
Qed.

Lemma weighted_weight (n : string) :
  weighted n = false -> weight_in symptomWeights n = 0.
Proof.
  unfold weighted, weight_in. destruct (own_property symptomWeights n);
    [discriminate | reflexivity].
Qed.

Lemma dedupe_names_total_eq (seen names : list string) :
  NoDup (filter weighted names) ->
  (forall n, In n seen -> weighted n = true -> ~ In n names) ->
  total (map (weight_in symptomWeights) (dedupe_names seen names))
  == total (map (weight_in symptomWeights) names).
Proof.
  revert seen. induction names as [|n names IH]; intros seen Hnd Hseen; simpl;
    [reflexivity|].
  simpl in Hnd.
  destruct (arr_includes seen n) eqn:E.
  - apply arr_includes_In in E.
    destruct (weighted n) eqn:Hw.
    + exfalso. apply (Hseen n E Hw). left. reflexivity.
    + rewrite (weighted_weight _ Hw). rewrite IH; [lra | exact Hnd |].
      intros m Hm Hwm Hin. apply (Hseen m Hm Hwm). right. exact Hin.
  - simpl. rewrite IH; [lra | |].
    + destruct (weighted n); [inversion Hnd; assumption | exact Hnd].
    + intros m [<-|Hm] Hwm Hin.
      * rewrite Hwm in Hnd. inversion Hnd as [|? ? Hnot _]. subst.
        apply Hnot. apply filter_In. split; assumption.
      * apply (Hseen m Hm Hwm). right. exact Hin.
Qed.

Lemma count_occ_filter_weighted (names : list string) (n : string) :
  count_occ string_dec (filter weighted names) n
  = if weighted n then count_occ string_dec names n else 0%nat.
Proof.
  induction names as [|m names IH]; simpl.
  - destruct (weighted n); reflexivity.
  - destruct (string_dec m n) as [->|Hmn].
    + destruct (weighted n) eqn:Hw; simpl.
      * destruct (string_dec n n); [|contradiction]. 
        rewrite IH. reflexivity.
      * exact IH.
    + destruct (weighted m); simpl.
      * destruct (string_dec m n); [contradiction|]. exact IH.
      * exact IH.
Qed.

Lemma repeats_unweighted_NoDup (r : SymptomRecord) :
  repeats_unweighted r -> NoDup (filter weighted (symptomNames_of r)).
Proof.
  intro H. apply (NoDup_count_occ string_dec). intro n.
  rewrite count_occ_filter_weighted.
  destruct (weighted n) eqn:Hw; [|lia].
  destruct (le_lt_dec (count_occ string_dec (symptomNames_of r) n) 1)
    as [Hle|Hlt]; [exact Hle|].
  apply H in Hlt. unfold weighted in Hw. rewrite Hlt in Hw. discriminate.
Qed.

Lemma add_vital_signs_le (vitals : VitalSigns) (r r' : Q) :
  r <= r' -> add_vital_signs vitals r <= add_vital_signs vitals r'.
Proof.
  intro H. unfold add_vital_signs.
  case_ifs; lra.
Qed.

Lemma symptomNames_deduplicated (r : SymptomRecord) :
  symptomNames_of (deduplicated r) = dedupe_names [] (symptomNames_of r).
Proof. unfold symptomNames_of, deduplicated. apply symptomNames_dedupe. Qed.

(** The risk before rounding, with and without the repeated names. *)
Lemma raw_risk_deduplicated (this : Service) (r : SymptomRecord) :
  match raw_risk this (deduplicated r), raw_risk this r with
  | Some x, Some y =>
      x <= y /\ (repeats_unweighted r -> x == y)
  | None, None => True
  | _, _ => False
  end.
Proof.
  pose proof (raw_risk_cases this (deduplicated r)) as Hd.
  pose proof (raw_risk_cases this r) as Hr.
  rewrite symptomNames_deduplicated in Hd.
  rewrite dedupe_names_inherited in Hd by (intros n []).
  change (vitals_of (deduplicated r)) with (vitals_of r) in Hd.
  destruct (raw_risk this (deduplicated r)) as [x|],
           (raw_risk this r) as [y|].
  - destruct Hd as [_ [_ Hx]], Hr as [_ [_ Hy]]. split.
    + rewrite Hx, Hy. apply Q.min_le_compat_r, add_vital_signs_le.
      pose proof (dedupe_names_total_le [] (symptomNames_of r)). lra.
    + intro Hrep. rewrite Hx, Hy. apply Qmin_eq_l, add_vital_signs_shift.
      rewrite dedupe_names_total_eq;
        [reflexivity | apply repeats_unweighted_NoDup, Hrep | intros n []].
  - destruct Hd as [Henc [Hi _]], Hr as [Hr|Hr]; congruence.
  - destruct Hr as [Henc [Hi _]], Hd as [Hd|Hd]; congruence.
  - exact I.
Qed.

Lemma add_vital_signs_plus (vitals : VitalSigns) (r d : Q) :
  add_vital_signs vitals (r + d) == add_vital_signs vitals r + d.
Proof. unfold add_vital_signs. case_ifs; lra. Qed.

(** A name found again after it has been seen adds its weight again. *)
Lemma seen_name_adds (seen names : list string) (n : string) :
  In n seen -> In n names ->
  total (map (weight_in symptomWeights) (dedupe_names seen names))
  + weight_in symptomWeights n
  <= total (map (weight_in symptomWeights) names).
Proof.
  intros Hseen. induction names as [|m names IH] in seen, Hseen |- *;
    intro Hin; [contradiction|].
  cbn [dedupe_names]. pose proof (weight_nonneg m) as Hm.
  destruct (arr_includes seen m) eqn:E.
  - cbn [map total fold_right]. destruct Hin as [->|Hin].
    + pose proof (dedupe_names_total_le seen names). unfold total in *. lra.
    + specialize (IH seen Hseen Hin). unfold total in *. lra.
  - destruct Hin as [->|Hin].
    + apply arr_includes_In in Hseen. congruence.
    + specialize (IH (m :: seen) (or_intror Hseen) Hin).
      cbn [map total fold_right]. unfold total in *. lra.
Qed.

Lemma repeated_name_adds (seen names : list string) (n : string) :
  (1 < count_occ string_dec names n)%nat ->
  total (map (weight_in symptomWeights) (dedupe_names seen names))
  + weight_in symptomWeights n
  <= total (map (weight_in symptomWeights) names).
Proof.
  induction names as [|m names IH] in seen |- *; cbn [count_occ]; [lia|].
  intro Hc. pose proof (weight_nonneg m) as Hm. cbn [dedupe_names].
  destruct (string_dec m n) as [->|Hmn].
  - assert (Hin : In n names) by (apply (count_occ_In string_dec); lia).
    destruct (arr_includes seen n) eqn:E.
    + apply arr_includes_In in E.
      pose proof (@seen_name_adds seen names n E Hin).
      cbn [map total fold_right]. unfold total in *. lra.
    + pose proof (@seen_name_adds (n :: seen) names n (or_introl eq_refl) Hin).
      cbn [map total fold_right]. unfold total in *. lra.
  - destruct (arr_includes seen m).
    + specialize (IH seen Hc). cbn [map total fold_right].
      unfold total in *. lra.
    + specialize (IH (m :: seen) Hc). cbn [map total fold_right].
      unfold total in *. lra.
Qed.

(** Counting the occurrences of one more name. *)
Lemma count_one_more (f : string -> Q) (x : string) (xs l : list string) :
  NoDup l ->
  total (map (fun n => inject_Z (Z.of_nat (count_occ string_dec (x :: xs) n))
                       * f n) l)
  == total (map (fun n => inject_Z (Z.of_nat (count_occ string_dec xs n))
                          * f n) l)
     + (if in_dec string_dec x l then f x else 0).
Proof.
  induction 1 as [|n l Hn Hnd IH]; cbn [map total fold_right].
  - destruct (in_dec string_dec x []); [contradiction | reflexivity].
  - fold (total (map (fun n => inject_Z (Z.of_nat
                                (count_occ string_dec (x :: xs) n)) * f n) l)).
    fold (total (map (fun n => inject_Z (Z.of_nat (count_occ string_dec xs n))
                               * f n) l)).
    rewrite IH. cbn [count_occ].
    destruct (string_dec x n) as [->|Hxn].
    + destruct (in_dec string_dec n (n :: l)) as [_|Hno];
        [|exfalso; apply Hno; left; reflexivity].
      destruct (in_dec string_dec n l); [contradiction|].
      rewrite Nat2Z.inj_succ, <- Z.add_1_r, inject_Z_plus. ring.
    + destruct (in_dec string_dec x (n :: l)) as [[E|Hin]|Hno].
      * congruence.
      * destruct (in_dec string_dec x l); [ring | contradiction].
      * destruct (in_dec string_dec x l) as [Hin|_]; [|ring].
        exfalso. apply Hno. right. exact Hin.
Qed.

Lemma count_absent (f : string -> Q) (xs l : list string) :
  (forall n, In n l -> ~ In n xs) ->
  total (map (fun n => inject_Z (Z.of_nat (count_occ string_dec xs n)) * f n) l)
  == 0.
Proof.
  induction l as [|n l IH]; intro H; cbn [map total fold_right];
    [reflexivity|].
  fold (total (map (fun n => inject_Z (Z.of_nat (count_occ string_dec xs n))
                             * f n) l)).
  rewrite IH by (intros m Hm; apply H; right; exact Hm).
  rewrite (proj1 (count_occ_not_In string_dec xs n))
    by (apply H; left; reflexivity).
  change (inject_Z (Z.of_nat 0)) with 0. ring.
Qed.

(** The sum over the list is the sum over the distinct names, each as
    often as it occurs. *)
Lemma total_by_occurrence (f : string -> Q) (names : list string) :
  total (map f names)
  == total (map (fun n => inject_Z (Z.of_nat (count_occ string_dec names n))
                          * f n)
              (nodup string_dec names)).
Proof.
  induction names as [|x xs IH]; [reflexivity|].
  cbn [map total fold_right nodup]. fold (total (map f xs)).
  destruct (in_dec string_dec x xs) as [Hin|Hno].
  - rewrite (@count_one_more f x xs _ (NoDup_nodup string_dec xs)).
    destruct (in_dec string_dec x (nodup string_dec xs)) as [_|Hn];
      [|exfalso; apply Hn, nodup_In, Hin].
    rewrite IH. ring.
  - cbn [map total fold_right].
    fold (total (map (fun n => inject_Z (Z.of_nat
                                (count_occ string_dec (x :: xs) n)) * f n)
                   (nodup string_dec xs))).
    rewrite (@count_one_more f x xs _ (NoDup_nodup string_dec xs)).
    destruct (in_dec string_dec x (nodup string_dec xs)) as [Hn|_];
      [exfalso; apply Hno; apply (nodup_In string_dec), Hn|].
    cbn [count_occ]. destruct (string_dec x x) as [_|C]; [|contradiction].
    rewrite (proj1 (count_occ_not_In string_dec xs x) Hno), IH.
    change (inject_Z (Z.of_nat 1)) with 1. ring.
Qed.

(** C1, as the code has it: [analyzeSymptoms] does not deduplicate, every
    occurrence of a name adds its weight again.  For a valid record whose
    analysis does not fall back, the risk score is min(1, 0.10 + the sum,
    over the distinct names, of the number of occurrences times the weight
    + the penalties of the vital signs), rounded to three decimals, and a
    name that occurs more than once raises the score of the deduplicated
    record by its weight at least, up to the cap of 1.  In every case the
    risk score of a record is never below the risk score of the
    deduplicated record, and the two are equal when no repeated name has a
    weight. *)
Theorem C1_repeated_names_count_again (this : Service) (r : SymptomRecord)
  (modelRecord : option ModelRecord) (random : Q) (now : Z) :
  let result := analyzeSymptoms this r modelRecord random now in
  let deduped := analyzeSymptoms this (deduplicated r) modelRecord random now in
  riskScore deduped <= riskScore result
  /\ (repeats_unweighted r -> riskScore result = riskScore deduped)
  /\ (featureEncoder this <> None -> no_inherited_name r ->
      (valid r = true ->
       riskScore result
       = round3
           (Qmin 1
              (0.1
               + weights_by_occurrence listed_weights_and_severe_headache
                   (symptomNames_of r)
               + vital_penalties r)))
      /\ (forall n,
            (1 < count_occ string_dec (symptomNames_of r) n)%nat ->
            Qmin 1 (riskScore deduped
                    + weight_in listed_weights_and_severe_headache n)
            <= riskScore result)).
Proof.
  intros result deduped. subst result deduped. split; [|split].
  - unfold analyzeSymptoms.
    pose proof (raw_risk_deduplicated this r) as H.
    destruct (raw_risk this (deduplicated r)) as [x|],
             (raw_risk this r) as [y|]; try contradiction.
    + cbn [riskScore]. apply round3_le, H.
    + cbn. discriminate.
  - intro Hrep. unfold analyzeSymptoms.
    pose proof (raw_risk_deduplicated this r) as H.
    destruct (raw_risk this (deduplicated r)) as [x|],
             (raw_risk this r) as [y|]; try contradiction.
    + cbn [riskScore]. apply round3_eq. symmetry. apply H, Hrep.
    + reflexivity.
  - intros Henc Hnames. split.
    + intro Hvalid.
      rewrite (@riskScore_formula this r modelRecord random now Henc Hvalid
                 Hnames).
      unfold risk_formula, weights_by_occurrence. apply round3_eq.
      rewrite <- total_by_occurrence. reflexivity.
    + intros n Hn. unfold analyzeSymptoms.
      pose proof (raw_risk_cases this (deduplicated r)) as Hd.
      pose proof (raw_risk_cases this r) as Hr.
      rewrite symptomNames_deduplicated in Hd.
      rewrite dedupe_names_inherited in Hd by (intros m []).
      change (vitals_of (deduplicated r)) with (vitals_of r) in Hd.
      rewrite (no_inherited_name_existsb Hnames) in Hd, Hr.
      destruct (raw_risk this (deduplicated r)) as [x|] eqn:Ex;
        [|destruct Hd; [contradiction | discriminate]].
      destruct (raw_risk this r) as [y|] eqn:Ey;
        [|destruct Hr; [contradiction | discriminate]].
      cbn [riskScore].
      rewrite (round3_twentieths (raw_risk_twentieths _ _ Ex)).
      rewrite (round3_twentieths (raw_risk_twentieths _ _ Ey)).
      destruct Hd as [_ [_ Hx]], Hr as [_ [_ Hy]].
      rewrite <- weight_tables_agree.
      pose proof (@repeated_name_adds [] (symptomNames_of r) n Hn) as Hsum.
      set (w := weight_in symptomWeights n) in *.
      set (a := total (map (weight_in symptomWeights)
                         (dedupe_names [] (symptomNames_of r)))) in *.
      set (b := total (map (weight_in symptomWeights) (symptomNames_of r)))
        in *.
      assert (Hv : add_vital_signs (vitals_of r) (0.1 + a) + w
                   <= add_vital_signs (vitals_of r) (0.1 + b)).
      { rewrite <- add_vital_signs_plus. apply add_vital_signs_le. lra. }
      rewrite Hx, Hy. clear Hx Hy.
      pose proof (Q.le_min_l (add_vital_signs (vitals_of r) (0.1 + a)) 1) as Ha.
      apply Q.min_glb.
      * apply Qle_trans
          with (Qmin (add_vital_signs (vitals_of r) (0.1 + a)) 1 + w);
          [apply Q.le_min_r | lra].
      * apply Q.le_min_l.
Qed.

Lemma repeats_unweighted_checked (r : SymptomRecord) :
  repeats_unweighted_check r = true -> repeats_unweighted r.
Proof.
  unfold repeats_unweighted_check, repeats_unweighted. intros H n Hn.
  rewrite forallb_forall in H.
  assert (Hin : In n (symptomNames_of r)).
  { apply (count_occ_In string_dec). lia. }
  specialize (H n Hin). apply orb_true_iff in H. destruct H as [H|H].
  - apply negb_true_iff in H. unfold weighted in H.
    destruct (own_property symptomWeights n); [discriminate | reflexivity].
  - apply Nat.leb_le in H. lia.
Qed.

Lemma C1_witness :
  let this := mkService (Some default_encoder) in
  let table := listed_weights_and_severe_headache in
  let result := analyzeSymptoms this repeated_unknown_record None 0.25
                  1700000000000 in
  let deduped := analyzeSymptoms this (deduplicated repeated_unknown_record)
                   None 0.25 1700000000000 in
  let twice := analyzeSymptoms this repeated_fever_record None 0.25
                 1700000000000 in
  let once := analyzeSymptoms this (deduplicated repeated_fever_record)
                None 0.25 1700000000000 in
  length (symptoms (deduplicated repeated_unknown_record)) = 2%nat
  /\ riskScore result = riskScore deduped
  /\ weights_by_occurrence table (symptomNames_of repeated_fever_record)
     == 0.6
  /\ riskScore twice
     = round3
         (Qmin 1
            (0.1
             + weights_by_occurrence table
                 (symptomNames_of repeated_fever_record)
             + vital_penalties repeated_fever_record))
  /\ Qmin 1 (riskScore once + weight_in table "fever") <= riskScore twice.
Proof.
  intros this table result deduped twice once.
  split; [reflexivity|]. split; [|split; [reflexivity|]].
  - apply (proj1 (proj2 (C1_repeated_names_count_again this
                           repeated_unknown_record None 0.25 1700000000000))).
    apply repeats_unweighted_checked. reflexivity.
  - assert (Henc : featureEncoder this <> None) by discriminate.
    assert (Hnames : no_inherited_name repeated_fever_record).
    { intros n Hn Hk. simpl in Hn, Hk.
      repeat match goal with
      | H : _ \/ _ |- _ => destruct H as [H|H]
      end; try contradiction; subst n; discriminate. }
    destruct (proj2 (proj2 (C1_repeated_names_count_again this
                              repeated_fever_record None 0.25 1700000000000))
                Henc Hnames) as [Hformula Hmore].
    split; [apply Hformula; reflexivity | apply Hmore].
    vm_compute. lia.
Defined.

(** C1 as stated fails: fever given twice scores 0.7, the deduplicated
    record 0.4. *)
Lemma C1_counterexample :
  let result := analyzeSymptoms (mkService (Some default_encoder))
                  repeated_fever_record None 0.25 1700000000000 in
  let deduped := analyzeSymptoms (mkService (Some default_encoder))
                   (deduplicated repeated_fever_record) None 0.25
                   1700000000000 in
  valid repeated_fever_record = true
  /\ riskScore result == 0.7
  /\ riskScore deduped == 0.4
  /\ ~ riskScore result <= riskScore deduped.
Proof.
  split; [reflexivity|]. split; [reflexivity|]. split; [reflexivity|].
  intro H. vm_compute in H. apply H. reflexivity.
Qed.

(** ** Outbreak detection *)

Lemma same_key_true (d l d' l' : string) :
  same_key d l d' l' = true <-> (d, l) = (d', l').
Proof.
  unfold same_key. rewrite andb_true_iff, !String.eqb_eq. split.
  - intros [-> ->]. reflexivity.
  - intro H. inversion H. split; reflexivity.
Qed.

Lemma same_key_refl (d l : string) : same_key d l d l = true.
Proof. apply same_key_true. reflexivity. Qed.

Lemma same_key_sym (d l d' l' : string) :
  same_key d l d' l' = same_key d' l' d l.
Proof. unfold same_key. rewrite (String.eqb_sym d), (String.eqb_sym l). reflexivity. Qed.

Lemma detect_loop_created (groups : list Group) (threshold timeWindow : Z)
  (collection newOutbreaks : list Outbreak.t) :
  detect_loop groups threshold timeWindow collection newOutbreaks
  = (collection ++ created groups threshold timeWindow collection,
     newOutbreaks ++ created groups threshold timeWindow collection).
Proof.
  revert collection newOutbreaks.
  induction groups as [|g groups IH]; intros collection newOutbreaks; simpl.
  - rewrite !app_nil_r. reflexivity.
  - destruct (findOne_active collection (g_diseaseName g) (g_location g)).
    + apply IH.
    + rewrite IH, <- !app_assoc. reflexivity.
Qed.

Lemma findOne_active_some (collection : list Outbreak.t) (d l : string) :
  has_active collection d l <-> findOne_active collection d l <> None.
Proof.
  unfold has_active, findOne_active. split.
  - intros [o [Hin Ho]] E.
    exact (eq_true_false_abs _ Ho (find_none _ _ E o Hin)).
  - intro H. destruct (find _ collection) as [o|] eqn:E; [|contradiction].
    apply find_some in E. exists o. exact E.
Qed.

Lemma has_active_app (collection more : list Outbreak.t) (d l : string) :
  has_active collection d l -> has_active (collection ++ more) d l.
Proof.
  intros [o [Hin Ho]]. exists o. split; [apply in_or_app; left|]; assumption.
Qed.

Lemma new_outbreak_active_for (g : Group) (threshold timeWindow : Z) (d l : string) :
  active_for d l (new_outbreak g threshold timeWindow)
  = same_key d l (g_diseaseName g) (g_location g).
Proof. unfold active_for. simpl. apply andb_true_r. Qed.

(** While a pair has an active outbreak, the loop creates nothing for
    it. *)
Lemma created_none_for_active (groups : list Group) (threshold timeWindow : Z)
  (collection : list Outbreak.t) (d l : string) :
  has_active collection d l ->
  records_of (created groups threshold timeWindow collection) d l = [].
Proof.
  revert collection.
  induction groups as [|g groups IH]; intros collection H; simpl;
    [reflexivity|].
  destruct (findOne_active collection (g_diseaseName g) (g_location g)) eqn:E.
  - apply IH, H.
  - simpl. destruct (same_key d l (g_diseaseName g) (g_location g)) eqn:K.
    + apply same_key_true in K. inversion K. subst d l.
      apply findOne_active_some in H. contradiction.
    + apply IH, has_active_app, H.
Qed.

Lemma active_count_app (collection more : list Outbreak.t) (d l : string) :
  length (filter (active_for d l) (collection ++ more))
  = (length (filter (active_for d l) collection)
     + length (filter (active_for d l) more))%nat.
Proof. rewrite filter_app, length_app. reflexivity. Qed.

Lemma no_active_count (collection : list Outbreak.t) (d l : string) :
  findOne_active collection d l = None ->
  length (filter (active_for d l) collection) = 0%nat.
Proof.
  intro E. unfold findOne_active in E.
  induction collection as [|o collection IH]; [reflexivity|].
  simpl in E. unfold active_for at 1. simpl.
  destruct (same_key d l (Outbreak.diseaseName o) (Outbreak.location o)
            && Outbreak.isActive o); [discriminate | apply IH, E].
Qed.

(** The loop keeps the pairs with at most one active outbreak. *)
Lemma created_at_most_one_active (groups : list Group) (threshold timeWindow : Z)
  (collection : list Outbreak.t) :
  at_most_one_active collection ->
  at_most_one_active (collection ++ created groups threshold timeWindow collection).
Proof.
  revert collection.
  induction groups as [|g groups IH]; intros collection H; simpl.
  - rewrite app_nil_r. exact H.
  - destruct (findOne_active collection (g_diseaseName g) (g_location g)) eqn:E.
    + apply IH, H.
    + change (?o :: ?rest) with ([ o ] ++ rest). rewrite app_assoc.
      apply IH. intros d l. rewrite active_count_app. simpl.
      rewrite new_outbreak_active_for.
      destruct (same_key d l (g_diseaseName g) (g_location g)) eqn:K.
      * apply same_key_true in K. inversion K. subst d l.
        rewrite (no_active_count _ _ _ E). simpl. lia.
      * specialize (H d l). simpl. lia.
Qed.

Lemma detectNewOutbreaks_created (zone : TimeZone) (db : Store)
  (threshold timeWindow now : Z) :
  detectNewOutbreaks zone db threshold timeWindow now
  = let news :=
      created (aggregate (cases db) (setDate_minus zone now timeWindow)
                 threshold)
        threshold timeWindow (outbreaks db) in
    (mkStore (cases db) (outbreaks db ++ news), news).
Proof.
  unfold detectNewOutbreaks. rewrite detect_loop_created. reflexivity.
Qed.

Lemma detection_runs_invariant (zone : TimeZone) (runs : list Run)
  (collection : list Outbreak.t) :
  at_most_one_active collection ->
  at_most_one_active (detection_runs zone runs collection).
Proof.
  unfold detection_runs. revert collection.
  induction runs as [|r runs IH]; intros collection H; simpl; [exact H|].
  apply IH. rewrite detectNewOutbreaks_created. simpl.
  apply created_at_most_one_active, H.
Qed.

(** C4: when the store holds an active outbreak for a pair
    (diseaseName, location), a run of [detectNewOutbreaks] returns no new
    outbreak for the pair and leaves the records of the pair as they were;
    and a run, hence any sequence of runs, keeps a collection with at most
    one active outbreak per pair that way. *)
Theorem C4_no_second_active_outbreak (zone : TimeZone) :
  (forall db threshold timeWindow now d l,
     has_active (outbreaks db) d l ->
     let run := detectNewOutbreaks zone db threshold timeWindow now in
     records_of (snd run) d l = []
     /\ records_of (outbreaks (fst run)) d l = records_of (outbreaks db) d l)
  /\ (forall db threshold timeWindow now,
        at_most_one_active (outbreaks db) ->
        at_most_one_active
          (outbreaks (fst (detectNewOutbreaks zone db threshold timeWindow now))))
  /\ (forall runs collection,
        at_most_one_active collection ->
        at_most_one_active (detection_runs zone runs collection)).
Proof.
  split; [|split].
  - intros db threshold timeWindow now d l H run. subst run.
    rewrite detectNewOutbreaks_created. simpl.
    pose proof (created_none_for_active
                  (aggregate (cases db) (setDate_minus zone now timeWindow)
                     threshold)
                  threshold timeWindow H) as E.
    split; [exact E|].
    unfold records_of in *. rewrite filter_app, E, app_nil_r. reflexivity.
  - intros db threshold timeWindow now H.
    rewrite detectNewOutbreaks_created. simpl.
    apply created_at_most_one_active, H.
  - exact (@detection_runs_invariant zone).
Qed.

Lemma C4_witness :
  at_most_one_active (detection_runs new_york [ digest_run; digest_run ] [])
  /\ length (detection_runs new_york [ digest_run; digest_run ] []) = 1%nat.
Proof.
  split; [|reflexivity].
  apply (proj2 (proj2 (C4_no_second_active_outbreak new_york))).
  intros d l. simpl. lia.
Defined.

(** *** The [$group] stage *)

Lemma group_for_pair (groups : list Group) (d l : string) (g : Group) :
  group_for groups d l = Some g -> In g groups /\ g_pair g = (d, l).
Proof.
  unfold group_for. intro E. apply find_some in E. destruct E as [Hin E].
  split; [exact Hin|]. apply same_key_true in E. symmetry. exact E.
Qed.

Lemma group_for_insert (groups : list Group) (c : DiseaseCase.t) (d l : string) :
  group_for (group_insert groups c) d l
  = if of_pair d l c
    then Some match group_for groups d l with
              | Some g => accumulate g c
              | None => group_of_case c
              end
    else group_for groups d l.
Proof.
  unfold group_for, of_pair.
  induction groups as [|g groups IH]; simpl.
  - destruct (same_key d l _ _); reflexivity.
  - unfold in_group.
    destruct (same_key (g_diseaseName g) (g_location g)
                (DiseaseCase.diseaseName c) (DiseaseCase.location c)) eqn:K.
    + apply same_key_true in K. injection K as Kd Kl. simpl.
      rewrite <- Kd, <- Kl.
      destruct (same_key d l (g_diseaseName g) (g_location g)); reflexivity.
    + simpl. rewrite IH.
      destruct (same_key d l (g_diseaseName g) (g_location g)) eqn:K'.
      * apply same_key_true in K'. inversion K'. subst d l.
        rewrite K. reflexivity.
      * reflexivity.
Qed.

Lemma group_insert_pairs (groups : list Group) (c : DiseaseCase.t) :
  map g_pair (group_insert groups c)
  = if existsb (fun g => in_group g c) groups
    then map g_pair groups
    else map g_pair groups ++ [ c_pair c ].
Proof.
  induction groups as [|g groups IH]; simpl; [reflexivity|].
  destruct (in_group g c); simpl; [reflexivity|].
  rewrite IH. destruct (existsb _ groups); reflexivity.
Qed.

Lemma group_insert_NoDup (groups : list Group) (c : DiseaseCase.t) :
  NoDup (map g_pair groups) -> NoDup (map g_pair (group_insert groups c)).
Proof.
  intro H. rewrite group_insert_pairs.
  destruct (existsb (fun g => in_group g c) groups) eqn:E; [exact H|].
  apply NoDup_app; [exact H | repeat constructor; intros [] |].
  intros p Hp [<-|[]]. apply in_map_iff in Hp. destruct Hp as [g [Hg Hin]].
  assert (Hc : in_group g c = true).
  { apply same_key_true. exact Hg. }
  assert (Hex : existsb (fun g => in_group g c) groups = true).
  { apply existsb_exists. exists g. split; assumption. }
  congruence.
Qed.

Lemma group_stage_NoDup (cs : list DiseaseCase.t) :
  NoDup (map g_pair (group_stage cs)).
Proof.
  unfold group_stage.
  assert (H : NoDup (map g_pair (@nil Group))) by constructor.
  revert H. generalize (@nil Group).
  induction cs as [|c cs IH]; intros groups H; simpl; [exact H|].
  apply IH, group_insert_NoDup, H.
Qed.

(** The group of a pair counts the cases of the pair. *)
Lemma group_for_fold (cs : list DiseaseCase.t) (groups : list Group) (d l : string) :
  match group_for (fold_left group_insert cs groups) d l with
  | Some g =>
      caseCount g
      = (base_count (group_for groups d l)
         + length (filter (of_pair d l) cs))%nat
      /\ emergencyCases g
         = (base_emergencies (group_for groups d l)
            + length (filter DiseaseCase.isEmergency (filter (of_pair d l) cs)))%nat
      /\ (group_for groups d l = None ->
          (1 <= length (filter (of_pair d l) cs))%nat)
  | None =>
      group_for groups d l = None /\ filter (of_pair d l) cs = []
  end.
Proof.
  revert groups. induction cs as [|c cs IH]; intro groups; simpl.
  - destruct (group_for groups d l) as [g|]; simpl.
    + split; [lia|]. split; [lia | discriminate].
    + split; reflexivity.
  - specialize (IH (group_insert groups c)).
    rewrite group_for_insert in IH.
    destruct (group_for (fold_left group_insert cs (group_insert groups c)) d l)
      as [g'|].
    + destruct (of_pair d l c); simpl in *.
      * destruct IH as [Hn [He _]].
        destruct (group_for groups d l) as [g|]; simpl in *;
          unfold cond in *; destruct (DiseaseCase.isEmergency c); simpl in *;
          repeat split; try lia; intros; lia.
      * exact IH.
    + destruct (of_pair d l c); [|exact IH].
      destruct IH as [IH _]. discriminate.
Qed.

Lemma group_stage_count (cs : list DiseaseCase.t) (d l : string) :
  match group_for (group_stage cs) d l with
  | Some g =>
      caseCount g = length (filter (of_pair d l) cs)
      /\ emergencyCases g
         = length (filter DiseaseCase.isEmergency (filter (of_pair d l) cs))
      /\ (1 <= caseCount g)%nat
  | None => filter (of_pair d l) cs = []
  end.
Proof.
  pose proof (group_for_fold cs [] d l) as H. unfold group_stage.
  destruct (group_for (fold_left group_insert cs []) d l) as [g|].
  - simpl in H. destruct H as [Hn [He H1]].
    split; [exact Hn|]. split; [exact He|]. rewrite Hn. apply H1. reflexivity.
  - apply H.
Qed.

Lemma NoDup_group_for (groups : list Group) (g : Group) :
  NoDup (map g_pair groups) -> In g groups ->
  group_for groups (g_diseaseName g) (g_location g) = Some g.
Proof.
  unfold group_for. induction groups as [|g' groups IH]; intros Hnd Hin;
    [contradiction|].
  simpl in *. inversion Hnd as [|? ? Hnot Hnd']. subst.
  destruct Hin as [->|Hin].
  - rewrite same_key_refl. reflexivity.
  - destruct (same_key (g_diseaseName g) (g_location g)
                (g_diseaseName g') (g_location g')) eqn:K.
    + exfalso. apply Hnot. apply same_key_true in K.
      apply in_map_iff. exists g. split; [|exact Hin].
      unfold g_pair. exact K.
    + apply IH; assumption.
Qed.

(** [setDate] moves the local time back by whole days. *)
Lemma setDate_minus_days_before (zone : TimeZone) (now n : Z) :
  setDate_minus zone now n = days_before zone now n.
Proof.
  unfold setDate_minus, days_before, MakeDate, Day, TimeWithinDay.
  f_equal.
  pose proof (Z.div_mod (LocalTime zone now) day_ms) as H.
  unfold day_ms in *. lia.
Qed.

(** Where the offset of the zone is the same at the two ends, the days
    are days of 24 hours. *)
Lemma days_before_same_offset (zone : TimeZone) (now n : Z) :
  LocalTZA zone (LocalTime zone now - n * day_ms) false
  = LocalTZA zone now true ->
  days_before zone now n = (now - n * day_ms)%Z.
Proof.
  intro E. unfold days_before, UTC. rewrite E. unfold LocalTime. lia.
Qed.

Lemma filter_match_stage (zone : TimeZone) (cs : list DiseaseCase.t)
  (now timeWindow : Z) (d l : string) :
  filter (of_pair d l)
    (filter (match_stage (setDate_minus zone now timeWindow)) cs)
  = group_cases zone cs now timeWindow d l.
Proof.
  rewrite setDate_minus_days_before.
  unfold group_cases. induction cs as [|c cs IH]; simpl; [reflexivity|].
  unfold match_stage at 1, considered at 1.
  rewrite (andb_comm (_ <=? _)%Z).
  destruct (match DiseaseCase.status c with
            | DiseaseCase.detected | DiseaseCase.confirmed => true
            | _ => false
            end
            && (days_before zone now timeWindow <=? DiseaseCase.caseDate c)%Z);
    simpl; [|exact IH].
  destruct (of_pair d l c); simpl; rewrite IH; reflexivity.
Qed.

(** *** The pipeline as a whole *)

Lemma aggregate_In (zone : TimeZone) (cs : list DiseaseCase.t) (now timeWindow threshold : Z)
  (g : Group) :
  In g (aggregate cs (setDate_minus zone now timeWindow) threshold) ->
  caseCount g = case_count zone cs now timeWindow (g_diseaseName g) (g_location g)
  /\ emergencyCases g
     = emergency_count zone cs now timeWindow (g_diseaseName g) (g_location g)
  /\ (threshold <= Z.of_nat (caseCount g))%Z.
Proof.
  unfold aggregate. intro H. apply filter_In in H. destruct H as [Hin Hth].
  apply Z.leb_le in Hth.
  pose proof (NoDup_group_for _ _ (group_stage_NoDup _) Hin) as E.
  pose proof (group_stage_count
                (filter (match_stage (setDate_minus zone now timeWindow)) cs)
                (g_diseaseName g) (g_location g)) as H.
  rewrite E, filter_match_stage in H. destruct H as [Hn [He _]].
  unfold case_count, emergency_count. auto.
Qed.

Lemma aggregate_has (zone : TimeZone) (cs : list DiseaseCase.t) (now timeWindow threshold : Z)
  (d l : string) :
  (1 <= threshold)%Z ->
  (threshold <= Z.of_nat (case_count zone cs now timeWindow d l))%Z ->
  exists g, In g (aggregate cs (setDate_minus zone now timeWindow) threshold)
            /\ g_pair g = (d, l).
Proof.
  intros H1 Hth.
  pose proof (group_stage_count
                (filter (match_stage (setDate_minus zone now timeWindow)) cs) d l) as H.
  rewrite filter_match_stage in H. unfold case_count in Hth.
  destruct (group_for _ d l) as [g|] eqn:E.
  - destruct H as [Hn _]. apply group_for_pair in E. destruct E as [Hin Hp].
    exists g. split; [|exact Hp]. unfold aggregate. apply filter_In.
    split; [exact Hin|]. apply Z.leb_le. rewrite Hn. exact Hth.
  - rewrite H in Hth. simpl in Hth. lia.
Qed.

Lemma created_In (groups : list Group) (threshold timeWindow : Z)
  (collection : list Outbreak.t) (o : Outbreak.t) :
  In o (created groups threshold timeWindow collection) ->
  exists g, In g groups /\ o = new_outbreak g threshold timeWindow.
Proof.
  revert collection. induction groups as [|g groups IH]; intros collection H;
    simpl in H; [contradiction|].
  destruct (findOne_active collection (g_diseaseName g) (g_location g)).
  - destruct (IH _ H) as [g' [Hin E]]. exists g'. split; [right|]; assumption.
  - destruct H as [<-|H].
    + exists g. split; [left|]; reflexivity.
    + destruct (IH _ H) as [g' [Hin E]]. exists g'. split; [right|]; assumption.
Qed.

Lemma has_active_snoc (collection : list Outbreak.t) (g : Group)
  (threshold timeWindow : Z) (d l : string) :
  has_active (collection ++ [ new_outbreak g threshold timeWindow ]) d l
  <-> has_active collection d l \/ g_pair g = (d, l).
Proof.
  unfold has_active. split.
  - intros [o [Hin Ho]]. apply in_app_or in Hin. destruct Hin as [Hin|[<-|[]]].
    + left. exists o. split; assumption.
    + right. rewrite new_outbreak_active_for in Ho.
      apply same_key_true in Ho. symmetry. exact Ho.
  - intros [[o [Hin Ho]]|Hp].
    + exists o. split; [apply in_or_app; left|]; assumption.
    + exists (new_outbreak g threshold timeWindow). split.
      * apply in_or_app. right. left. reflexivity.
      * rewrite new_outbreak_active_for. apply same_key_true.
        symmetry. exact Hp.
Qed.

(** The pairs the loop creates an outbreak for. *)
Lemma created_pairs (groups : list Group) (threshold timeWindow : Z)
  (collection : list Outbreak.t) (d l : string) :
  In (d, l) (map pair_of (created groups threshold timeWindow collection))
  <-> (exists g, In g groups /\ g_pair g = (d, l))
      /\ ~ has_active collection d l.
Proof.
  revert collection. induction groups as [|g groups IH]; intro collection;
    simpl.
  - split; [contradiction | intros [[g [[] _]] _]].
  - destruct (findOne_active collection (g_diseaseName g) (g_location g)) eqn:E.
    + rewrite IH. split.
      * intros [[g' [Hin Hp]] Hno]. split; [|exact Hno].
        exists g'. split; [right|]; assumption.
      * intros [[g' [[<-|Hin] Hp]] Hno]; split; try exact Hno.
        -- exfalso. apply Hno. injection Hp as <- <-.
           apply findOne_active_some. rewrite E. discriminate.
        -- exists g'. split; assumption.
    + simpl. rewrite IH, has_active_snoc. split.
      * intros [Hp|[[g' [Hin Hp]] Hno]].
        -- split; [exists g; split; [left; reflexivity | exact Hp]|].
           unfold pair_of in Hp. simpl in Hp. injection Hp as <- <-.
           intro H. apply findOne_active_some in H. contradiction.
        -- split; [exists g'; split; [right|]; assumption | tauto].
      * intros [[g' [[<-|Hin] Hp]] Hno].
        -- left. exact Hp.
        -- destruct (string_dec (g_diseaseName g) d) as [Hd|Hd];
             [destruct (string_dec (g_location g) l) as [Hl|Hl]|].
           ++ left. unfold pair_of. simpl. congruence.
           ++ right. split; [exists g'; split; assumption|].
              intros [H|H]; [tauto | unfold g_pair in H; congruence].
           ++ right. split; [exists g'; split; assumption|].
              intros [H|H]; [tauto | unfold g_pair in H; congruence].
Qed.

Lemma records_of_nil (news : list Outbreak.t) (d l : string) :
  records_of news d l = [] -> ~ In (d, l) (map pair_of news).
Proof.
  intros E H. apply in_map_iff in H. destruct H as [o [Hp Hin]].
  assert (Ho : In o (records_of news d l)).
  { apply filter_In. split; [exact Hin|]. apply same_key_true.
    symmetry. exact Hp. }
  rewrite E in Ho. contradiction.
Qed.

(** One outbreak per pair at most. *)
Lemma created_NoDup (groups : list Group) (threshold timeWindow : Z)
  (collection : list Outbreak.t) :
  NoDup (map pair_of (created groups threshold timeWindow collection)).
Proof.
  revert collection. induction groups as [|g groups IH]; intro collection;
    simpl; [constructor|].
  destruct (findOne_active collection (g_diseaseName g) (g_location g)).
  - apply IH.
  - simpl. constructor; [|apply IH].
    apply records_of_nil, created_none_for_active, has_active_snoc.
    right. reflexivity.
Qed.

Lemma severity_of_rule (g : Group) :
  severity_rule (caseCount g) (emergencyCases g) (severity_of g).
Proof.
  unfold severity_of, severity_rule.
  destruct (Nat.leb_spec 20 (caseCount g)), (Nat.leb_spec 5 (emergencyCases g)),
           (Nat.leb_spec 10 (caseCount g)), (Nat.leb_spec 3 (emergencyCases g)),
           (Nat.leb_spec 5 (caseCount g)); simpl; lia.
Qed.

(** What a run of [detectNewOutbreaks] returns. *)
Lemma detectNewOutbreaks_spec (zone : TimeZone) (db : Store) (threshold timeWindow now : Z) :
  (1 <= threshold)%Z ->
  let run := detectNewOutbreaks zone db threshold timeWindow now in
  let count := case_count zone (cases db) now timeWindow in
  let emergencies := emergency_count zone (cases db) now timeWindow in
  outbreaks (fst run) = outbreaks db ++ snd run
  /\ NoDup (map pair_of (snd run))
  /\ (forall d l,
        In (d, l) (map pair_of (snd run))
        <-> (threshold <= Z.of_nat (count d l))%Z
            /\ ~ has_active (outbreaks db) d l)
  /\ (forall o,
        In o (snd run) ->
        Outbreak.totalCases o
        = count (Outbreak.diseaseName o) (Outbreak.location o)
        /\ Outbreak.emergencyCases o
           = emergencies (Outbreak.diseaseName o) (Outbreak.location o)
        /\ severity_rule (Outbreak.totalCases o) (Outbreak.emergencyCases o)
             (Outbreak.severity o)
        /\ Outbreak.isActive o = true).
Proof.
  intros H1 run count emergencies. subst run count emergencies.
  rewrite detectNewOutbreaks_created. cbn [fst snd outbreaks].
  split; [reflexivity|]. split; [apply created_NoDup|]. split.
  - intros d l. rewrite created_pairs. split.
    + intros [[g [Hin Hp]] Hno]. split; [|exact Hno].
      apply aggregate_In in Hin. destruct Hin as [Hn [_ Hth]].
      injection Hp as <- <-. rewrite <- Hn. exact Hth.
    + intros [Hth Hno]. split; [|exact Hno].
      apply aggregate_has; assumption.
  - intros o Ho. apply created_In in Ho. destruct Ho as [g [Hin ->]].
    apply aggregate_In in Hin. destruct Hin as [Hn [He _]]. simpl.
    split; [exact Hn|]. split; [exact He|].
    split; [apply severity_of_rule | reflexivity].
Qed.

(** *** Five flu cases at Clinic A *)

Lemma flu_group_cases (zone : TimeZone) (cs : list DiseaseCase.t) (now : Z) :
  Forall (flu_at_clinic_A zone now) cs ->
  group_cases zone cs now 7 "flu" "Clinic A" = cs
  /\ filter DiseaseCase.isEmergency cs = []
  /\ (forall d l, group_cases zone cs now 7 d l <> [] -> (d, l) = ("flu", "Clinic A")).
Proof.
  unfold group_cases. induction 1 as [|c cs [Hd [Hl [He Hc]]] _ [IH1 [IH2 IH3]]];
    simpl.
  - split; [reflexivity|]. split; [reflexivity|]. intros d l H. contradiction.
  - rewrite He, Hc. unfold of_pair at 1. rewrite Hd, Hl. simpl.
    rewrite IH1. split; [reflexivity|]. split; [exact IH2|].
    intros d l. unfold of_pair at 1. rewrite Hd, Hl. simpl.
    destruct (same_key d l "flu" "Clinic A") eqn:K.
    + intros _. apply same_key_true, K.
    + apply IH3.
Qed.

Lemma single_pair (p : string * string) (l : list (string * string)) :
  NoDup l -> In p l -> (forall q, In q l -> q = p) -> l = [ p ].
Proof.
  intros Hnd Hin Hall. destruct l as [|a [|b l]].
  - contradiction.
  - rewrite (Hall a); [reflexivity | left; reflexivity].
  - exfalso. inversion Hnd as [|? ? Hnot _]. subst. apply Hnot.
    rewrite (Hall a), (Hall b); simpl; auto.
Qed.

Lemma five_flu_cases (zone : TimeZone) (db : Store) (now : Z) :
  length (cases db) = 5%nat ->
  Forall (flu_at_clinic_A zone now) (cases db) ->
  ~ has_active (outbreaks db) "flu" "Clinic A" ->
  exists o,
    snd (detectNewOutbreaks zone db 3 7 now) = [ o ]
    /\ Outbreak.diseaseName o = "flu"
    /\ Outbreak.location o = "Clinic A"
    /\ Outbreak.totalCases o = 5%nat
    /\ Outbreak.severity o = medium.
Proof.
  intros Hlen Hall Hno.
  destruct (flu_group_cases Hall) as [Hcs [Hem Honly]].
  assert (H3 : (1 <= 3)%Z) by lia.
  destruct (detectNewOutbreaks_spec zone db 7 now H3) as [_ [Hnd [Hpairs Hnews]]].
  set (news := snd (detectNewOutbreaks zone db 3 7 now)) in *.
  assert (Hcount : case_count zone (cases db) now 7 "flu" "Clinic A" = 5%nat).
  { unfold case_count. rewrite Hcs. exact Hlen. }
  assert (Hlist : map pair_of news = [ ("flu", "Clinic A") ]).
  { apply single_pair; [exact Hnd | |].
    - apply Hpairs. rewrite Hcount. split; [lia | exact Hno].
    - intros [d l] Hq. apply Hpairs in Hq. destruct Hq as [Hth _].
      apply Honly. intro E. unfold case_count in Hth. rewrite E in Hth.
      simpl in Hth. lia. }
  destruct news as [|o [|o' more]] eqn:En; try discriminate.
  exists o. split; [reflexivity|].
  injection Hlist as Hd Hl.
  destruct (Hnews o (or_introl eq_refl)) as [Hn [He [Hs _]]].
  rewrite Hd, Hl in Hn, He. rewrite Hcount in Hn.
  unfold emergency_count in He. rewrite Hcs, Hem in He. simpl in He.
  rewrite Hn, He in Hs.
  repeat split; try assumption.
  destruct (Outbreak.severity o); simpl in Hs; try reflexivity; lia.
Qed.

Lemma considered_window (zone : TimeZone) (now timeWindow : Z)
  (c : DiseaseCase.t) :
  (DiseaseCase.caseDate c <= now)%Z ->
  considered zone now timeWindow c = true
  <-> (DiseaseCase.status c = DiseaseCase.detected
       \/ DiseaseCase.status c = DiseaseCase.confirmed)
      /\ (days_before zone now timeWindow <= DiseaseCase.caseDate c <= now)%Z.
Proof.
  intro Hnow. unfold considered. rewrite andb_true_iff, Z.leb_le.
  destruct (DiseaseCase.status c); intuition (try discriminate; auto).
Qed.

(** The days are those of the server's calendar: 24 hours each, but for
    the change of the offset between the two ends. *)
Lemma days_before_offsets (zone : TimeZone) (now n : Z) :
  days_before zone now n
  = (now - n * day_ms
     + (LocalTZA zone now true
        - LocalTZA zone (now + LocalTZA zone now true - n * day_ms) false))%Z.
Proof. unfold days_before, UTC, LocalTime. lia. Qed.

(** C5: for a threshold and a time window of at least 1, a run of
    [detectNewOutbreaks] counts, pair by pair, the cases that are detected
    or confirmed and dated within the time window before the run; it
    returns one new outbreak for each pair whose count reaches the
    threshold and which has no active outbreak yet, and for no other pair;
    the outbreak carries the count and the number of emergencies of its
    pair, and its severity is critical from 20 cases or 5 emergencies,
    else high from 10 cases or 3 emergencies, else medium from 5 cases,
    else low.  Five flu cases at Clinic A, none an emergency, all
    considered, give with threshold 3 and window 7 exactly one outbreak,
    with 5 cases and severity medium.  A case dated no later than the run
    is considered exactly when it is detected or confirmed and dated
    within the [timeWindow] days before [now].  The days are days of the
    calendar of the server, whatever its time zone: the window starts at
    the same local time [timeWindow] days earlier, which is [timeWindow]
    times 24 hours before [now] when the offset of the zone is the same at
    the two ends, and as much earlier or later as the offset has changed
    when it is not. *)
Theorem C5_outbreaks_of_a_run (zone : TimeZone) :
  (forall db threshold timeWindow now,
     (1 <= threshold)%Z -> (1 <= timeWindow)%Z ->
     let run := detectNewOutbreaks zone db threshold timeWindow now in
     let count := case_count zone (cases db) now timeWindow in
     let emergencies := emergency_count zone (cases db) now timeWindow in
     outbreaks (fst run) = outbreaks db ++ snd run
     /\ NoDup (map pair_of (snd run))
     /\ (forall d l,
           In (d, l) (map pair_of (snd run))
           <-> (threshold <= Z.of_nat (count d l))%Z
               /\ ~ has_active (outbreaks db) d l)
     /\ (forall o,
           In o (snd run) ->
           Outbreak.totalCases o
           = count (Outbreak.diseaseName o) (Outbreak.location o)
           /\ Outbreak.emergencyCases o
              = emergencies (Outbreak.diseaseName o) (Outbreak.location o)
           /\ severity_rule (Outbreak.totalCases o) (Outbreak.emergencyCases o)
                (Outbreak.severity o)
           /\ Outbreak.isActive o = true))
  /\ (forall db now,
        length (cases db) = 5%nat ->
        Forall (flu_at_clinic_A zone now) (cases db) ->
        ~ has_active (outbreaks db) "flu" "Clinic A" ->
        exists o,
          snd (detectNewOutbreaks zone db 3 7 now) = [ o ]
          /\ Outbreak.diseaseName o = "flu"
          /\ Outbreak.location o = "Clinic A"
          /\ Outbreak.totalCases o = 5%nat
          /\ Outbreak.severity o = medium)
  /\ (forall now timeWindow c,
        (DiseaseCase.caseDate c <= now)%Z ->
        considered zone now timeWindow c = true
        <-> (DiseaseCase.status c = DiseaseCase.detected
             \/ DiseaseCase.status c = DiseaseCase.confirmed)
            /\ (days_before zone now timeWindow
                <= DiseaseCase.caseDate c <= now)%Z)
  /\ (forall now timeWindow,
        days_before zone now timeWindow
        = (now - timeWindow * day_ms
           + (LocalTZA zone now true
              - LocalTZA zone
                  (now + LocalTZA zone now true - timeWindow * day_ms)
                  false))%Z
        /\ (LocalTZA zone (now + LocalTZA zone now true - timeWindow * day_ms)
              false
            = LocalTZA zone now true ->
            days_before zone now timeWindow
            = (now - timeWindow * day_ms)%Z)).
Proof.
  split; [|split; [|split]].
  - intros db threshold timeWindow now H1 _.
    apply detectNewOutbreaks_spec, H1.
  - exact (@five_flu_cases zone).
  - exact (@considered_window zone).
  - intros now timeWindow. split; [apply days_before_offsets|].
    intro E. rewrite days_before_offsets, E. lia.
Qed.

(** Across the end of the daylight saving time in New York the window of
    seven days is an hour longer than 168 hours, and a case of that hour
    counts. *)
Lemma C5_witness :
  days_before new_york 1699740800000 7
  = (1699740800000 - 7 * day_ms - hour_ms)%Z
  /\ exists o,
       snd (detectNewOutbreaks new_york november_flu_store 3 7 1699740800000)
       = [ o ]
       /\ Outbreak.diseaseName o = "flu"
       /\ Outbreak.location o = "Clinic A"
       /\ Outbreak.totalCases o = 5%nat
       /\ Outbreak.severity o = medium.
Proof.
  split; [reflexivity|].
  apply (proj1 (proj2 (C5_outbreaks_of_a_run new_york))).
  - reflexivity.
  - repeat constructor.
  - intros [o [[] _]].
Defined.


(** * Further properties *)

(** ** When [analyzeSymptoms] falls back *)

Lemma lower_ascii_idempotent (c : ascii) :
  lower_ascii (lower_ascii c) = lower_ascii c.
Proof.
  destruct c as [[] [] [] [] [] [] [] []]; reflexivity.
Qed.

Lemma toLowerCase_idempotent (s : string) :
  toLowerCase (toLowerCase s) = toLowerCase s.
Proof.
  induction s as [|c s IH]; simpl; [reflexivity|].
  rewrite lower_ascii_idempotent, IH. reflexivity.
Qed.

(** Of the keys of [Object.prototype], two are spelled in lower case. *)
Lemma lower_case_inherited (n : string) :
  inherited (toLowerCase n) = true ->
  toLowerCase n = "constructor" \/ toLowerCase n = "__proto__".
Proof.
  intro H. apply inherited_key in H.
  pose proof (toLowerCase_idempotent n) as E.
  simpl in H.
  repeat (destruct H as [H|H];
          [rewrite <- H in E; try discriminate E; auto|]).
  contradiction.
Qed.

Lemma existsb_inherited_names (r : SymptomRecord) :
  existsb inherited (symptomNames_of r) = true
  <-> In "constructor" (symptomNames_of r) \/ In "__proto__" (symptomNames_of r).
Proof.
  rewrite existsb_exists. split.
  - intros [n [Hin Hn]]. unfold symptomNames_of in Hin.
    apply in_map_iff in Hin. destruct Hin as [s [<- Hs]].
    destruct (lower_case_inherited _ Hn) as [E|E]; [left | right];
      rewrite <- E; apply in_map_iff; exists s; split; auto.
  - intros [H|H]; eexists; (split; [exact H | reflexivity]).
Qed.

(** The two ways into the [catch] of [analyzeSymptoms]. *)
Lemma fallback_cases (this : Service) (r : SymptomRecord)
  (modelRecord : option ModelRecord) (random : Q) (now : Z) :
  let result := analyzeSymptoms this r modelRecord random now in
  (error result <> None
   <-> featureEncoder this = None
       \/ In "constructor" (symptomNames_of r)
       \/ In "__proto__" (symptomNames_of r))
  /\ (error result <> None -> result = fallback now)
  /\ (error result = None ->
      predictedSyndrome result = predictSyndrome (symptomNames_of r)).
Proof.
  intro result. subst result. unfold analyzeSymptoms.
  pose proof (raw_risk_cases this r) as H.
  rewrite <- existsb_inherited_names.
  destruct (raw_risk this r) as [x|]; cbn [error predictedSyndrome].
  - destruct H as [Henc [Hi _]]. split; [|split].
    + split; [intro E; contradiction E; reflexivity|].
      intros [E|E]; [contradiction | congruence].
    + intro E. contradiction E. reflexivity.
    + reflexivity.
  - split; [|split].
    + split; [intros _; exact H | discriminate].
    + reflexivity.
    + discriminate.
Qed.

(** The result is the fallback of the [catch] exactly when the encoder is
    missing or a symptom is named constructor or __proto__ (in any
    case). *)
Theorem analyzeSymptoms_fallback_iff (this : Service) (r : SymptomRecord)
  (modelRecord : option ModelRecord) (random : Q) (now : Z) :
  let result := analyzeSymptoms this r modelRecord random now in
  (error result <> None
   <-> featureEncoder this = None
       \/ In "constructor" (symptomNames_of r)
       \/ In "__proto__" (symptomNames_of r))
  /\ (error result <> None -> result = fallback now)
  /\ (error result = None ->
      predictedSyndrome result = predictSyndrome (symptomNames_of r)).
Proof.
  intro result. subst result.
  destruct (fallback_cases this r modelRecord random now) as [H [Hf Hp]].
  split; [exact H|]. split; [exact Hf | exact Hp].
Qed.

(** ** The risk score is a multiple of 0.05 *)

(** The score a successful analysis returns is a multiple of 0.05 from 0.1
    to 1.  Whatever the branch, a result above 0.7 is flagged for review.
    The first two recommendations of a successful analysis whose score lies
    inside a tier are the block of that tier.  (For a score on a boundary
    the sum before the rounding decides, and the statement says nothing.) *)
Theorem riskScore_grid_and_flag (this : Service) (r : SymptomRecord)
  (modelRecord : option ModelRecord) (random : Q) (now : Z) :
  let result := analyzeSymptoms this r modelRecord random now in
  (0.7 < riskScore result -> flaggedForReview result = true)
  /\ (error result = None ->
      (exists k : Z, (2 <= k <= 20)%Z /\ riskScore result == k # 20)
      /\ forall t,
           inside_tier (riskScore result) t ->
           firstn 2 (recommendations result) = Spec.tier_block t).
Proof.
  intro result. subst result. unfold analyzeSymptoms.
  destruct (raw_risk this r) as [x|] eqn:E;
    cbn [riskScore flaggedForReview error recommendations].
  - pose proof (round3_twentieths (raw_risk_twentieths _ _ E)) as Hx.
    pose proof (raw_risk_unit _ _ E) as Hu.
    split.
    + intro H. rewrite Hx in H. unfold shouldFlagForReview.
      assert (H' : ge x 0.7 = true) by (apply ge_true; lra).
      rewrite H'. reflexivity.
    + intros _. split.
      * destruct (raw_risk_twentieths _ _ E) as [k Hk].
        pose proof (raw_risk_cases this r) as Hc. rewrite E in Hc.
        destruct Hc as [_ [_ Hc]].
        pose proof (total_nonneg (symptomNames_of r)) as Ht.
        pose proof (add_vital_signs_ge (vitals_of r)
                      (0.1 + total (map (weight_in symptomWeights)
                                        (symptomNames_of r)))) as Hv.
        assert (Hlow : 0.1 <= x).
        { destruct (Q.min_spec
                      (add_vital_signs (vitals_of r)
                         (0.1 + total (map (weight_in symptomWeights)
                                           (symptomNames_of r)))) 1)
            as [[_ E1]|[_ E1]]; rewrite E1 in Hc; lra. }
        exists k. split; [|rewrite Hx; exact Hk].
        rewrite Hk in Hlow, Hu. destruct Hu as [_ Hu].
        unfold Qle in Hlow, Hu. simpl in Hlow, Hu. lia.
      * intros t Hin.
        destruct (risk_block_tier x) as [t' [Ht Hb]].
        unfold generateRecommendations. rewrite Hb.
        assert (Et : t' = t).
        { destruct t, t'; simpl in Hin, Ht; rewrite Hx in Hin;
            try reflexivity; exfalso; lra. }
        subst t'. destruct t; reflexivity.
  - split; [intro H; exfalso; revert H; apply Qle_not_lt; discriminate
           | discriminate].
Qed.

Lemma riskScore_grid_and_flag_witness :
  let result := analyzeSymptoms (mkService (Some default_encoder))
                  feverish_record None 0.25 1700000000000 in
  flaggedForReview result = true
  /\ (exists k : Z, (2 <= k <= 20)%Z /\ riskScore result == k # 20)
  /\ firstn 2 (recommendations result) = Spec.tier_block Spec.immediate.
Proof.
  split.
  - apply (proj1 (riskScore_grid_and_flag (mkService (Some default_encoder))
                    feverish_record None 0.25 1700000000000)).
    reflexivity.
  - destruct (proj2 (riskScore_grid_and_flag (mkService (Some default_encoder))
                       feverish_record None 0.25 1700000000000) eq_refl)
      as [Hk Ht].
    split; [exact Hk | apply Ht; reflexivity].
Defined.

(** ** The order of the symptoms *)

Lemma existsb_Permutation {A : Type} (f : A -> bool) (l l' : list A) :
  Permutation l l' -> existsb f l = existsb f l'.
Proof.
  induction 1 as [|x l l' _ IH|x y l|l l' l'' _ IH1 _ IH2]; simpl.
  - reflexivity.
  - rewrite IH. reflexivity.
  - destruct (f x), (f y); reflexivity.
  - rewrite IH1. exact IH2.
Qed.

Lemma filter_length_Permutation {A : Type} (f : A -> bool) (l l' : list A) :
  Permutation l l' -> length (filter f l) = length (filter f l').
Proof.
  induction 1 as [|x l l' _ IH|x y l|l l' l'' _ IH1 _ IH2]; simpl.
  - reflexivity.
  - destruct (f x); simpl; rewrite IH; reflexivity.
  - destruct (f x), (f y); reflexivity.
  - rewrite IH1. exact IH2.
Qed.

Lemma total_Permutation (l l' : list Q) :
  Permutation l l' -> total l == total l'.
Proof.
  induction 1 as [|x l l' _ IH|x y l|l l' l'' _ IH1 _ IH2]; simpl.
  - reflexivity.
  - rewrite IH. reflexivity.
  - lra.
  - rewrite IH1. exact IH2.
Qed.

Lemma predict_loop_ext (entries : list (string * list string))
  (names names' : list string) :
  (forall t, arr_includes names t = arr_includes names' t) ->
  predict_loop entries names = predict_loop entries names'.
Proof.
  intro H. induction entries as [|[syndrome triggers] entries IH]; simpl;
    [reflexivity|].
  rewrite (filter_ext _ _ H), IH. reflexivity.
Qed.

Lemma raw_risk_Permutation (this : Service) (r : SymptomRecord)
  (ss : list Symptom) :
  Permutation (symptoms r) ss ->
  match raw_risk this r, raw_risk this (with_symptoms r ss) with
  | Some x, Some y => x == y
  | None, None => True
  | _, _ => False
  end.
Proof.
  intro P.
  assert (Pn : Permutation (symptomNames_of r)
                 (symptomNames_of (with_symptoms r ss))).
  { unfold symptomNames_of. simpl. apply Permutation_map, P. }
  pose proof (raw_risk_cases this r) as H.
  pose proof (raw_risk_cases this (with_symptoms r ss)) as H'.
  rewrite <- (existsb_Permutation inherited Pn) in H'.
  change (vitals_of (with_symptoms r ss)) with (vitals_of r) in H'.
  destruct (raw_risk this r) as [x|],
           (raw_risk this (with_symptoms r ss)) as [y|].
  - destruct H as [_ [_ H]], H' as [_ [_ H']]. rewrite H, H'.
    apply Qmin_eq_l, add_vital_signs_shift.
    rewrite (total_Permutation (Permutation_map _ Pn)). reflexivity.
  - destruct H as [Henc [Hi _]], H' as [H'|H']; congruence.
  - destruct H' as [Henc [Hi _]], H as [H|H]; congruence.
  - exact I.
Qed.

Lemma risk_block_eq (x y : Q) : x == y -> risk_block x = risk_block y.
Proof.
  intro E. unfold risk_block, ge.
  rewrite !(Qleb_comp _ _ (Qeq_refl _) _ _ E). reflexivity.
Qed.

Lemma shouldFlagForReview_eq (x y c : Q) (r : SymptomRecord) :
  x == y -> shouldFlagForReview x c r = shouldFlagForReview y c r.
Proof.
  intro E. unfold shouldFlagForReview, ge at 1 3.
  rewrite (Qleb_comp _ _ (Qeq_refl _) _ _ E). reflexivity.
Qed.

(** Listing the symptoms in another order changes neither the risk score
    nor the syndrome, the confidence, the error or the recommendations
    after the two lines of the risk tier.  The flag is the same when the
    score is not 0.7, and so are the two lines of the tier when the score
    is on no boundary of the tiers.  (On those thresholds the sum before
    the rounding decides, which the code adds up in the order of the
    list.) *)
Theorem analyzeSymptoms_order_independent (this : Service) (r : SymptomRecord)
  (ss : list Symptom) (modelRecord : option ModelRecord) (random : Q) (now : Z) :
  Permutation (symptoms r) ss ->
  let listed := analyzeSymptoms this r modelRecord random now in
  let reordered :=
    analyzeSymptoms this (with_symptoms r ss) modelRecord random now in
  riskScore reordered = riskScore listed
  /\ predictedSyndrome reordered = predictedSyndrome listed
  /\ confidence reordered = confidence listed
  /\ error reordered = error listed
  /\ skipn 2 (recommendations reordered) = skipn 2 (recommendations listed)
  /\ (~ riskScore listed == 0.7 ->
      flaggedForReview reordered = flaggedForReview listed)
  /\ (off_tier_boundaries (riskScore listed) ->
      recommendations reordered = recommendations listed).
Proof.
  intros P listed reordered. subst listed reordered. unfold analyzeSymptoms.
  pose proof (raw_risk_Permutation this r P) as H.
  destruct (raw_risk this r) as [x|],
           (raw_risk this (with_symptoms r ss)) as [y|];
    try contradiction; [|repeat split; reflexivity].
  cbn [riskScore predictedSyndrome confidence error recommendations
       flaggedForReview].
  assert (Hn : forall t, arr_includes (symptomNames_of (with_symptoms r ss)) t
                         = arr_includes (symptomNames_of r) t).
  { intro t. unfold arr_includes, symptomNames_of. simpl.
    apply existsb_Permutation, Permutation_map, Permutation_sym, P. }
  assert (Hp : predictSyndrome (symptomNames_of (with_symptoms r ss))
               = predictSyndrome (symptomNames_of r)).
  { apply predict_loop_ext, Hn. }
  assert (Hl : symptom_lines (with_symptoms r ss) = symptom_lines r).
  { unfold symptom_lines. simpl.
    rewrite !(existsb_Permutation _ (Permutation_sym P)). reflexivity. }
  assert (Hf : forall c, shouldFlagForReview y c (with_symptoms r ss)
                         = shouldFlagForReview x c r).
  { intro c. rewrite (shouldFlagForReview_eq c _ (Qeq_sym _ _ H)).
    unfold shouldFlagForReview, info_flag, vitals_of. simpl.
    rewrite (filter_length_Permutation _ (Permutation_sym P)). reflexivity. }
  assert (Hr : generateRecommendations y
                 (predictSyndrome (symptomNames_of (with_symptoms r ss)))
                 (with_symptoms r ss)
               = generateRecommendations x
                   (predictSyndrome (symptomNames_of r)) r).
  { rewrite Hp. unfold generateRecommendations.
    rewrite Hl, (risk_block_eq (Qeq_sym _ _ H)). reflexivity. }
  rewrite Hr, Hp, Hf, (round3_eq (Qeq_sym _ _ H)).
  repeat split; reflexivity.
Qed.

Lemma analyzeSymptoms_order_independent_witness :
  let listed := analyzeSymptoms (mkService (Some default_encoder)) cough_record
                  None 0.25 1700000000000 in
  let reordered :=
    analyzeSymptoms (mkService (Some default_encoder))
      (with_symptoms cough_record (rev (symptoms cough_record))) None 0.25
      1700000000000 in
  riskScore reordered = riskScore listed
  /\ predictedSyndrome reordered = predictedSyndrome listed
  /\ skipn 2 (recommendations reordered) = skipn 2 (recommendations listed).
Proof.
  destruct (@analyzeSymptoms_order_independent
              (mkService (Some default_encoder)) cough_record
              (rev (symptoms cough_record)) None 0.25 1700000000000%Z
              (Permutation_rev _)) as [Hs [Hp [_ [_ [Hr _]]]]].
  split; [exact Hs|]. split; [exact Hp | exact Hr].
Defined.

(** ** What the classifier does with the cardiac triggers *)

Lemma count_true_exists (f : string -> bool) (l : list string) :
  (1 <= count_occ bool_dec (map f l) true)%nat <-> exists x, In x l /\ f x = true.
Proof.
  rewrite <- count_filter. split.
  - intro H. destruct (filter f l) as [|x rest] eqn:E; [simpl in H; lia|].
    assert (Hx : In x (filter f l)) by (rewrite E; left; reflexivity).
    apply filter_In in Hx. exists x. exact Hx.
  - intros [x Hx]. apply filter_In in Hx.
    destruct (filter f l); [contradiction | simpl; lia].
Qed.

Lemma cardiac_trigger_count (names : list string) :
  cardiac_trigger_among names
  <-> (1 <= count_occ bool_dec
              (map (arr_includes names)
                   [ "chest_pain"; "heart_palpitations"; "shortness_of_breath" ])
              true)%nat.
Proof.
  rewrite count_true_exists. unfold cardiac_trigger_among. split.
  - intros [H|[H|H]]; apply arr_includes_In in H; eexists;
      (split; [|exact H]); simpl; auto.
  - intros [t [Ht H]]. apply arr_includes_In in H. simpl in Ht.
    destruct Ht as [<-|[<-|[<-|[]]]]; auto.
Qed.

(** A report with a cardiac trigger is never left unknown, the answer
    cardiac is given only to reports with a cardiac trigger, and chest pain
    together with shortness of breath is a respiratory infection, the
    category that comes first. *)
Theorem cardiac_triggers_classified (names : list string) :
  (cardiac_trigger_among names -> predictSyndrome names <> "unknown")
  /\ (predictSyndrome names = "cardiac" -> cardiac_trigger_among names)
  /\ (In "chest_pain" names -> In "shortness_of_breath" names ->
      predictSyndrome names = "respiratory_infection").
Proof.
  unfold predictSyndrome. rewrite predict_loop_find.
  split; [|split].
  - intro H. apply cardiac_trigger_count in H.
    destruct (find _ syndromeRules) as [e|] eqn:E.
    + apply find_some in E. destruct E as [Hin _]. simpl in Hin.
      repeat (destruct Hin as [<-|Hin]; [discriminate|]). contradiction.
    + assert (Hc := find_none _ _ E
                      ("cardiac", [ "chest_pain"; "heart_palpitations";
                                    "shortness_of_breath" ])).
      cbn [fst snd] in Hc. specialize (Hc ltac:(simpl; tauto)). apply Nat.leb_gt in Hc.
      change (Spec.triggers_needed "cardiac") with 1%nat in Hc. lia.
  - destruct (find _ syndromeRules) as [e|] eqn:E; [|discriminate].
    apply find_some in E. destruct E as [Hin He]. intro Hc. simpl in Hin.
    repeat (destruct Hin as [<-|Hin]; [try discriminate Hc|]);
      [|contradiction].
    apply cardiac_trigger_count. apply Nat.leb_le in He. exact He.
  - intros Hc Hs. apply arr_includes_In in Hc, Hs.
    cbn [find syndromeRules fst snd map count_occ].
    rewrite Hc, Hs.
    change (Spec.triggers_needed "respiratory_infection") with 2%nat.
    destruct (arr_includes names "fever"), (arr_includes names "cough");
      reflexivity.
Qed.

Lemma cardiac_triggers_classified_witness :
  predictSyndrome [ "dizziness"; "heart_palpitations" ] <> "unknown"
  /\ predictSyndrome [ "shortness_of_breath"; "headache"; "chest_pain" ]
     = "respiratory_infection".
Proof.
  split.
  - apply (proj1 (cardiac_triggers_classified _)).
    right. left. simpl. tauto.
  - apply (proj2 (proj2 (cardiac_triggers_classified _))); simpl; tauto.
Defined.

(** ** The symptom lines of the recommendations *)

(** There are between three and eight recommendations; the line on the
    temperature is there exactly when a symptom name contains fever or
    temperature, the two lines on the cough exactly when one contains
    cough, whatever the score and the syndrome. *)
Theorem symptom_lines_by_substring (riskScore : Q) (syndrome : string)
  (r : SymptomRecord) :
  let recs := generateRecommendations riskScore syndrome r in
  (3 <= length recs <= 8)%nat
  /\ (In "Monitor temperature every 4 hours" recs
      <-> exists s, In s (symptoms r) /\ names_fever s = true)
  /\ (In "Use cough suppressants as needed" recs
      <-> exists s, In s (symptoms r) /\ names_cough s = true)
  /\ (In "Avoid irritants like smoke" recs
      <-> exists s, In s (symptoms r) /\ names_cough s = true).
Proof.
  intro recs. subst recs.
  rewrite <- !existsb_exists.
  unfold generateRecommendations, risk_block, syndrome_block, symptom_lines.
  change (fun s : Symptom =>
            includes (toLowerCase (name s)) "fever"
            || includes (toLowerCase (name s)) "temperature")
    with names_fever.
  change (fun s : Symptom => includes (toLowerCase (name s)) "cough")
    with names_cough.
  destruct (existsb names_fever (symptoms r)),
           (existsb names_cough (symptoms r));
    case_ifs; simpl;
    (split; [lia|]);
    repeat split; intro H; try reflexivity; try discriminate H;
    repeat (destruct H as [H|H]; try discriminate H); tauto.
Qed.

(** ** [extractFeatures] *)

Lemma set_nth_length (v : list Q) (i : nat) (x : Q) :
  length (set_nth v i x) = length v.
Proof.
  revert i. induction v as [|y v IH]; intros [|i]; simpl; auto.
Qed.

Lemma nth_set_nth (v : list Q) (i j : nat) (x : Q) :
  nth i (set_nth v j x) 0 = if (i =? j)%nat && (j <? length v)%nat then x
                            else nth i v 0.
Proof.
  revert i j. induction v as [|y v IH]; intros i j; simpl.
  - rewrite andb_false_r. destruct i; reflexivity.
  - destruct j as [|j], i as [|i]; simpl; try reflexivity.
    rewrite IH. reflexivity.
Qed.

Lemma indexOf_nth (arr : list string) (x : string) (j : nat) :
  indexOf arr x = Some j -> (j < length arr)%nat /\ nth j arr "" = x.
Proof.
  revert j. induction arr as [|y arr IH]; intros j H; simpl in *;
    [discriminate|].
  destruct (String.eqb_spec y x) as [->|_].
  - injection H as <-. split; [lia | reflexivity].
  - destruct (indexOf arr x) as [k|]; [|discriminate].
    injection H as <-. destruct (IH k eq_refl). split; [lia | assumption].
Qed.

Lemma indexOf_None (arr : list string) (x : string) :
  indexOf arr x = None -> ~ In x arr.
Proof.
  induction arr as [|y arr IH]; intros H Hin; simpl in *; [contradiction|].
  destruct Hin as [E|Hin].
  - subst y. rewrite String.eqb_refl in H. discriminate.
  - destruct (String.eqb y x); [discriminate|].
    destruct (indexOf arr x); [discriminate|]. exact (IH eq_refl Hin).
Qed.

(** In an array without repetition the index found is the index. *)
Lemma indexOf_NoDup (arr : list string) (i : nat) :
  NoDup arr -> (i < length arr)%nat -> indexOf arr (nth i arr "") = Some i.
Proof.
  revert i. induction arr as [|y arr IH]; intros i Hnd Hi; simpl in *; [lia|].
  inversion Hnd as [|? ? Hnot Hnd']. subst.
  destruct i as [|i].
  - rewrite String.eqb_refl. reflexivity.
  - destruct (String.eqb_spec y (nth i arr "")) as [E|_].
    + exfalso. apply Hnot. rewrite E. apply nth_In. lia.
    + rewrite IH; [reflexivity | assumption | lia].
Qed.

(** One cell of a one-hot vector built by a [forEach] over keys. *)
Lemma one_hot_cell (arr : list string) (keys : list string) (vec : list Q)
  (i : nat) :
  NoDup arr -> length vec = length arr -> (i < length arr)%nat ->
  nth i (fold_left
           (fun vec key =>
              match indexOf arr key with
              | Some index => set_nth vec index 1
              | None => vec
              end) keys vec) 0
  = if arr_includes keys (nth i arr "") then 1 else nth i vec 0.
Proof.
  intros Hnd. revert vec. induction keys as [|key keys IH]; intros vec Hlen Hi;
    simpl; [reflexivity|].
  destruct (indexOf arr key) as [j|] eqn:E.
  - rewrite IH by (rewrite ?set_nth_length; assumption).
    destruct (arr_includes keys (nth i arr "")) eqn:Ek;
      [rewrite orb_true_r; reflexivity|]. rewrite orb_false_r.
    rewrite nth_set_nth. destruct (indexOf_nth _ _ E) as [Hj <-].
    rewrite Hlen. apply Nat.ltb_lt in Hj as Hjb. rewrite Hjb, andb_true_r.
    destruct (Nat.eqb_spec i j) as [->|Hij].
    + rewrite String.eqb_refl. reflexivity.
    + destruct (String.eqb_spec (nth i arr "") (nth j arr "")) as [En|_];
        [|reflexivity].
      exfalso. apply Hij.
      apply (proj1 (NoDup_nth arr "") Hnd i j Hi Hj En).
  - rewrite IH by assumption.
    destruct (String.eqb_spec (nth i arr "") key) as [<-|_]; [|reflexivity].
    exfalso. apply (indexOf_None _ _ E). apply nth_In, Hi.
Qed.

Lemma symptomVector_names (enc : FeatureEncoder) (r : SymptomRecord) :
  symptomVector_of enc r
  = fold_left
      (fun vec key =>
         match indexOf (enc_symptoms enc) key with
         | Some index => set_nth vec index 1
         | None => vec
         end)
      (symptomNames_of r) (repeat 0 (length (enc_symptoms enc))).
Proof.
  unfold symptomVector_of, symptomNames_of.
  generalize (repeat 0 (length (enc_symptoms enc))).
  induction (symptoms r) as [|s ss IH]; intro vec; simpl; [reflexivity|].
  apply IH.
Qed.

Lemma symptomVector_length (enc : FeatureEncoder) (r : SymptomRecord) :
  length (symptomVector_of enc r) = length (enc_symptoms enc).
Proof.
  unfold symptomVector_of.
  assert (H : length (repeat 0 (length (enc_symptoms enc)))
              = length (enc_symptoms enc)) by apply repeat_length.
  revert H. generalize (repeat 0 (length (enc_symptoms enc))).
  induction (symptoms r) as [|s ss IH]; intros vec H; simpl; [exact H|].
  apply IH. destruct (indexOf _ _); rewrite ?set_nth_length; exact H.
Qed.

Lemma extractFeatures_split (this : Service) (r : SymptomRecord) :
  match extractFeatures this r, featureEncoder this with
  | Some features, Some enc =>
      exists scalars,
        features = symptomVector_of enc r ++ scalars
        /\ length scalars = 11%nat
        /\ nth 0 scalars 0
           = fold_left (fun sum s => sum + severity s) (symptoms r) 0
             / inject_Z (Z.of_nat (length (symptoms r))) / 10
  | None, None => True
  | _, _ => False
  end.
Proof.
  unfold extractFeatures. destruct (featureEncoder this) as [enc|]; [|exact I].
  eexists. split; [reflexivity|]. split; reflexivity.
Qed.

(** Length and one-hot cells of the feature vector. *)
Lemma extractFeatures_cells (this : Service) (r : SymptomRecord) :
  (extractFeatures this r = None <-> featureEncoder this = None)
  /\ (forall enc features,
        featureEncoder this = Some enc ->
        extractFeatures this r = Some features ->
        length features = (length (enc_symptoms enc) + 11)%nat
        /\ (NoDup (enc_symptoms enc) ->
            forall i, (i < length (enc_symptoms enc))%nat ->
              nth i features 0
              = if arr_includes (symptomNames_of r) (nth i (enc_symptoms enc) "")
                then 1 else 0)).
Proof.
  pose proof (extractFeatures_split this r) as H. split.
  - destruct (extractFeatures this r), (featureEncoder this);
      try contradiction; split; intro; congruence.
  - intros enc features Henc Hf. rewrite Hf, Henc in H.
    destruct H as [scalars [-> [Hlen _]]]. split.
    + rewrite length_app, symptomVector_length, Hlen. reflexivity.
    + intros Hnd i Hi.
      rewrite app_nth1 by (rewrite symptomVector_length; exact Hi).
      rewrite symptomVector_names, one_hot_cell;
        [|exact Hnd | apply repeat_length | exact Hi].
      rewrite nth_repeat. reflexivity.
Qed.

(** [extractFeatures] throws exactly when the encoder is missing;
    otherwise the vector has one cell per symptom of the encoder and eleven
    more, and, the symptoms of the encoder being without repetition, the
    cell of a symptom holds 1 if the symptom is among the lower-cased names
    of the record and 0 if not, however often and in whatever order the
    names come. *)
Theorem extractFeatures_one_hot (this : Service) (r : SymptomRecord) :
  (extractFeatures this r = None <-> featureEncoder this = None)
  /\ (forall enc features,
        featureEncoder this = Some enc ->
        extractFeatures this r = Some features ->
        length features = (length (enc_symptoms enc) + 11)%nat
        /\ (NoDup (enc_symptoms enc) ->
            forall i, (i < length (enc_symptoms enc))%nat ->
              nth i features 0
              = if arr_includes (symptomNames_of r) (nth i (enc_symptoms enc) "")
                then 1 else 0)).
Proof.
  destruct (extractFeatures_cells this r) as [Hnone Hcells].
  split; [exact Hnone|].
  intros enc features Henc Hf. exact (Hcells enc features Henc Hf).
Qed.

Lemma distinctb_NoDup (l : list string) : distinctb l = true -> NoDup l.
Proof.
  induction l as [|x l IH]; simpl; intro H; constructor;
    apply andb_true_iff in H; destruct H as [Hx Hl].
  - intro Hin. apply arr_includes_In in Hin. rewrite Hin in Hx. discriminate.
  - apply IH, Hl.
Qed.

Lemma extractFeatures_one_hot_witness :
  exists features,
    extractFeatures (mkService (Some default_encoder)) repeated_fever_record
    = Some features
    /\ length features = 22%nat
    /\ nth 0 features 0 = 1 /\ nth 1 features 0 = 0.
Proof.
  eexists. split; [reflexivity|].
  destruct (proj2 (extractFeatures_one_hot (mkService (Some default_encoder))
                     repeated_fever_record)
              default_encoder _ eq_refl eq_refl) as [Hlen Hcell].
  split; [exact Hlen|].
  assert (Hnd : NoDup (enc_symptoms default_encoder)).
  { apply distinctb_NoDup. reflexivity. }
  split; [apply (Hcell Hnd 0%nat) | apply (Hcell Hnd 1%nat)]; simpl; lia.
Defined.

(** ** The average severity *)

Lemma severity_sum_bounds (ss : list Symptom) (acc : Q) :
  forallb valid_symptom ss = true ->
  acc + inject_Z (Z.of_nat (length ss))
  <= fold_left (fun sum s => sum + severity s) ss acc
  <= acc + 10 * inject_Z (Z.of_nat (length ss)).
Proof.
  revert acc. induction ss as [|s ss IH]; intros acc H.
  - cbn [fold_left length]. change (inject_Z (Z.of_nat 0)) with 0. split; lra.
  - cbn [forallb] in H. apply andb_true_iff in H. destruct H as [Hs Hss].
    unfold valid_symptom in Hs. rewrite !andb_true_iff in Hs.
    destruct Hs as [[[[_ Hlo] Hhi] _] _].
    apply Qle_bool_iff in Hlo, Hhi.
    specialize (IH (acc + severity s) Hss).
    cbn [fold_left length]. rewrite Nat2Z.inj_succ. unfold Z.succ.
    rewrite inject_Z_plus. change (inject_Z 1) with 1. lra.
Qed.

(** The virtual [averageSeverity] is 0 for a record without symptom and
    lies between 1 and 10 for a valid record; the feature that follows the
    one-hot cells is a tenth of it. *)
Theorem averageSeverity_bounds (this : Service) (r : SymptomRecord) :
  (symptoms r = [] -> averageSeverity r = 0)
  /\ (valid r = true ->
      1 <= averageSeverity r <= 10
      /\ forall enc features,
           featureEncoder this = Some enc ->
           extractFeatures this r = Some features ->
           nth (length (enc_symptoms enc)) features 0 = averageSeverity r / 10).
Proof.
  split.
  - intro E. unfold averageSeverity. rewrite E. reflexivity.
  - intro Hv. unfold valid in Hv. rewrite !andb_true_iff in Hv.
    destruct Hv as [[Hlen Hss] _]. apply Nat.leb_le in Hlen.
    unfold averageSeverity.
    destruct (Nat.eqb_spec (length (symptoms r)) 0) as [E|_]; [lia|].
    pose proof (severity_sum_bounds (symptoms r) 0 Hss) as [Hlo Hhi].
    assert (Hc : 0 < inject_Z (Z.of_nat (length (symptoms r)))).
    { change 0 with (inject_Z 0). rewrite <- Zlt_Qlt. lia. }
    split; [split|].
    + apply Qle_shift_div_l; [exact Hc | lra].
    + apply Qle_shift_div_r; [exact Hc | lra].
    + intros enc features Henc Hf.
      pose proof (extractFeatures_split this r) as H. rewrite Hf, Henc in H.
      destruct H as [scalars [-> [_ H0]]].
      rewrite app_nth2 by (rewrite symptomVector_length; lia).
      rewrite symptomVector_length, Nat.sub_diag. exact H0.
Qed.

Lemma averageSeverity_bounds_witness :
  1 <= averageSeverity feverish_record <= 10
  /\ averageSeverity feverish_record == 16 # 3.
Proof.
  split; [|reflexivity].
  apply (proj2 (averageSeverity_bounds (mkService None) feverish_record)).
  reflexivity.
Defined.

(** ** [prepareTrainingData] *)

Lemma labelVector_cells (enc : FeatureEncoder) (r : TrainingRecord) :
  length (labelVector enc r) = length (enc_syndromes enc)
  /\ (NoDup (enc_syndromes enc) ->
      forall j, (j < length (enc_syndromes enc))%nat ->
        nth j (labelVector enc r) 0
        = if is_actual r (nth j (enc_syndromes enc) "") then 1 else 0).
Proof.
  unfold labelVector, is_actual. split.
  - destruct (actualSyndrome r) as [s|]; [|apply repeat_length].
    destruct (indexOf _ s); rewrite ?set_nth_length; apply repeat_length.
  - intros Hnd j Hj. destruct (actualSyndrome r) as [s|].
    + pose proof (one_hot_cell [ s ]
                    (repeat 0 (length (enc_syndromes enc))) Hnd
                    (repeat_length _ _) Hj) as H.
      cbn [fold_left arr_includes existsb] in H. rewrite orb_false_r in H.
      rewrite nth_repeat in H. exact H.
    + apply nth_repeat.
Qed.

(** [prepareTrainingData] throws exactly when there is a record and no
    encoder.  Otherwise it returns one feature vector and one label per
    record, in order; a label has one cell per syndrome of the encoder, and,
    the syndromes being without repetition, the cell of the record's
    [actualSyndrome] holds 1 and every other cell 0: a record whose
    syndrome is missing or unknown to the encoder gets the zero vector. *)
Theorem prepareTrainingData_shapes (this : Service) (records : list TrainingRecord) :
  (prepareTrainingData this records = None
   <-> featureEncoder this = None /\ records <> [])
  /\ (forall enc features labels,
        featureEncoder this = Some enc ->
        prepareTrainingData this records = Some (features, labels) ->
        Forall2 (fun r fv => extractFeatures this (record r) = Some fv)
                records features
        /\ Forall2
             (fun r label =>
                length label = length (enc_syndromes enc)
                /\ (NoDup (enc_syndromes enc) ->
                    forall j, (j < length (enc_syndromes enc))%nat ->
                      nth j label 0
                      = if is_actual r (nth j (enc_syndromes enc) "")
                        then 1 else 0))
             records labels).
Proof.
  split.
  - induction records as [|r records IH]; simpl.
    + split; [discriminate | intros [_ H]; contradiction H; reflexivity].
    + pose proof (extractFeatures_split this (record r)) as H.
      destruct (extractFeatures this (record r)) as [fv|],
               (featureEncoder this) as [enc|]; try contradiction.
      * destruct (prepareTrainingData this records) as [[fs ls]|].
        -- split; [discriminate | intros [E _]; discriminate].
        -- split; [intros _ | reflexivity].
           destruct (proj1 IH eq_refl) as [E _]. discriminate.
      * split; [split; [reflexivity | discriminate] | reflexivity].
  - intros enc. induction records as [|r records IH];
      intros features labels Henc H; simpl in H.
    + injection H as <- <-. split; constructor.
    + rewrite Henc in H.
      destruct (extractFeatures this (record r)) as [fv|] eqn:Ef;
        [|discriminate].
      destruct (prepareTrainingData this records) as [[fs ls]|];
        [|discriminate].
      injection H as <- <-. destruct (IH fs ls Henc eq_refl) as [Hf Hl].
      split; constructor; try assumption. apply labelVector_cells.
Qed.

Lemma prepareTrainingData_shapes_witness :
  exists features labels,
    prepareTrainingData (mkService (Some default_encoder)) flu_training
    = Some (features, labels)
    /\ Forall2 (fun r fv => extractFeatures (mkService (Some default_encoder))
                              (record r) = Some fv)
               flu_training features
    /\ labels = [ [ 0; 0; 1; 0; 0; 0; 0 ]; repeat 0 7; repeat 0 7 ].
Proof.
  eexists. eexists. split; [reflexivity|]. split; [|reflexivity].
  apply (proj2 (prepareTrainingData_shapes (mkService (Some default_encoder))
                  flu_training) default_encoder _ _ eq_refl eq_refl).
Defined.

(** ** [initialize] *)

(** When the look-up of the active model resolves, [initialize] leaves the
    service with an encoder, the default one of 11 symptoms when an
    aggregation fails, and an analysis falls back only on a symptom named
    constructor or __proto__.  When the look-up is rejected the service is
    left without encoder if it had none, and every analysis is then the
    fallback of the [catch]. *)
Theorem initialize_then_analyze (this : Service)
  (symptoms syndromes : Outcome (list string)) (r : SymptomRecord)
  (modelRecord : option ModelRecord) (random : Q) (now : Z) :
  (forall activeModel,
     let this' := initialize this (Resolved activeModel) symptoms syndromes in
     featureEncoder this' <> None
     /\ (~ In "constructor" (symptomNames_of r) ->
         ~ In "__proto__" (symptomNames_of r) ->
         error (analyzeSymptoms this' r modelRecord random now) = None)
     /\ (symptoms = Rejected \/ syndromes = Rejected ->
         featureEncoder this' = Some default_encoder
         /\ forall features,
              extractFeatures this' r = Some features ->
              length features = 22%nat))
  /\ (featureEncoder this = None ->
      analyzeSymptoms (initialize this Rejected symptoms syndromes) r
        modelRecord random now
      = fallback now).
Proof.
  split.
  - intros activeModel this'. subst this'.
    assert (Henc : featureEncoder
                     (initialize this (Resolved activeModel) symptoms syndromes)
                   <> None).
    { unfold initialize, initializeEncoders.
      destruct symptoms, syndromes; discriminate. }
    split; [exact Henc|]. split.
    + intros Hc Hp.
      destruct (fallback_cases
                  (initialize this (Resolved activeModel) symptoms syndromes)
                  r modelRecord random now) as [H _].
      destruct (error _) as [e|]; [|reflexivity].
      exfalso. destruct (proj1 H) as [E|[E|E]]; [discriminate | | |];
        contradiction.
    + intro Hrej.
      assert (Hd : featureEncoder
                     (initialize this (Resolved activeModel) symptoms syndromes)
                   = Some default_encoder).
      { unfold initialize, initializeEncoders.
        destruct Hrej as [-> | ->]; [|destruct symptoms]; reflexivity. }
      split; [exact Hd|]. intros features Hf.
      destruct (proj2 (extractFeatures_cells _ r) _ _ Hd Hf) as [Hlen _].
      exact Hlen.
  - intro Hnone.
    destruct (fallback_cases
                (initialize this Rejected symptoms syndromes)
                r modelRecord random now) as [H [Hf _]].
    apply Hf, H. left. exact Hnone.
Qed.

Lemma initialize_then_analyze_witness :
  analyzeSymptoms (initialize constructor Rejected (Resolved [ "fever" ])
                     (Resolved [ "flu" ]))
    cough_record None 0.25 1700000000000
  = fallback 1700000000000.
Proof.
  apply (proj2 (initialize_then_analyze constructor (Resolved [ "fever" ])
                  (Resolved [ "flu" ]) cough_record None 0.25 1700000000000)).
  reflexivity.
Defined.

(** ** The analysis a submission stores *)

Lemma seek_immediate_iff (x : Q) (syndrome : string) (r : SymptomRecord) :
  In "Seek immediate medical attention" (generateRecommendations x syndrome r)
  <-> ge x 0.8 = true.
Proof.
  unfold generateRecommendations. rewrite in_app_iff. split.
  - intros [H|H].
    + unfold risk_block in H. destruct (ge x 0.8); [reflexivity|].
      exfalso. revert H. case_ifs; simpl; intuition discriminate.
    + exfalso. pose proof (after_risk_block syndrome r) as Hn.
      unfold no_tier_line in Hn. rewrite forallb_forall in Hn.
      specialize (Hn _ H). discriminate Hn.
  - intro H. left. unfold risk_block. rewrite H. left. reflexivity.
Qed.

(** For a draw in [0, 1) the analysis stored by POST /symptoms has its risk
    score and its confidence between 0 and 1, the bounds of the schema.
    Without an active model the record is flagged and its score stays below
    0.8.  In every case the virtual [riskLevel] reads high when the
    recommendations tell to seek immediate medical attention, and they do
    when the stored score is above 0.8.  (At a stored score of exactly 0.8
    the level reads high and the recommendations follow the sum before
    the rounding.) *)
Theorem submitted_analysis_within_schema (mlService : Service)
  (r : SymptomRecord) (activeModel : option ModelRecord) (random : Q) (now : Z) :
  0 <= random < 1 ->
  let mlAnalysis := submitted_analysis mlService r activeModel random now in
  0 <= ml_riskScore mlAnalysis <= 1
  /\ 0 <= ml_confidence mlAnalysis <= 1
  /\ (activeModel = None ->
      ml_flaggedForReview mlAnalysis = true /\ ml_riskScore mlAnalysis < 0.8)
  /\ (In "Seek immediate medical attention" (ml_recommendations mlAnalysis) ->
      riskLevel mlAnalysis = "high")
  /\ (0.8 < ml_riskScore mlAnalysis ->
      In "Seek immediate medical attention" (ml_recommendations mlAnalysis)).
Proof.
  intros Hr mlAnalysis. subst mlAnalysis. unfold submitted_analysis.
  destruct activeModel as [m|].
  - unfold stored, analyzeSymptoms, riskLevel.
    destruct (raw_risk mlService r) as [x|] eqn:E;
      cbn [ml_riskScore ml_confidence ml_flaggedForReview ml_recommendations
           riskScore confidence flaggedForReview recommendations fallback].
    + split; [apply round3_unit, (raw_risk_unit _ _ E)|].
      split; [apply round3_unit; lra|]. split; [discriminate|].
      rewrite seek_immediate_iff.
      pose proof (round3_twentieths (raw_risk_twentieths _ _ E)) as Hx.
      unfold ge. rewrite (Qleb_comp _ _ (Qeq_refl 0.8) _ _ Hx). split.
      * intros ->. reflexivity.
      * intro H. rewrite Hx in H. apply Qle_bool_iff. lra.
    + split; [split; discriminate|]. split; [split; discriminate|].
      split; [discriminate|]. split.
      * simpl. intuition discriminate.
      * intro H. exfalso. revert H. apply Qle_not_lt. discriminate.
  - cbn [ml_riskScore ml_confidence ml_flaggedForReview ml_recommendations].
    split; [lra|]. split; [split; discriminate|].
    split; [intros _; split; [reflexivity | lra]|]. split.
    + simpl. intuition discriminate.
    + intro H. exfalso. lra.
Qed.

Lemma submitted_analysis_within_schema_witness :
  let mlAnalysis := submitted_analysis (mkService (Some default_encoder))
                      feverish_record
                      (Some (mkModelRecord "baseline" "1.2.0")) 0.9
                      1700000000000 in
  0 <= ml_riskScore mlAnalysis <= 1
  /\ riskLevel mlAnalysis = "high"
  /\ In "Seek immediate medical attention" (ml_recommendations mlAnalysis).
Proof.
  destruct (@submitted_analysis_within_schema
              (mkService (Some default_encoder)) feverish_record
              (Some (mkModelRecord "baseline" "1.2.0")) 0.9 1700000000000%Z)
    as [Hs [_ [_ [Hhigh Hseek]]]].
  - split; [discriminate | reflexivity].
  - assert (Hin := Hseek eq_refl).
    split; [exact Hs|]. split; [exact (Hhigh Hin) | exact Hin].
Defined.

(** ** The virtuals of an outbreak *)

Lemma ceil_div_bounds (a d : Z) :
  (0 < d)%Z ->
  let n := Math_ceil (inject_Z a / inject_Z d) in
  (d * (n - 1) < a <= d * n)%Z.
Proof.
  intros Hd n. subst n. unfold Math_ceil.
  set (x := inject_Z a / inject_Z d).
  assert (Hpos : 0 < inject_Z d).
  { change 0 with (inject_Z 0). rewrite <- Zlt_Qlt. exact Hd. }
  assert (Hx : inject_Z d * x == inject_Z a).
  { unfold x. apply Qmult_div_r. intro E. rewrite E in Hpos.
    apply (Qlt_irrefl _ Hpos). }
  pose proof (Qle_ceiling x) as Hle. pose proof (Qceiling_lt x) as Hlt.
  split.
  - rewrite Zlt_Qlt, inject_Z_mult, <- Hx.
    apply (Qmult_lt_l _ _ _ Hpos). exact Hlt.
  - rewrite Zle_Qle, inject_Z_mult, <- Hx.
    apply (Qmult_le_l _ _ _ Hpos). exact Hle.
Qed.

(** [durationInDays] counts the days begun between the start and the end
    (the clock when there is no end), whichever of the two comes first: it
    is never negative, it is 0 only when the two coincide, and n days stand
    for more than n - 1 and at most n times 24 hours. *)
Theorem durationInDays_bounds (this : Outbreak.t) (endDate : option Z) (now : Z) :
  let finish := match endDate with Some e => e | None => now end in
  let diffTime := Z.abs (finish - Outbreak.startDate this) in
  let n := durationInDays this endDate now in
  (day_ms * (n - 1) < diffTime <= day_ms * n)%Z
  /\ (0 <= n)%Z
  /\ (n = 0%Z <-> finish = Outbreak.startDate this).
Proof.
  intros finish diffTime n.
  assert (H : (day_ms * (n - 1) < diffTime <= day_ms * n)%Z).
  { subst n diffTime finish. unfold durationInDays.
    destruct endDate as [e|]; apply (ceil_div_bounds _ (d := day_ms));
      reflexivity. }
  split; [exact H|].
  unfold day_ms in H. subst diffTime. split; [lia|]. split; intro E; lia.
Qed.

Lemma filter_length_le {A : Type} (f : A -> bool) (l : list A) :
  (length (filter f l) <= length l)%nat.
Proof.
  induction l as [|a l IH]; simpl; [lia|]. destruct (f a); simpl; lia.
Qed.

Lemma rate_bounds (part whole : nat) :
  (part <= whole)%nat -> (0 < whole)%nat ->
  0 <= Q_of_nat part / Q_of_nat whole * 100 <= 100.
Proof.
  intros Hle Hpos. unfold Q_of_nat.
  assert (Hw : 0 < inject_Z (Z.of_nat whole)).
  { change 0 with (inject_Z 0). rewrite <- Zlt_Qlt. lia. }
  assert (Hp : 0 <= inject_Z (Z.of_nat part)).
  { change 0 with (inject_Z 0). rewrite <- Zle_Qle. lia. }
  assert (Hpw : inject_Z (Z.of_nat part) <= inject_Z (Z.of_nat whole)).
  { rewrite <- Zle_Qle. lia. }
  assert (H0 : 0 <= inject_Z (Z.of_nat part) / inject_Z (Z.of_nat whole)).
  { apply Qle_shift_div_l; [exact Hw | lra]. }
  assert (H1 : inject_Z (Z.of_nat part) / inject_Z (Z.of_nat whole) <= 1).
  { apply Qle_shift_div_r; [exact Hw | lra]. }
  split; lra.
Qed.

(** The rates are 0 for an outbreak without cases (no division by zero).
    An outbreak that a detection run creates has an emergency rate between
    0 and 100 and a resolution rate of 0. *)
Theorem rates_of_new_outbreaks (zone : TimeZone) (db : Store) (threshold timeWindow now : Z)
  (o : Outbreak.t) :
  (1 <= threshold)%Z ->
  In o (snd (detectNewOutbreaks zone db threshold timeWindow now)) ->
  0 <= emergencyRate o <= 100
  /\ resolutionRate o == 0
  /\ (forall o', Outbreak.totalCases o' = 0%nat ->
        emergencyRate o' = 0 /\ resolutionRate o' = 0).
Proof.
  intros H1 Hin.
  destruct (detectNewOutbreaks_spec zone db timeWindow now H1) as [_ [_ [Hp Hn]]].
  destruct (Hn o Hin) as [Hc [He _]].
  assert (Hpos : (threshold <= Z.of_nat (Outbreak.totalCases o))%Z).
  { rewrite Hc. apply Hp. apply in_map_iff. exists o. split; [reflexivity|].
    exact Hin. }
  assert (Hle : (Outbreak.emergencyCases o <= Outbreak.totalCases o)%nat).
  { rewrite Hc, He. apply filter_length_le. }
  assert (Hres : Outbreak.resolvedCases o = 0%nat).
  { rewrite detectNewOutbreaks_created in Hin. simpl in Hin.
    apply created_In in Hin. destruct Hin as [g [_ ->]]. reflexivity. }
  split; [|split].
  - unfold emergencyRate.
    destruct (Nat.eqb_spec (Outbreak.totalCases o) 0) as [E|E]; [lia|].
    apply rate_bounds; lia.
  - unfold resolutionRate. rewrite Hres.
    destruct (Outbreak.totalCases o =? 0)%nat; [reflexivity|].
    unfold Q_of_nat. simpl. unfold Qdiv. rewrite Qmult_0_l, Qmult_0_l.
    reflexivity.
  - intros o' E. unfold emergencyRate, resolutionRate. rewrite E. split;
      reflexivity.
Qed.

Lemma rates_of_new_outbreaks_witness :
  exists o,
    In o (snd (detectNewOutbreaks new_york flu_store 3 7 1700000000000))
    /\ 0 <= emergencyRate o <= 100.
Proof.
  eexists. split; [left; reflexivity|].
  apply (@rates_of_new_outbreaks new_york flu_store 3%Z 7%Z 1700000000000%Z);
    [lia | left; reflexivity].
Defined.

(** ** [getOutbreakStats] *)

Lemma stats_fold (collection : list Outbreak.t) (acc : OutbreakStats) :
  fold_left add_outbreak collection acc = plus_stats acc (stats_of collection).
Proof.
  revert acc. induction collection as [|o collection IH]; intro acc.
  - destruct acc. unfold plus_stats, stats_of. simpl. f_equal; lia.
  - cbn [fold_left]. rewrite IH.
    unfold plus_stats, add_outbreak, stats_of, cond, list_sum.
    cbn [totalOutbreaks activeOutbreaks resolvedOutbreaks criticalOutbreaks
         totalCases totalEmergencyCases filter map list_sum fold_right length].
    destruct (Outbreak.isActive o), (is_resolved o),
             (Severity_eqb (Outbreak.severity o) critical);
      cbn [length]; f_equal; lia.
Qed.

Lemma getOutbreakStats_closed (collection : list Outbreak.t) :
  getOutbreakStats collection = stats_of collection.
Proof.
  unfold getOutbreakStats, group_all.
  destruct collection as [|o collection]; [reflexivity|].
  rewrite stats_fold. unfold plus_stats, no_stats, stats_of. reflexivity.
Qed.

Lemma stats_of_app (a b : list Outbreak.t) :
  stats_of (a ++ b) = plus_stats (stats_of a) (stats_of b).
Proof.
  unfold stats_of, plus_stats.
  rewrite !filter_app, !map_app, !length_app, !list_sum_app. reflexivity.
Qed.

Lemma created_fresh (groups : list Group) (threshold timeWindow : Z)
  (collection : list Outbreak.t) :
  Forall (fun o => Outbreak.isActive o = true /\ is_resolved o = false)
         (created groups threshold timeWindow collection).
Proof.
  apply Forall_forall. intros o H. apply created_In in H.
  destruct H as [g [_ ->]]. split; reflexivity.
Qed.

Lemma filter_all {A : Type} (f : A -> bool) (l : list A) :
  Forall (fun x => f x = true) l -> filter f l = l.
Proof.
  induction 1 as [|x l Hx _ IH]; simpl; [reflexivity|].
  rewrite Hx, IH. reflexivity.
Qed.

Lemma filter_none {A : Type} (f : A -> bool) (l : list A) :
  Forall (fun x => f x = false) l -> filter f l = [].
Proof.
  induction 1 as [|x l Hx _ IH]; simpl; [reflexivity|].
  rewrite Hx, IH. reflexivity.
Qed.

(** The statistics count every outbreak once: the active, the resolved and
    the critical ones are at most as many as all, and the defaults of the
    empty collection are the same zeros.  After a detection run there are
    as many more outbreaks, and as many more active ones, as the run
    returned; the resolved ones are as many as before; the cases have grown
    by the cases of the new outbreaks. *)
Theorem getOutbreakStats_after_detection (zone : TimeZone) (db : Store)
  (threshold timeWindow now : Z) :
  let run := detectNewOutbreaks zone db threshold timeWindow now in
  let before := getOutbreakStats (outbreaks db) in
  let after := getOutbreakStats (outbreaks (fst run)) in
  (activeOutbreaks before <= totalOutbreaks before)%nat
  /\ (resolvedOutbreaks before <= totalOutbreaks before)%nat
  /\ (criticalOutbreaks before <= totalOutbreaks before)%nat
  /\ (outbreaks db = [] -> before = no_stats)
  /\ totalOutbreaks after = (totalOutbreaks before + length (snd run))%nat
  /\ activeOutbreaks after = (activeOutbreaks before + length (snd run))%nat
  /\ resolvedOutbreaks after = resolvedOutbreaks before
  /\ totalCases after
     = (totalCases before + list_sum (map Outbreak.totalCases (snd run)))%nat
  /\ totalEmergencyCases after
     = (totalEmergencyCases before
        + list_sum (map Outbreak.emergencyCases (snd run)))%nat.
Proof.
  intros run before after. subst run before after.
  rewrite detectNewOutbreaks_created. cbn [fst snd outbreaks].
  rewrite !getOutbreakStats_closed, stats_of_app.
  set (news := created _ threshold timeWindow (outbreaks db)).
  pose proof (created_fresh
                (aggregate (cases db) (setDate_minus zone now timeWindow) threshold)
                threshold timeWindow (outbreaks db)) as Hf.
  fold news in Hf.
  assert (Ha : filter Outbreak.isActive news = news).
  { apply filter_all. eapply Forall_impl; [|exact Hf]. intros o [H _]. exact H. }
  assert (Hr : filter is_resolved news = []).
  { apply filter_none. eapply Forall_impl; [|exact Hf]. intros o [_ H]. exact H. }
  unfold plus_stats, stats_of.
  cbn [totalOutbreaks activeOutbreaks resolvedOutbreaks criticalOutbreaks
       totalCases totalEmergencyCases].
  rewrite Ha, Hr. cbn [length].
  repeat split; try apply filter_length_le; try lia.
  intros ->. reflexivity.
Qed.

(** ** [getActiveOutbreaks] *)

Lemma insert_desc_Permutation (o : Outbreak.t) (l : list Outbreak.t) :
  Permutation (insert_desc o l) (o :: l).
Proof.
  induction l as [|x l IH]; simpl; [reflexivity|].
  destruct (Outbreak.startDate x <=? Outbreak.startDate o)%Z; [reflexivity|].
  rewrite IH. apply perm_swap.
Qed.

Lemma insert_desc_Sorted (o : Outbreak.t) (l : list Outbreak.t) :
  Sorted later_first l -> Sorted later_first (insert_desc o l).
Proof.
  induction l as [|x l IH]; intro H; simpl.
  - repeat constructor.
  - destruct (Z.leb_spec (Outbreak.startDate x) (Outbreak.startDate o)) as [Hle|Hgt].
    + constructor; [exact H | constructor; exact Hle].
    + inversion H as [|? ? Hs Hhd]. subst. constructor; [apply IH, Hs|].
      destruct l as [|y l]; simpl.
      * constructor. unfold later_first. lia.
      * destruct (Outbreak.startDate y <=? Outbreak.startDate o)%Z;
          constructor; [unfold later_first; lia|].
        inversion Hhd. assumption.
Qed.

Lemma sort_desc_Permutation (l : list Outbreak.t) : Permutation (sort_desc l) l.
Proof.
  induction l as [|x l IH]; simpl; [reflexivity|].
  rewrite insert_desc_Permutation, IH. reflexivity.
Qed.

Lemma sort_desc_Sorted (l : list Outbreak.t) : Sorted later_first (sort_desc l).
Proof.
  induction l as [|x l IH]; simpl; [constructor | apply insert_desc_Sorted, IH].
Qed.

Lemma at_most_one_active_tail (o : Outbreak.t) (collection : list Outbreak.t) :
  at_most_one_active (o :: collection) -> at_most_one_active collection.
Proof.
  intros H d l. specialize (H d l). simpl in H.
  destruct (active_for d l o); simpl in H; lia.
Qed.

Lemma active_pairs_NoDup (collection : list Outbreak.t) :
  at_most_one_active collection ->
  NoDup (map pair_of (filter Outbreak.isActive collection)).
Proof.
  induction collection as [|o collection IH]; intro H; simpl; [constructor|].
  pose proof (IH (at_most_one_active_tail H)) as Hnd.
  destruct (Outbreak.isActive o) eqn:Ho; [|exact Hnd].
  simpl. constructor; [|exact Hnd].
  intro Hin. apply in_map_iff in Hin. destruct Hin as [o' [Hp Hin]].
  apply filter_In in Hin. destruct Hin as [Hin Ho'].
  specialize (H (Outbreak.diseaseName o) (Outbreak.location o)).
  simpl in H. unfold active_for at 1 in H.
  rewrite same_key_refl, Ho in H. simpl in H.
  assert (Hf : In o' (filter (active_for (Outbreak.diseaseName o)
                                         (Outbreak.location o)) collection)).
  { apply filter_In. split; [exact Hin|]. unfold active_for.
    rewrite Ho', andb_true_r. apply same_key_true.
    unfold pair_of in Hp. symmetry. exact Hp. }
  destruct (filter (active_for (Outbreak.diseaseName o) (Outbreak.location o))
              collection); [contradiction | simpl in H; lia].
Qed.

(** [getActiveOutbreaks] returns the active outbreaks, each as often as the
    collection holds it, the latest start first; when the collection has at
    most one active outbreak per pair, no pair comes twice in the list. *)
Theorem getActiveOutbreaks_sorted (collection : list Outbreak.t) :
  Permutation (getActiveOutbreaks collection)
              (filter Outbreak.isActive collection)
  /\ Sorted later_first (getActiveOutbreaks collection)
  /\ (forall o, In o (getActiveOutbreaks collection)
                <-> In o collection /\ Outbreak.isActive o = true)
  /\ (at_most_one_active collection ->
      NoDup (map pair_of (getActiveOutbreaks collection))).
Proof.
  unfold getActiveOutbreaks.
  pose proof (sort_desc_Permutation (filter Outbreak.isActive collection)) as P.
  split; [exact P|]. split; [apply sort_desc_Sorted|]. split.
  - intro o. rewrite <- filter_In. split; apply Permutation_in;
      [exact P | apply Permutation_sym, P].
  - intro H. apply (Permutation_NoDup (l := map pair_of
                                         (filter Outbreak.isActive collection))).
    + apply Permutation_map, Permutation_sym, P.
    + apply active_pairs_NoDup, H.
Qed.

Lemma getActiveOutbreaks_sorted_witness :
  NoDup (map pair_of (getActiveOutbreaks
                        (detection_runs new_york [ digest_run; digest_run ] []))).
Proof.
  apply (proj2 (proj2 (proj2 (getActiveOutbreaks_sorted _)))).
  apply detection_runs_invariant. intros d l. simpl. lia.
Defined.

(** ** [updateStatistics] *)

Lemma case_stats_fold (l : list DiseaseCase.t) (acc : CaseStats) :
  let s := fold_left add_case l acc in
  s_totalCases s = (s_totalCases acc + length l)%nat
  /\ s_emergencyCases s
     = (s_emergencyCases acc + length (filter DiseaseCase.isEmergency l))%nat
  /\ s_criticalCases s = (s_criticalCases acc + length (filter is_critical l))%nat
  /\ s_resolvedCases s = (s_resolvedCases acc + length (filter case_resolved l))%nat
  /\ s_confidenceSum s
     == s_confidenceSum acc + total (map DiseaseCase.confidence l).
Proof.
  revert acc. induction l as [|c l IH]; intro acc; cbn [fold_left].
  - simpl. repeat split; try lia. lra.
  - destruct (IH (add_case acc c)) as [H1 [H2 [H3 [H4 H5]]]].
    cbn zeta in *. rewrite H1, H2, H3, H4, H5.
    unfold add_case, cond, total.
    change (Severity_eqb (DiseaseCase.severity c) critical) with (is_critical c).
    cbn [s_totalCases s_emergencyCases s_criticalCases s_resolvedCases
         s_confidenceSum filter map total fold_right length].
    destruct (DiseaseCase.isEmergency c), (case_resolved c), (is_critical c);
      cbn [length]; repeat split; try lia; lra.
Qed.

Lemma updateStatistics_keeps (this : Outbreak.t) (cases : list DiseaseCase.t) :
  let refreshed := updateStatistics this cases in
  Outbreak.diseaseName refreshed = Outbreak.diseaseName this
  /\ Outbreak.location refreshed = Outbreak.location this
  /\ Outbreak.affectedPatients refreshed = Outbreak.affectedPatients this
  /\ Outbreak.isActive refreshed = Outbreak.isActive this.
Proof.
  unfold updateStatistics. destruct (case_stats _); repeat split.
Qed.

Lemma updateStatistics_counts (this : Outbreak.t) (cases : list DiseaseCase.t) :
  let refreshed := updateStatistics this cases in
  let matched := matched_cases this cases in
  (matched = [] -> refreshed = this)
  /\ (matched <> [] ->
      Outbreak.totalCases refreshed = length matched
      /\ Outbreak.emergencyCases refreshed
         = length (filter DiseaseCase.isEmergency matched)
      /\ Outbreak.criticalCases refreshed = length (filter is_critical matched)
      /\ Outbreak.resolvedCases refreshed = length (filter case_resolved matched)
      /\ Outbreak.averageConfidence refreshed
         == total (map DiseaseCase.confidence matched)
            / Q_of_nat (length matched)).
Proof.
  intros refreshed matched. subst refreshed matched.
  unfold updateStatistics, matched_cases, case_stats.
  destruct (filter (is_affected this) cases) as [|c l] eqn:E.
  - split; [reflexivity | intro H; contradiction H; reflexivity].
  - split; [discriminate | intros _].
    destruct (case_stats_fold (c :: l) (mkCaseStats 0 0 0 0 0))
      as [H1 [H2 [H3 [H4 H5]]]].
    cbn [s_totalCases s_emergencyCases s_criticalCases s_resolvedCases
         s_confidenceSum] in *.
    cbn [Outbreak.totalCases Outbreak.emergencyCases Outbreak.criticalCases
         Outbreak.resolvedCases Outbreak.averageConfidence].
    rewrite H1, H2, H3, H4, H5. repeat split. rewrite Qplus_0_l. reflexivity.
Qed.



(** *** A refresh right after the detection *)

Lemma group_for_members (cs : list DiseaseCase.t) (groups : list Group)
  (d l : string) :
  group_for (fold_left group_insert cs groups) d l
  = match group_for groups d l with
    | Some g => Some (fold_left accumulate (filter (of_pair d l) cs) g)
    | None =>
        match filter (of_pair d l) cs with
        | [] => None
        | c :: rest => Some (fold_left accumulate rest (group_of_case c))
        end
    end.
Proof.
  revert groups. induction cs as [|c cs IH]; intro groups; cbn [fold_left filter].
  - destruct (group_for groups d l); reflexivity.
  - rewrite IH, group_for_insert.
    destruct (of_pair d l c); [|reflexivity].
    destruct (group_for groups d l); reflexivity.
Qed.

Lemma accumulate_fold (l : list DiseaseCase.t) (g : Group) :
  let g' := fold_left accumulate l g in
  caseIds g' = caseIds g ++ map DiseaseCase._id l
  /\ caseCount g' = (caseCount g + length l)%nat
  /\ criticalCases g' = (criticalCases g + length (filter is_critical l))%nat
  /\ confidenceSum g'
     == confidenceSum g + total (map DiseaseCase.confidence l).
Proof.
  revert g. induction l as [|c l IH]; intro g; cbn [fold_left].
  - simpl. rewrite app_nil_r. repeat split; try lia. lra.
  - destruct (IH (accumulate g c)) as [H1 [H2 [H3 H4]]].
    cbn zeta in *. rewrite H1, H2, H3, H4.
    unfold accumulate, cond, total.
    change (Severity_eqb (DiseaseCase.severity c) critical) with (is_critical c).
    cbn [caseIds caseCount criticalCases confidenceSum filter map fold_right
         length].
    rewrite <- app_assoc.
    destruct (is_critical c); cbn [length]; repeat split; try lia; lra.
Qed.

(** A group of the pipeline, in terms of the cases of its pair. *)
Lemma aggregate_members (zone : TimeZone) (cs : list DiseaseCase.t) (now timeWindow threshold : Z)
  (g : Group) :
  In g (aggregate cs (setDate_minus zone now timeWindow) threshold) ->
  let members :=
    group_cases zone cs now timeWindow (g_diseaseName g) (g_location g) in
  members <> []
  /\ caseIds g = map DiseaseCase._id members
  /\ caseCount g = length members
  /\ criticalCases g = length (filter is_critical members)
  /\ confidenceSum g == total (map DiseaseCase.confidence members).
Proof.
  intros H members. unfold aggregate in H. apply filter_In in H.
  destruct H as [Hin _].
  pose proof (NoDup_group_for _ _ (group_stage_NoDup _) Hin) as E.
  unfold group_stage in E. rewrite group_for_members in E.
  cbn [group_for find] in E. rewrite filter_match_stage in E.
  fold members in E. destruct members as [|c rest]; [discriminate|].
  injection E as E.
  destruct (accumulate_fold rest (group_of_case c)) as [H1 [H2 [H3 H4]]].
  cbn zeta in *. rewrite E in H1, H2, H3, H4.
  split; [discriminate|]. rewrite H1, H2, H3, H4.
  unfold group_of_case, cond, total.
  change (Severity_eqb (DiseaseCase.severity c) critical) with (is_critical c).
  cbn [caseIds caseCount criticalCases confidenceSum filter map fold_right
       length app].
  destruct (is_critical c); cbn [length]; repeat split; try lia; reflexivity.
Qed.

Lemma unique_id (cs : list DiseaseCase.t) (c c' : DiseaseCase.t) :
  NoDup (map DiseaseCase._id cs) -> In c cs -> In c' cs ->
  DiseaseCase._id c = DiseaseCase._id c' -> c = c'.
Proof.
  induction cs as [|x cs IH]; intros Hnd Hc Hc' E; [contradiction|].
  simpl in Hnd. inversion Hnd as [|? ? Hnot Hnd']. subst.
  destruct Hc as [->|Hc], Hc' as [->|Hc'].
  - reflexivity.
  - exfalso. apply Hnot. rewrite E. apply in_map, Hc'.
  - exfalso. apply Hnot. rewrite <- E. apply in_map, Hc.
  - apply IH; assumption.
Qed.

Lemma existsb_id (ids : list nat) (i : nat) :
  existsb (Nat.eqb i) ids = true <-> In i ids.
Proof.
  rewrite existsb_exists. split.
  - intros [j [Hj E]]. apply Nat.eqb_eq in E. subst j. exact Hj.
  - intro H. exists i. split; [exact H | apply Nat.eqb_refl].
Qed.

(** With one [_id] per case, the cases a new outbreak matches are the
    cases of its group. *)
Lemma matched_cases_new_outbreak (zone : TimeZone) (cs : list DiseaseCase.t)
  (now timeWindow threshold : Z) (g : Group) :
  NoDup (map DiseaseCase._id cs) ->
  In g (aggregate cs (setDate_minus zone now timeWindow) threshold) ->
  matched_cases (new_outbreak g threshold timeWindow) cs
  = group_cases zone cs now timeWindow (g_diseaseName g) (g_location g).
Proof.
  intros Hnd Hin.
  destruct (@aggregate_members zone cs now timeWindow threshold g Hin)
    as [_ [Hids _]].
  unfold matched_cases, group_cases. apply filter_ext_in. intros c Hc.
  unfold is_affected. cbn [Outbreak.affectedPatients Outbreak.diseaseName
                           Outbreak.location new_outbreak].
  rewrite Hids.
  destruct (considered zone now timeWindow c
            && of_pair (g_diseaseName g) (g_location g) c) eqn:E.
  - assert (Hm : In c (group_cases zone cs now timeWindow
                         (g_diseaseName g) (g_location g))).
    { apply filter_In. split; assumption. }
    apply andb_true_iff in E. destruct E as [_ E].
    unfold of_pair, same_key in E. apply andb_true_iff in E.
    destruct E as [Ed El].
    rewrite (String.eqb_sym (DiseaseCase.diseaseName c)), Ed.
    rewrite (String.eqb_sym (DiseaseCase.location c)), El.
    rewrite !andb_true_r. apply existsb_id, in_map, Hm.
  - destruct (existsb _ _) eqn:Ex; [|reflexivity].
    exfalso. apply existsb_id in Ex. apply in_map_iff in Ex.
    destruct Ex as [c' [Eid Hc']].
    apply filter_In in Hc' as Hc''. destruct Hc'' as [Hin' Hp].
    rewrite (unique_id cs c' c Hnd Hin' Hc Eid) in Hp. congruence.
Qed.

(** With one [_id] per case, refreshing an outbreak that a detection run
    has just created, against the same cases, changes none of its counts:
    the total, the emergency and the critical cases are those of the run,
    no case is resolved, and the average confidence is the same number. *)
Theorem updateStatistics_after_detection (zone : TimeZone) (db : Store)
  (threshold timeWindow now : Z) (o : Outbreak.t) :
  NoDup (map DiseaseCase._id (cases db)) ->
  In o (snd (detectNewOutbreaks zone db threshold timeWindow now)) ->
  let refreshed := updateStatistics o (cases db) in
  Outbreak.totalCases refreshed = Outbreak.totalCases o
  /\ Outbreak.emergencyCases refreshed = Outbreak.emergencyCases o
  /\ Outbreak.criticalCases refreshed = Outbreak.criticalCases o
  /\ Outbreak.resolvedCases refreshed = 0%nat
  /\ Outbreak.resolvedCases o = 0%nat
  /\ Outbreak.averageConfidence refreshed == Outbreak.averageConfidence o.
Proof.
  intros Hnd Hin refreshed. subst refreshed.
  rewrite detectNewOutbreaks_created in Hin. cbn [snd] in Hin.
  apply created_In in Hin. destruct Hin as [g [Hg ->]].
  destruct (@aggregate_members zone (cases db) now timeWindow threshold g Hg)
    as [Hne [_ [Hn [Hc Hs]]]].
  destruct (@aggregate_In zone (cases db) now timeWindow threshold g Hg)
    as [_ [He _]].
  pose proof (@matched_cases_new_outbreak zone (cases db) now timeWindow threshold g
                Hnd Hg) as Hm.
  destruct (updateStatistics_counts (new_outbreak g threshold timeWindow)
              (cases db)) as [_ Hsome].
  rewrite Hm in Hsome. destruct (Hsome Hne) as [H1 [H2 [H3 [H4 H5]]]].
  rewrite H1, H2, H3, H4, H5.
  cbn [Outbreak.totalCases Outbreak.emergencyCases Outbreak.criticalCases
       Outbreak.resolvedCases Outbreak.averageConfidence new_outbreak].
  split; [symmetry; exact Hn|]. split; [symmetry; exact He|].
  split; [symmetry; exact Hc|]. split; [|split; [reflexivity|]].
  - rewrite filter_none; [reflexivity|]. apply Forall_forall. intros c Hc'.
    apply filter_In in Hc'. destruct Hc' as [_ Hc'].
    apply andb_true_iff in Hc'. destruct Hc' as [Hc' _].
    unfold considered in Hc'. unfold case_resolved.
    destruct (DiseaseCase.status c); try reflexivity; discriminate Hc'.
  - unfold averageConfidence, Q_of_nat. rewrite Hs, Hn. reflexivity.
Qed.

Lemma updateStatistics_after_detection_witness :
  exists o,
    snd (detectNewOutbreaks new_york flu_store 3 7 1700000000000) = [ o ]
    /\ Outbreak.totalCases (updateStatistics o (cases flu_store)) = 5%nat
    /\ Outbreak.totalCases (updateStatistics o (cases flu_store))
       = Outbreak.totalCases o.
Proof.
  eexists. split; [reflexivity|]. split; [reflexivity|].
  apply (@updateStatistics_after_detection new_york flu_store 3%Z 7%Z
           1700000000000%Z).
  - repeat constructor; simpl; intuition discriminate.
  - left. reflexivity.
Defined.

(** ** The routes of the administrator and the uniqueness of the active
    outbreak *)

Lemma active_for_profile (d l : string) (o o' : Outbreak.t) :
  profile o = profile o' -> active_for d l o = active_for d l o'.
Proof.
  unfold profile, pair_of, active_for. intro E. injection E as -> -> ->.
  reflexivity.
Qed.

Lemma active_count_profile (c c' : list Outbreak.t) (d l : string) :
  map profile c = map profile c' ->
  length (filter (active_for d l) c) = length (filter (active_for d l) c').
Proof.
  revert c'. induction c as [|o c IH]; intros [|o' c'] E; try discriminate E;
    [reflexivity|].
  cbn [map] in E.
  assert (Eo : profile o = profile o') by congruence.
  assert (Ec : map profile c = map profile c') by congruence.
  simpl. rewrite (@active_for_profile d l _ _ Eo).
  destruct (active_for d l o'); simpl; rewrite (IH c' Ec); reflexivity.
Qed.

Lemma with_ids_collection (ids : nat -> nat) (os : list Outbreak.t) :
  map snd (with_ids ids os) = os.
Proof.
  unfold with_ids. generalize 0%nat.
  induction os as [|o os IH]; intro start; simpl; [reflexivity|].
  rewrite IH. reflexivity.
Qed.

Lemma findByIdAndUpdate_split (docs : list (nat * Outbreak.t)) (id : nat)
  (f : Outbreak.t -> Outbreak.t) :
  match findById docs id with
  | Some o =>
      exists l1 l2,
        docs = l1 ++ (id, o) :: l2
        /\ findByIdAndUpdate docs id f = Some (l1 ++ (id, f o) :: l2, f o)
  | None => findByIdAndUpdate docs id f = None
  end.
Proof.
  induction docs as [|[i o] docs IH]; simpl; [reflexivity|].
  destruct (Nat.eqb_spec i id) as [->|_].
  - exists [], docs. split; reflexivity.
  - destruct (findById docs id) as [o'|].
    + destruct IH as [l1 [l2 [-> ->]]]. exists ((i, o) :: l1), l2.
      split; reflexivity.
    + rewrite IH. reflexivity.
Qed.

Lemma update_keeps_profile (docs docs' : list (nat * Outbreak.t)) (id : nat)
  (f : Outbreak.t -> Outbreak.t) (o' : Outbreak.t) :
  (forall o, profile (f o) = profile o) ->
  findByIdAndUpdate docs id f = Some (docs', o') ->
  map profile (map snd docs') = map profile (map snd docs).
Proof.
  intros Hf H. pose proof (findByIdAndUpdate_split docs id f) as S.
  destruct (findById docs id) as [o|]; [|congruence].
  destruct S as [l1 [l2 [-> E]]]. rewrite E in H. injection H as <- _.
  rewrite !map_app. simpl. rewrite Hf. reflexivity.
Qed.

Lemma apply_update_profile (body : UpdateBody) (o : Outbreak.t) :
  profile (apply_update body o)
  = (pair_of o, match u_isActive body with
                | Some b => b
                | None => Outbreak.isActive o
                end).
Proof. reflexivity. Qed.

Lemma updateStatistics_profile (cases : list DiseaseCase.t) (o : Outbreak.t) :
  profile (updateStatistics o cases) = profile o.
Proof.
  destruct (updateStatistics_keeps o cases) as [Hd [Hl [_ Hi]]].
  unfold profile, pair_of. rewrite Hd, Hl, Hi. reflexivity.
Qed.

Lemma at_most_one_active_snoc (c : list Outbreak.t) (o : Outbreak.t) :
  at_most_one_active c ->
  findOne_active c (Outbreak.diseaseName o) (Outbreak.location o) = None ->
  at_most_one_active (c ++ [ o ]).
Proof.
  intros H E d l. rewrite active_count_app. simpl.
  destruct (active_for d l o) eqn:K; [|specialize (H d l); simpl; lia].
  unfold active_for in K. apply andb_true_iff in K. destruct K as [K _].
  apply same_key_true in K. injection K as -> ->.
  rewrite (no_active_count _ _ _ E). simpl. lia.
Qed.

Lemma deactivation_count (c c' : list Outbreak.t) (d l : string) :
  Forall2 no_more_active c c' ->
  (length (filter (active_for d l) c')
   <= length (filter (active_for d l) c))%nat.
Proof.
  induction 1 as [|o o' c c' [Hp Hi] _ IH]; simpl; [lia|].
  assert (Himp : active_for d l o' = true -> active_for d l o = true).
  { unfold active_for. unfold pair_of in Hp. injection Hp as -> ->.
    rewrite !andb_true_iff. intros [K A]. split; [exact K | apply Hi, A]. }
  destruct (active_for d l o');
    [rewrite Himp by reflexivity | destruct (active_for d l o)]; simpl; lia.
Qed.

Lemma deactivation_keeps (c c' : list Outbreak.t) :
  Forall2 no_more_active c c' ->
  at_most_one_active c -> at_most_one_active c'.
Proof.
  intros F H d l. specialize (H d l).
  pose proof (deactivation_count d l F). lia.
Qed.

Lemma no_more_active_refl (c : list Outbreak.t) : Forall2 no_more_active c c.
Proof.
  induction c as [|o c IH]; constructor; [|exact IH]. split; auto.
Qed.

Lemma post_manual_collection (db : Db) (body : ManualBody) (_id : nat) (now : Z) :
  let db' := fst (post_manual db body _id now) in
  match snd (post_manual db body _id now) with
  | Declared o _ _ =>
      collection db' = collection db ++ [ o ]
      /\ pair_of o = (b_diseaseName body, hospital)
      /\ Outbreak.isActive o = true
      /\ findOne_active (collection db) (b_diseaseName body) hospital = None
      /\ b_diseaseName body <> ""
  | _ => db' = db
  end.
Proof.
  unfold post_manual.
  destruct (String.eqb_spec (b_diseaseName body) "") as [E|E]; [reflexivity|].
  destruct (findOne_active (collection db) (b_diseaseName body) hospital)
    eqn:F; [reflexivity|].
  destruct (parse_severity _); [|reflexivity].
  cbn [fst snd]. unfold collection. cbn [outbreak_docs].
  rewrite map_app. repeat split; assumption.
Qed.

Lemma serve_keeps_uniqueness (zone : TimeZone) (db : Db) (r : Request) :
  activates r = false ->
  at_most_one_active (collection db) ->
  at_most_one_active (collection (serve zone db r)).
Proof.
  intros Hr H. destruct r as [threshold timeWindow ids now|body i now|id body|id];
    cbn [serve].
  - unfold post_detect. cbn [fst]. unfold collection at 1. cbn [outbreak_docs].
    rewrite map_app, with_ids_collection, detectNewOutbreaks_created.
    cbn [snd store_of outbreaks]. apply created_at_most_one_active, H.
  - pose proof (post_manual_collection db body i now) as M. cbn zeta in M.
    destruct (snd (post_manual db body i now)) as [msg| |o n m].
    + rewrite M. exact H.
    + rewrite M. exact H.
    + destruct M as [-> [Hp [_ [F _]]]]. apply at_most_one_active_snoc; [exact H|].
      unfold pair_of in Hp. injection Hp as -> ->. exact F.
  - unfold put_outbreak.
    pose proof (findByIdAndUpdate_split (outbreak_docs db) id (apply_update body))
      as S.
    destruct (findById (outbreak_docs db) id) as [o|].
    + destruct S as [l1 [l2 [E ->]]]. cbn [fst]. unfold collection in *.
      cbn [outbreak_docs]. rewrite E in H.
      rewrite map_app in *. cbn [map snd] in *.
      refine (deactivation_keeps _ H).
      apply Forall2_app; [apply no_more_active_refl|].
      constructor; [|apply no_more_active_refl].
      split; [reflexivity|]. cbn [apply_update Outbreak.isActive].
      cbn [activates] in Hr.
      destruct (u_isActive body) as [[]|]; [discriminate | discriminate | auto].
    + rewrite S. exact H.
  - unfold post_update_stats.
    destruct (findByIdAndUpdate (outbreak_docs db) id _) as [[docs o]|] eqn:E;
      [|exact H].
    cbn [fst]. unfold collection in *. cbn [outbreak_docs]. intros d l.
    rewrite (@active_count_profile (map snd docs) (map snd (outbreak_docs db)) d l).
    + apply H.
    + apply (update_keeps_profile _ _ _ (updateStatistics_profile _) E).
Qed.

(** Detection runs, manual declarations, refreshes of statistics and
    updates that do not set [isActive] to true, in any order, keep a
    collection with at most one active outbreak per pair that way. *)
Theorem admin_requests_keep_uniqueness (zone : TimeZone) (requests : list Request) (db : Db) :
  forallb (fun r => negb (activates r)) requests = true ->
  at_most_one_active (collection db) ->
  at_most_one_active (collection (fold_left (serve zone) requests db)).
Proof.
  revert db. induction requests as [|r requests IH]; intros db Hr H;
    [exact H|].
  cbn [forallb] in Hr. apply andb_true_iff in Hr. destruct Hr as [Hr Hrs].
  cbn [fold_left]. apply IH; [exact Hrs|].
  apply serve_keeps_uniqueness; [|exact H].
  apply negb_true_iff, Hr.
Qed.

Lemma admin_requests_keep_uniqueness_witness :
  at_most_one_active (collection (fold_left (serve new_york) admin_session empty_db))
  /\ length (collection (fold_left (serve new_york) admin_session empty_db)) = 2%nat.
Proof.
  split; [|reflexivity].
  apply (@admin_requests_keep_uniqueness new_york); [reflexivity|].
  intros d l. simpl. lia.
Defined.

Lemma count_of_member (A : Type) (f : A -> bool) (l : list A) (x : A) :
  In x l -> f x = true -> (1 <= length (filter f l))%nat.
Proof.
  intros Hin Hx. assert (H : In x (filter f l)) by (apply filter_In; auto).
  destruct (filter f l); [contradiction | simpl; lia].
Qed.

(** An update that sets [isActive] to true on an inactive outbreak whose
    pair already has an active one leaves two active outbreaks for the
    pair: the route does not look for the other. *)
Theorem put_reactivation_duplicates (db : Db) (id : nat) (body : UpdateBody)
  (o : Outbreak.t) :
  findById (outbreak_docs db) id = Some o ->
  Outbreak.isActive o = false ->
  has_active (collection db) (Outbreak.diseaseName o) (Outbreak.location o) ->
  u_isActive body = Some true ->
  (2 <= length (filter (active_for (Outbreak.diseaseName o) (Outbreak.location o))
                  (collection (fst (put_outbreak db id body)))))%nat.
Proof.
  intros F Hi [o1 [Hin Ho1]] Hb. unfold put_outbreak.
  pose proof (findByIdAndUpdate_split (outbreak_docs db) id (apply_update body))
    as S.
  rewrite F in S. destruct S as [l1 [l2 [E ->]]]. cbn [fst].
  unfold collection in *. cbn [outbreak_docs]. rewrite E in Hin.
  rewrite map_app in *. cbn [map snd] in *.
  rewrite active_count_app. cbn [filter].
  assert (Hf : active_for (Outbreak.diseaseName o) (Outbreak.location o)
                 (apply_update body o) = true).
  { unfold active_for. cbn [apply_update Outbreak.diseaseName Outbreak.location
                              Outbreak.isActive].
    rewrite Hb, same_key_refl. reflexivity. }
  rewrite Hf. cbn [length].
  apply in_app_or in Hin. destruct Hin as [Hin|[<-|Hin]].
  - pose proof (count_of_member _ _ o1 Hin Ho1). lia.
  - unfold active_for in Ho1. rewrite Hi, andb_false_r in Ho1. discriminate.
  - pose proof (count_of_member _ _ o1 Hin Ho1). lia.
Qed.

Lemma put_reactivation_duplicates_witness :
  (2 <= length (filter (active_for "flu" hospital)
                  (collection
                     (fst (put_outbreak two_flu_db 1
                             (mkUpdateBody None None "" (Some true)))))))%nat.
Proof.
  refine (@put_reactivation_duplicates two_flu_db 1%nat
            (mkUpdateBody None None "" (Some true)) _ eq_refl eq_refl _ eq_refl).
  exists (new_outbreak (mkGroup "flu" hospital 4 0 0 0 0 0 []) 3 7).
  split; [simpl; tauto | reflexivity].
Defined.

Lemma detect_none_for_active (zone : TimeZone) (db : Db) (threshold timeWindow : option Z)
  (ids : nat -> nat) (now : Z) (d l : string) :
  has_active (collection db) d l ->
  records_of (fst (snd (post_detect zone db threshold timeWindow ids now))) d l = [].
Proof.
  intro H. unfold post_detect. cbn [fst snd].
  rewrite detectNewOutbreaks_created. cbn [snd store_of outbreaks].
  apply created_none_for_active, H.
Qed.

(** An update that leaves [isActive] out, whatever status it writes,
    keeps the pair of an active outbreak blocked: the outbreak is still
    found active, and a detection run that follows creates no record for
    the pair. *)
Theorem put_status_keeps_pair_blocked (zone : TimeZone) (db : Db) (id : nat) (body : UpdateBody)
  (d l : string) (threshold timeWindow : option Z) (ids : nat -> nat) (now : Z) :
  u_isActive body = None ->
  has_active (collection db) d l ->
  has_active (collection (fst (put_outbreak db id body))) d l
  /\ records_of
       (fst (snd (post_detect zone (fst (put_outbreak db id body))
                    threshold timeWindow ids now))) d l = [].
Proof.
  intros Hb H.
  assert (H' : has_active (collection (fst (put_outbreak db id body))) d l).
  { unfold put_outbreak.
    pose proof (findByIdAndUpdate_split (outbreak_docs db) id (apply_update body))
      as S.
    destruct (findById (outbreak_docs db) id) as [o|]; [|rewrite S; exact H].
    destruct S as [l1 [l2 [E ->]]]. cbn [fst].
    destruct H as [o1 [Hin Ho1]].
    unfold collection in *. cbn [outbreak_docs]. rewrite E in Hin.
    rewrite map_app in *. cbn [map snd] in *.
    apply in_app_or in Hin. destruct Hin as [Hin|[<-|Hin]].
    - exists o1. split; [apply in_or_app; left|]; assumption.
    - exists (apply_update body o). split; [apply in_or_app; right; left;
                                             reflexivity|].
      unfold active_for in *.
      cbn [apply_update Outbreak.diseaseName Outbreak.location Outbreak.isActive].
      rewrite Hb. exact Ho1.
    - exists o1. split; [apply in_or_app; right; right|]; assumption. }
  split; [exact H' | apply detect_none_for_active, H'].
Qed.

Lemma put_status_keeps_pair_blocked_witness :
  has_active (collection (fst (put_outbreak one_flu_db 1 resolve_body)))
    "flu" hospital
  /\ records_of
       (fst (snd (post_detect new_york (fst (put_outbreak one_flu_db 1 resolve_body))
                    None None no_ids 1700000000000))) "flu" hospital = [].
Proof.
  apply put_status_keeps_pair_blocked; [reflexivity|].
  exists (new_outbreak (mkGroup "flu" hospital 3 0 0 0 0 0 []) 3 7).
  split; [simpl; tauto | reflexivity].
Defined.

(** ** Manual declaration *)







(** Once an outbreak is declared for a disease, a second declaration for
    it is refused with the message of the route and changes nothing, and
    a detection run creates no record for the disease at the hospital. *)
Theorem post_manual_blocks_repeats (zone : TimeZone) (db : Db) (body : ManualBody) (_id : nat)
  (now : Z) (db' : Db) (o : Outbreak.t) (u n : nat) :
  post_manual db body _id now = (db', Declared o u n) ->
  (forall (body' : ManualBody) (_id' : nat) (now' : Z),
     b_diseaseName body' = b_diseaseName body ->
     post_manual db' body' _id' now'
     = (db', BadRequest ("Active outbreak already exists for "
                          ++ b_diseaseName body)))
  /\ (forall (threshold timeWindow : option Z) (ids : nat -> nat) (now' : Z),
        records_of (fst (snd (post_detect zone db' threshold timeWindow ids now')))
          (b_diseaseName body) hospital = []).
Proof.
  intro E. pose proof (post_manual_collection db body _id now) as M.
  cbn zeta in M. rewrite E in M. cbn [fst snd] in M.
  destruct M as [Ec [Hp [Ha [_ Hn]]]].
  assert (H : has_active (collection db') (b_diseaseName body) hospital).
  { exists o. split; [rewrite Ec; apply in_or_app; right; left; reflexivity|].
    unfold active_for. unfold pair_of in Hp. injection Hp as -> ->.
    rewrite same_key_refl, Ha. reflexivity. }
  split.
  - intros body' _id' now' Eb. unfold post_manual. rewrite Eb.
    destruct (String.eqb_spec (b_diseaseName body) "") as [E0|_];
      [contradiction|].
    apply findOne_active_some in H.
    destruct (findOne_active (collection db') (b_diseaseName body) hospital);
      [reflexivity | contradiction].
  - intros. apply detect_none_for_active, H.
Qed.

Lemma post_manual_blocks_repeats_witness :
  exists db',
    fst (post_manual ward_db measles_body 41 1700000000000) = db'
    /\ post_manual db' (mkManualBody "measles" None "again" None None) 42
         1700000500000
       = (db', BadRequest "Active outbreak already exists for measles")
    /\ records_of (fst (snd (post_detect new_york db' (Some 1%Z) None no_ids
                               1700000500000))) "measles" hospital = [].
Proof.
  eexists. split; [reflexivity|].
  pose proof (@post_manual_blocks_repeats new_york ward_db measles_body 41%nat
                1700000000000%Z _ _ _ _ eq_refl) as [H1 H2].
  split; [apply (H1 (mkManualBody "measles" None "again" None None)); reflexivity
         | apply H2].
Defined.
